(** * Connection-management simulator: session manager, address pool,
      reachability and packet animator

    A shallow embedding of the session manager (the SessionManager class)
    and of the packet animator (js/packet-animator.js), with the properties
    their specification states about them.

    Conventions of the embedding.
    - JavaScript strings are [string]; a property that may be [undefined]
      or [null] is an [option]; truthiness of such a value is [truthy].
    - Integers (pool counter, session id) are [Z]; the numbers the animator
      adds and compares (progress, speed, coordinates) are binary64 floats,
      as in JavaScript.
    - [Date.now()] and [Math.random()] are read from an environment record.
    - Objects of the data store are identified by their [id]; a mutation of
      such an object followed by [updateNF] is a replacement in the store.
    - Log records, listener notifications and canvas rendering change no
      state the properties below speak about and are left out; an exception
      raised while a protocol message is logged, animated or delayed is an
      input of the model ([throwsAt]). *)

From Stdlib Require Import ZArith String Ascii List Bool Lia.
From Stdlib Require Import DecimalString DecimalZ Floats.
From stdpp Require Import gmap strings list.
Import ListNotations.
Local Open Scope Z_scope.
Set Warnings "-inexact-float".



(** ** JavaScript values *)

(** Template-literal rendering of an integer: [`${n}`]. *)
Definition string_of_Z (z : Z) : string :=
  NilZero.string_of_int (Z.to_int z).

(** [!!s] for a string-valued property. *)
Definition truthy (o : option string) : bool :=
  match o with
  | Some s => negb (String.eqb s "")
  | None => false
  end.

(** [s.split('.')]. *)
Fixpoint split_dot (s : string) : list string :=
  match s with
  | EmptyString => [EmptyString]
  | String c rest =>
      if Ascii.eqb c "." then EmptyString :: split_dot rest
      else match split_dot rest with
           | p :: ps => String c p :: ps
           | [] => [String c EmptyString]
           end
  end.

Definition is_digit (c : ascii) : bool :=
  let n := nat_of_ascii c in ((48 <=? n) && (n <=? 57))%nat.

Fixpoint take_digits (s : string) : string :=
  match s with
  | EmptyString => EmptyString
  | String c rest => if is_digit c then String c (take_digits rest) else EmptyString
  end.

(** [s.match(/\d+/)?.[0]]: the first maximal run of digits. *)
Fixpoint match_digits (s : string) : option string :=
  match s with
  | EmptyString => None
  | String c rest => if is_digit c then Some (take_digits s) else match_digits rest
  end.

(** ** The data store *)

Module Store.

(** One entry of a pool's [assignedIPs] array. *)
Record AssignedIP := mkAssignedIP {
  a_ueId : string;
  a_ueName : string;
  a_ip : string;
  a_assignedAt : Z
}.

(** The gateway's [tun0Interface]: the address pool. *)
Record Tun0Interface := mkTun0 {
  gatewayIP : option string;
  assignedIPs : option (list AssignedIP);
  nextAvailableIP : option Z
}.

Inductive State := IDLE | ESTABLISHING | ACTIVE | RELEASING | RELEASED.

(** [ue.config.pduSession]. *)
Record PduSession := mkPduSession {
  ps_sessionId : option Z;
  ps_upfId : string;
  ps_assignedIP : option string;
  ps_status : string;
  ps_establishedAt : Z
}.

(** [ue.config.tunInterface]. *)
Record TunInterface := mkTunInterface {
  tun_name : string;
  tun_ipAddress : option string;
  tun_netmask : string;
  tun_destination : option string;
  tun_gateway : string;
  tun_mtu : Z;
  tun_flags : string;
  tun_createdAt : Z
}.

Record Config := mkConfig {
  ipAddress : option string;
  subscriberImsi : option string;
  tun0Interface : option Tun0Interface;
  pduSession : option PduSession;
  tunInterface : option TunInterface;
  pduSessionState : option State
}.

Record Position := mkPosition { px : float; py : float }.

(** A network function (node). *)
Record NF := mkNF {
  nf_id : string;
  nf_type : string;
  nf_name : string;
  status : string;
  config : Config;
  position : Position
}.

Record Connection := mkConnection { sourceId : string; targetId : string }.

Record BusConnection := mkBusConnection { nfId : string; busId : string }.

Record Bus := mkBus {
  bus_id : string;
  orientation : string;
  bus_position : Position
}.

Record DataStore := mkDataStore {
  nfs : list NF;
  connections : list Connection;
  busConnections : list BusConnection;
  buses : list Bus
}.

(** Modelled from the spec: the store class ([window.dataStore]) is not
    among the sources.  The spec gives it nodes, links, buses and bus
    attachments, "pure data with query operations (links for node,
    bus-attachments for node, bus by id)"; a node is looked up by its
    identity.  A missing store ([window.dataStore] undefined) answers every
    query of the callers below like the empty store. *)
Definition getNFById (ds : DataStore) (id : string) : option NF :=
  find (fun nf => String.eqb (nf_id nf) id) (nfs ds).

(** Modelled from the spec: all nodes, in store order. *)
Definition getAllNFs (ds : DataStore) : list NF := nfs ds.

(** Modelled from the spec: the links one of whose ends is the node. *)
Definition getConnectionsForNF (ds : DataStore) (id : string) : list Connection :=
  filter (fun c => sourceId c = id \/ targetId c = id) (connections ds).

(** Modelled from the spec: the bus attachments of the node. *)
Definition getBusConnectionsForNF (ds : DataStore) (id : string) : list BusConnection :=
  filter (fun bc => nfId bc = id) (busConnections ds).

(** Modelled from the spec: the bus with the given identity. *)
Definition getBusById (ds : DataStore) (id : string) : option Bus :=
  find (fun b => String.eqb (bus_id b) id) (buses ds).

Fixpoint replaceNF (id : string) (nf : NF) (l : list NF) : list NF :=
  match l with
  | [] => []
  | x :: rest =>
      if String.eqb (nf_id x) id then nf :: rest else x :: replaceNF id nf rest
  end.

(** Modelled from the spec: [updateNF(id, nf)] stores the (mutated) node
    under its identity; an unknown identity changes nothing. *)
Definition updateNF (ds : DataStore) (id : string) (nf : NF) : DataStore :=
  mkDataStore (replaceNF id nf (nfs ds)) (connections ds) (busConnections ds) (buses ds).

Definition set_config (nf : NF) (c : Config) : NF :=
  mkNF (nf_id nf) (nf_type nf) (nf_name nf) (status nf) c (position nf).

Definition set_tun0 (c : Config) (t : option Tun0Interface) : Config :=
  mkConfig (ipAddress c) (subscriberImsi c) t (pduSession c) (tunInterface c)
           (pduSessionState c).

(** The invariant the specification gives the store: a node has an
    identity, a non-empty string no other node of the store has. *)
Definition wellFormed (ds : DataStore) : Prop :=
  NoDup (map nf_id (nfs ds)) /\ (forall nf, nf ∈ nfs ds -> nf_id nf <> "").

(** [nf?.type === t]. *)
Definition hasType (o : option NF) (t : string) : bool :=
  match o with
  | Some nf => String.eqb (nf_type nf) t
  | None => false
  end.

End Store.
Import Store.

(** ** The session manager *)

Module SessionManager.

(** [getNetworkFromIP(ip)]: the first three octets, or the empty string
    when the address is missing or has not exactly four parts. *)
Definition getNetworkFromIP (ip : option string) : string :=
  match ip with
  | None => ""
  | Some s =>
      if String.eqb s "" then ""
      else match split_dot s with
           | [p0; p1; p2; _] => p0 +:+ "." +:+ p1 +:+ "." +:+ p2
           | _ => ""
           end
  end.

(** *** Reachability: [areNFsConnected] *)

(** [connections.some(conn => conn.sourceId === nfId2 || conn.targetId === nfId2)]
    over the links of [nfId1]. *)
Definition hasDirectConnection (ds : DataStore) (nfId1 nfId2 : string) : bool :=
  existsb (fun conn => String.eqb (sourceId conn) nfId2 || String.eqb (targetId conn) nfId2)
          (getConnectionsForNF ds nfId1).

(** The two nested loops over the bus attachments of both nodes. *)
Definition shareBus (ds : DataStore) (nfId1 nfId2 : string) : bool :=
  existsb (fun bc1 =>
             existsb (fun bc2 => String.eqb (busId bc1) (busId bc2))
                     (getBusConnectionsForNF ds nfId2))
          (getBusConnectionsForNF ds nfId1).

(** [conn.sourceId === ueId ? conn.targetId : conn.sourceId]. *)
Definition gnbIdOf (ueId : string) (conn : Connection) : string :=
  if String.eqb (sourceId conn) ueId then targetId conn else sourceId conn.

(** The [for (const conn of ueConns)] loop; [rec] is the recursive call
    [this.areNFsConnected(gnbId, otherId)], [None] when it has no fuel. *)
Fixpoint viaGnbLoop (ds : DataStore) (rec : string -> string -> option bool)
         (ueId otherId : string) (ueConns : list Connection) : option bool :=
  match ueConns with
  | [] => Some false
  | conn :: rest =>
      let gnbId := gnbIdOf ueId conn in
      if hasType (getNFById ds gnbId) "gNB" then
        match rec gnbId otherId with
        | None => None
        | Some true => Some true
        | Some false => viaGnbLoop ds rec ueId otherId rest
        end
      else viaGnbLoop ds rec ueId otherId rest
  end.

(** [areNFsConnected(nfId1, nfId2)], with the depth of the recursion
    bounded by [fuel]; [None] only when the fuel runs out. *)
Fixpoint areNFsConnected_fuel (fuel : nat) (ds : DataStore) (nfId1 nfId2 : string)
  : option bool :=
  match fuel with
  | O => None
  | S fuel' =>
      let connections := getConnectionsForNF ds nfId1 in
      if hasDirectConnection ds nfId1 nfId2 then Some true
      else if shareBus ds nfId1 nfId2 then Some true
      else
        let nf1 := getNFById ds nfId1 in
        let nf2 := getNFById ds nfId2 in
        if hasType nf1 "UE" || hasType nf2 "UE" then
          let ueId := if hasType nf1 "UE" then nfId1 else nfId2 in
          let otherId := if hasType nf1 "UE" then nfId2 else nfId1 in
          let ueConns := connections in
          viaGnbLoop ds (areNFsConnected_fuel fuel' ds) ueId otherId ueConns
        else Some false
  end.

(** The recursion never goes deeper than three calls
    ([areNFsConnected_total] below). *)
Definition areNFsConnected (ds : DataStore) (nfId1 nfId2 : string) : bool :=
  match areNFsConnected_fuel 3 ds nfId1 nfId2 with
  | Some b => b
  | None => false
  end.

(** *** Prerequisites: [validatePrerequisites] *)

Record NFs := mkNFs { ue : NF; amf : NF; smf : NF; upf : NF }.

(** The object [validatePrerequisites] returns: either
    [{ valid: false, error: reason, nfs: null }] or
    [{ valid: true, error: null, nfs: { ue, amf, smf, upf } }]. *)
Inductive Validation :=
| Invalid (reason : string)
| Valid (found : NFs).

Definition valid (v : Validation) : bool :=
  match v with Valid _ => true | Invalid _ => false end.

Definition error (v : Validation) : option string :=
  match v with Valid _ => None | Invalid reason => Some reason end.

Definition v_nfs (v : Validation) : option NFs :=
  match v with Valid found => Some found | Invalid _ => None end.

(** The predicate of the three [allNFs.find] calls. *)
Definition stableInSubnet (t ueNetwork : string) (nf : NF) : bool :=
  String.eqb (nf_type nf) t
  && String.eqb (status nf) "stable"
  && String.eqb (getNetworkFromIP (ipAddress (config nf))) ueNetwork.

Definition validatePrerequisites (ds : DataStore) (ueId : string) : Validation :=
  match getNFById ds ueId with
  | None => Invalid "UE not found"
  | Some ue =>
      if negb (String.eqb (nf_type ue) "UE") then Invalid "UE not found"
      else if negb (truthy (subscriberImsi (config ue))) then
        Invalid "UE is not registered (no IMSI configured)"
      else
        let ueNetwork := getNetworkFromIP (ipAddress (config ue)) in
        let allNFs := getAllNFs ds in
        match find (stableInSubnet "AMF" ueNetwork) allNFs with
        | None => Invalid "No stable AMF found in same subnet"
        | Some amf =>
            if negb (areNFsConnected ds (nf_id ue) (nf_id amf)) then
              Invalid "UE is not connected to AMF (directly or via gNB)"
            else
              match find (stableInSubnet "SMF" ueNetwork) allNFs with
              | None => Invalid "No stable SMF found in same subnet"
              | Some smf =>
                  match find (stableInSubnet "UPF" ueNetwork) allNFs with
                  | None => Invalid "No stable UPF found in same subnet"
                  | Some upf =>
                      match tun0Interface (config upf) with
                      | None => Invalid "UPF does not have tun0 interface configured"
                      | Some _ =>
                          Valid (mkNFs ue amf smf upf)
                      end
                  end
              end
        end
  end.


(** *** Sessions and the world the manager acts on *)

Record Session := mkSession {
  s_ueId : string;
  state : State;
  pduSessionId : option Z;
  assignedIP : option string;
  tunnelId : option string;
  upfId : option string;
  createdAt : option Z
}.

(** [this.sessions] (a [Map] from terminal id to session) and the store. *)
Record World := mkWorld {
  dataStore : DataStore;
  sessions : gmap string Session
}.

(** The twelve protocol messages; each is logged, animated and followed by
    its settling delay. *)
Inductive Message :=
| N1EstablishmentRequest
| NsmfPDUSessionCreate
| N4SessionEstablishmentRequest
| N4SessionEstablishmentResponse
| PDUSessionAccept
| N1SessionAccept
| N1ReleaseRequest
| NsmfPDUSessionRelease
| N4SessionReleaseRequest
| N4SessionReleaseResponse
| ReleaseConfirmation
| N1ReleaseComplete.

#[global]
Instance Message_eq_dec : EqDecision Message.
Proof. solve_decision. Defined.

(** What the manager reads from its surroundings: whether transmitting a
    message raises, [Math.floor(Math.random() * 255)],
    [Math.floor(Math.random() * 9000)] and [Date.now()]. *)
Record Env := mkEnv {
  throwsAt : Message -> bool;
  randomSessionId : Z;
  randomTunnel : Z;
  now : Z
}.

Definition newSession (ueId : string) : Session :=
  mkSession ueId IDLE None None None None None.

(** [getSession(ueId)]: the session of the terminal, created on first use. *)
Definition getSession (w : World) (ueId : string) : World * Session :=
  match sessions w !! ueId with
  | Some s => (w, s)
  | None =>
      (mkWorld (dataStore w) (<[ueId := newSession ueId]> (sessions w)), newSession ueId)
  end.

Definition getSessionState (w : World) (ueId : string) : State :=
  state (snd (getSession w ueId)).

(** A mutation of the session object of [ueId]. *)
Definition modifySession (ueId : string) (f : Session -> Session) (w : World) : World :=
  mkWorld (dataStore w) (alter f ueId (sessions w)).

Definition setStore (w : World) (ds : DataStore) : World :=
  mkWorld ds (sessions w).

Definition setState (st : State) (s : Session) : Session :=
  mkSession (s_ueId s) st (pduSessionId s) (assignedIP s) (tunnelId s) (upfId s)
            (createdAt s).

(** *** Address allocation: [allocateUEIP] *)

(** [`10.0.0.${nextIP}`]. *)
Definition candidateIP (nextIP : Z) : string := "10.0.0." +:+ string_of_Z nextIP.

(** [(tun0.assignedIPs || []).some(a => a.ip === candidateIP)]. *)
Definition isAssigned (tun0 : Tun0Interface) (ip : string) : bool :=
  existsb (fun a => String.eqb (a_ip a) ip) (default [] (assignedIPs tun0)).

(** The pool after [push] and the counter update. *)
Definition recordAllocation (tun0 : Tun0Interface) (ue : NF) (nextIP at_ : Z)
  : Tun0Interface :=
  mkTun0 (gatewayIP tun0)
         (Some (default [] (assignedIPs tun0)
                ++ [mkAssignedIP (nf_id ue) (nf_name ue) (candidateIP nextIP) at_]))
         (Some (nextIP + 1)).

Inductive Scan :=
| Allocated (tun0' : Tun0Interface) (ip : string)
| Exhausted.

(** The [while (nextIP <= 14)] loop; [None] only when the fuel runs out. *)
Fixpoint allocateLoop (fuel : nat) (tun0 : Tun0Interface) (ue : NF) (at_ nextIP : Z)
  : option Scan :=
  if nextIP <=? 14 then
    match fuel with
    | O => None
    | S fuel' =>
        if isAssigned tun0 (candidateIP nextIP)
        then allocateLoop fuel' tun0 ue at_ (nextIP + 1)
        else Some (Allocated (recordAllocation tun0 ue nextIP at_) (candidateIP nextIP))
    end
  else Some Exhausted.

(** [tun0.nextAvailableIP || 2]. *)
Definition startIP (tun0 : Tun0Interface) : Z :=
  match nextAvailableIP tun0 with
  | Some n => if n =? 0 then 2 else n
  | None => 2
  end.

(** The scan of one pool, with the fuel the loop needs at most. *)
Definition scanPool (tun0 : Tun0Interface) (ue : NF) (at_ : Z) : option Scan :=
  allocateLoop (Z.to_nat (15 - startIP tun0)) tun0 ue at_ (startIP tun0).

(** The part of [allocateUEIP] that acts on the pool alone: the pool after
    the call and the address returned. *)
Definition allocate (tun0 : Tun0Interface) (ue : NF) (at_ : Z) : Tun0Interface * string :=
  match scanPool tun0 ue at_ with
  | Some (Allocated tun0' ip) => (tun0', ip)
  | Some Exhausted => (tun0, "10.0.0.2")
  | None => (tun0, "10.0.0.2")
  end.

(** [allocateUEIP(upf, ue)]: the store after [updateNF], the gateway object
    after its mutation, and the address returned. *)
Definition allocateUEIP (ds : DataStore) (upf ue : NF) (at_ : Z)
  : DataStore * NF * string :=
  match tun0Interface (config upf) with
  | None => (ds, upf, "10.0.0.2")
  | Some tun0 =>
      match scanPool tun0 ue at_ with
      | Some (Allocated tun0' ip) =>
          let upf' := set_config upf (set_tun0 (config upf) (Some tun0')) in
          (updateNF ds (nf_id upf') upf', upf', ip)
      | Some Exhausted => (ds, upf, "10.0.0.2")
      | None => (ds, upf, "10.0.0.2")
      end
  end.

(** [allocate] called once per requester, one call after the other. *)
Fixpoint allocateMany (tun0 : Tun0Interface) (reqs : list (NF * Z))
  : Tun0Interface * list string :=
  match reqs with
  | [] => (tun0, [])
  | (ue, at_) :: rest =>
      let '(tun0', ip) := allocate tun0 ue at_ in
      let '(tun0'', ips) := allocateMany tun0' rest in
      (tun0'', ip :: ips)
  end.

(** *** Protocol steps: state passing with exceptions *)

(** The result of running a piece of an [async] body: it returned a value,
    or an exception left it.  Mutations made before the exception stay. *)
Inductive Outcome (A : Type) :=
| Returned (a : A)
| Thrown.
Arguments Returned {A} a.
Arguments Thrown {A}.

Definition Step (A : Type) : Type := World -> World * Outcome A.

Definition ret {A : Type} (a : A) : Step A := fun w => (w, Returned a).

Definition bind {A B : Type} (m : Step A) (k : A -> Step B) : Step B :=
  fun w =>
    match m w with
    | (w', Returned a) => k a w'
    | (w', Thrown) => (w', Thrown)
    end.

Notation "x <- m ;; k" := (bind m (fun x => k))
  (at level 100, m at next level, right associativity).
Notation "m ;; k" := (bind m (fun _ => k))
  (at level 100, right associativity).

(** A synchronous mutation of the world. *)
Definition mutate (f : World -> World) : Step unit := fun w => (f w, Returned tt).

(** Logging, animating and delaying one message: it changes nothing the
    manager owns and either completes or raises. *)
Definition transmit (env : Env) (m : Message) : Step unit :=
  fun w => if throwsAt env m then (w, Thrown) else (w, Returned tt).

Definition sendN1EstablishmentRequest (env : Env) : Step unit :=
  transmit env N1EstablishmentRequest.

Definition sendNsmfPDUSessionCreate (env : Env) : Step unit :=
  transmit env NsmfPDUSessionCreate.

(** [sendN4SessionEstablishment]: the request, then the allocation and the
    tunnel id, then the response; it returns [{ ueIp, tunnelId }] (and, here,
    the gateway object as mutated). *)
Definition sendN4SessionEstablishment (env : Env) (upf ue : NF)
  : Step (string * string * NF) :=
  transmit env N4SessionEstablishmentRequest ;;
  fun w =>
    let '(ds', upf', assignedIP) := allocateUEIP (dataStore w) upf ue (now env) in
    let tunnelId := "gtp-" +:+ string_of_Z (1000 + randomTunnel env) in
    (transmit env N4SessionEstablishmentResponse ;;
     ret (assignedIP, tunnelId, upf')) (setStore w ds').

Definition sendPDUSessionAccept (env : Env) : Step unit :=
  transmit env PDUSessionAccept.

Definition sendN1SessionAccept (env : Env) : Step unit :=
  transmit env N1SessionAccept.

Definition sendN1ReleaseRequest (env : Env) : Step unit :=
  transmit env N1ReleaseRequest.

Definition sendNsmfPDUSessionRelease (env : Env) : Step unit :=
  transmit env NsmfPDUSessionRelease.

Definition sendN4SessionRelease (env : Env) : Step unit :=
  transmit env N4SessionReleaseRequest ;;
  transmit env N4SessionReleaseResponse.

Definition sendReleaseConfirmation (env : Env) : Step unit :=
  transmit env ReleaseConfirmation.

Definition sendN1ReleaseComplete (env : Env) : Step unit :=
  transmit env N1ReleaseComplete.

(** *** Establishment *)

(** The terminal's config after the commit at the end of establishment. *)
Definition establishedConfig (env : Env) (ue upf : NF) (session : Session) : Config :=
  let ueNum := default "1" (match_digits (nf_name ue)) in
  let gw := match tun0Interface (config upf) with
            | Some tun0 => if truthy (gatewayIP tun0)
                           then default "10.0.0.1" (gatewayIP tun0)
                           else "10.0.0.1"
            | None => "10.0.0.1"
            end in
  mkConfig (ipAddress (config ue)) (subscriberImsi (config ue))
           (tun0Interface (config ue))
           (Some (mkPduSession (pduSessionId session) (nf_id upf) (assignedIP session)
                               "established" (now env)))
           (Some (mkTunInterface ("tun_ue" +:+ ueNum) (assignedIP session)
                                 "255.255.255.0" (assignedIP session) gw 1500
                                 "UP,POINTOPOINT,RUNNING,NOARP,MULTICAST" (now env)))
           (Some ACTIVE).

(** [session.pduSessionId = ...]. *)
Definition setPduSessionId (id : Z) (s : Session) : Session :=
  mkSession (s_ueId s) (state s) (Some id) (assignedIP s) (tunnelId s) (upfId s)
            (createdAt s).

(** Step 4: [session.assignedIP], [session.tunnelId] and [session.upfId]. *)
Definition setAllocation (ueIp tunnel upfKey : string) (s : Session) : Session :=
  mkSession (s_ueId s) (state s) (pduSessionId s) (Some ueIp) (Some tunnel)
            (Some upfKey) (createdAt s).

(** [session.state = ACTIVE; session.createdAt = Date.now()]. *)
Definition setActive (at_ : Z) (s : Session) : Session :=
  mkSession (s_ueId s) ACTIVE (pduSessionId s) (assignedIP s) (tunnelId s) (upfId s)
            (Some at_).

(** The update of the terminal's config and [updateNF(ueId, ue)]. *)
Definition commitTerminal (env : Env) (ueId : string) (ue upf' : NF) (w : World) : World :=
  let session := snd (getSession w ueId) in
  let ue' := set_config ue (establishedConfig env ue upf' session) in
  setStore w (updateNF (dataStore w) ueId ue').

(** The body of the [try] block of [establishPDUSession]. *)
Definition establishSteps (env : Env) (ueId : string) (found : NFs) : Step bool :=
  mutate (modifySession ueId (setPduSessionId (randomSessionId env + 1))) ;;
  sendN1EstablishmentRequest env ;;
  sendNsmfPDUSessionCreate env ;;
  n4Response <- sendN4SessionEstablishment env (upf found) (ue found) ;;
  let '(ueIp, tunnel, upf') := n4Response in
  mutate (modifySession ueId (setAllocation ueIp tunnel (nf_id upf'))) ;;
  sendPDUSessionAccept env ;;
  sendN1SessionAccept env ;;
  mutate (commitTerminal env ueId (ue found) upf') ;;
  mutate (modifySession ueId (setActive (now env))) ;;
  ret true.

(** [establishPDUSession(ueId)]: the world after the call and the value the
    promise resolves to. *)
Definition establishPDUSession (env : Env) (w : World) (ueId : string) : World * bool :=
  let '(w, session) := getSession w ueId in
  match state session with
  | ACTIVE => (w, true)
  | ESTABLISHING => (w, false)
  | _ =>
      match validatePrerequisites (dataStore w) ueId with
      | Invalid _ => (w, false)
      | Valid found =>
          let w := modifySession ueId (setState ESTABLISHING) w in
          match establishSteps env ueId found w with
          | (w', Returned r) => (w', r)
          | (w', Thrown) => (modifySession ueId (setState IDLE) w', false)
          end
      end
  end.

(** *** Release *)

(** The reset of the session at the end of [cleanupSession]. *)
Definition resetSession (s : Session) : Session :=
  mkSession (s_ueId s) RELEASED None None None None None.

(** The pool without the entries of terminal [ueId]. *)
Definition withoutEntriesOf (ueId : string) (tun0 : Tun0Interface) (l : list AssignedIP)
  : Tun0Interface :=
  mkTun0 (gatewayIP tun0) (Some (filter (fun a => a_ueId a <> ueId) l))
         (nextAvailableIP tun0).

(** The terminal's config after [delete pduSession], [delete tunInterface]
    and [pduSessionState = RELEASED]. *)
Definition releasedConfig (c : Config) : Config :=
  mkConfig (ipAddress c) (subscriberImsi c) (tun0Interface c) None None (Some RELEASED).

(** [cleanupSession(ueId)].  Store objects are shared: the terminal object
    read at the top of the source function is the node as it stands after
    the pool update, which is where it is read here. *)
Definition cleanupSession (w : World) (ueId : string) : World :=
  let '(w, session) := getSession w ueId in
  let ds := dataStore w in
  let ds1 :=
    if truthy (upfId session) && truthy (assignedIP session) then
      let upfKey := default "" (upfId session) in
      match getNFById ds upfKey with
      | Some upf =>
          match tun0Interface (config upf) with
          | Some tun0 =>
              match assignedIPs tun0 with
              | Some l =>
                  let tun0' := withoutEntriesOf ueId tun0 l in
                  updateNF ds upfKey (set_config upf (set_tun0 (config upf) (Some tun0')))
              | None => ds
              end
          | None => ds
          end
      | None => ds
      end
    else ds in
  let ds2 :=
    match getNFById ds1 ueId with
    | Some ue => updateNF ds1 ueId (set_config ue (releasedConfig (config ue)))
    | None => ds1
    end in
  modifySession ueId resetSession (setStore w ds2).

(** The body of the [try] block of [releasePDUSession], up to the cleanup. *)
Definition releaseSteps (env : Env) : Step unit :=
  sendN1ReleaseRequest env ;;
  sendNsmfPDUSessionRelease env ;;
  sendN4SessionRelease env ;;
  sendReleaseConfirmation env ;;
  sendN1ReleaseComplete env.

(** [releasePDUSession(ueId)]. *)
Definition releasePDUSession (env : Env) (w : World) (ueId : string) : World * bool :=
  let '(w, session) := getSession w ueId in
  match state session with
  | ACTIVE =>
      match getNFById (dataStore w) ueId with
      | None => (w, false)
      | Some _ =>
          match validatePrerequisites (dataStore w) ueId with
          | Invalid _ => (cleanupSession w ueId, true)
          | Valid _ =>
              let w := modifySession ueId (setState RELEASING) w in
              match releaseSteps env w with
              | (w', Returned _) => (cleanupSession w' ueId, true)
              | (w', Thrown) => (cleanupSession w' ueId, false)
              end
          end
      end
  | _ => (w, false)
  end.

End SessionManager.

(** ** The packet animator *)

Module PacketAnimator.

(** A packet in flight.  [onComplete] is the [resolve] function of the
    promise [sendPacket] returned; it is named by the number the caller gave
    the request.  The fields kept for display only (names, method, protocol,
    payload, message id, creation time) are left out. *)
Record Packet := mkPacket {
  pkt_id : string;
  pkt_sourceId : string;
  pkt_targetId : string;
  path : list Position;
  currentSegment : nat;
  segmentProgress : float;
  progress : float;
  speed : float;
  color : string;
  direction : string;
  onComplete : nat;
  currentX : float;
  currentY : float
}.

(** The [options] argument of [sendPacket]. *)
Record Options := mkOptions {
  o_sourceId : string;
  o_targetId : string;
  o_interface : string;
  o_direction : string;
  o_error : bool;
  o_speed : option float
}.

(** The animator object, the animation frames the browser still holds for
    it ([pendingFrames], with [nextFrame] the next identifier
    [requestAnimationFrame] hands out), and two records of what it did:
    [resolved], the continuations invoked so far, oldest first, and
    [ticks], the size of the live set at the start of each pass of
    [updatePackets], oldest first. *)
Record Animator := mkAnimator {
  packets : list Packet;
  packetCounter : Z;
  isRunning : bool;
  animationFrameId : option nat;
  pendingFrames : list nat;
  nextFrame : nat;
  resolved : list nat;
  ticks : list nat
}.

Definition defaultSpeed : float := 0.012%float.

(** The object the constructor builds; the browser numbers frames from 1. *)
Definition constructed : Animator :=
  mkAnimator [] 0 false None [] 1 [] [].

(** [getNFBusConnectionPoint(nf, bus)]. *)
Definition getNFBusConnectionPoint (nf : NF) (bus : Bus) : Position :=
  if String.eqb (orientation bus) "horizontal"
  then mkPosition (px (position nf)) (py (bus_position bus))
  else mkPosition (px (bus_position bus)) (py (position nf)).

(** The search for a common bus in [calculatePath]: the first attachment of
    the source whose bus the target is attached to and the store knows. *)
Fixpoint findCommonBus (ds : DataStore) (sourceBusConns targetBusConns : list BusConnection)
  : option Bus :=
  match sourceBusConns with
  | [] => None
  | sbc :: rest =>
      if existsb (fun tbc => String.eqb (busId sbc) (busId tbc)) targetBusConns then
        match getBusById ds (busId sbc) with
        | Some bus => Some bus
        | None => findCommonBus ds rest targetBusConns
        end
      else findCommonBus ds rest targetBusConns
  end.

(** [calculatePath(source, target)]. *)
Definition calculatePath (ds : DataStore) (source target : NF) : list Position :=
  let start := [mkPosition (px (position source)) (py (position source))] in
  let finish := [mkPosition (px (position target)) (py (position target))] in
  match findCommonBus ds (getBusConnectionsForNF ds (nf_id source))
                      (getBusConnectionsForNF ds (nf_id target)) with
  | Some commonBus =>
      let sourceBusPoint := getNFBusConnectionPoint source commonBus in
      let targetBusPoint := getNFBusConnectionPoint target commonBus in
      let along :=
        if String.eqb (orientation commonBus) "horizontal" then
          if (10 <? abs (px sourceBusPoint - px targetBusPoint))%float
          then [mkPosition (px targetBusPoint) (py sourceBusPoint)] else []
        else
          if (10 <? abs (py sourceBusPoint - py targetBusPoint))%float
          then [mkPosition (px sourceBusPoint) (py targetBusPoint)] else [] in
      start ++ [sourceBusPoint] ++ along ++ [targetBusPoint] ++ finish
  | None => start ++ finish
  end.

(** The [while (packet.segmentProgress >= 1.0 && seg < path.length - 1)]
    loop; it runs at most once per waypoint, which is the fuel. *)
Fixpoint carry (fuel : nat) (len seg : nat) (sp : float) : nat * float :=
  match fuel with
  | O => (seg, sp)
  | S fuel' =>
      if (1 <=? sp)%float && (seg + 1 <? len)%nat
      then carry fuel' len (S seg) (sp - 1)%float
      else (seg, sp)
  end.

Definition float_of_nat (n : nat) : float :=
  PrimFloat.of_uint63 (Uint63.of_Z (Z.of_nat n)).

Definition origin : Position := mkPosition 0 0.

(** The body of the [forEach] of [updatePackets] for one packet: the packet
    after the pass and whether it was pushed on [completedPackets].  It is
    the body for a packet whose segment index is an index of its path, as
    [sendPacket] makes packets and as a pass leaves them; there the default
    of [nth] is never read.  For a path that is empty, or an index past the
    path, the source raises a [TypeError] at [segStart.x], which this
    function does not show. *)
Definition advance (p : Packet) : Packet * bool :=
  let len := length (path p) in
  let '(seg, sp) := carry len len (currentSegment p) (segmentProgress p + speed p)%float in
  let finished := (len <=? seg + 1)%nat && (1 <=? sp)%float in
  let sp' := if finished then 1%float else sp in
  let segStart := nth seg (path p) origin in
  let segEnd := nth (Nat.min (seg + 1) (len - 1)) (path p) origin in
  let final := nth (len - 1) (path p) origin in
  let x := if finished then px final
           else (px segStart + (px segEnd - px segStart) * sp)%float in
  let y := if finished then py final
           else (py segStart + (py segEnd - py segStart) * sp)%float in
  let totalSegments := (len - 1)%nat in
  let pr := if (0 <? totalSegments)%nat
            then ((float_of_nat seg + sp') / float_of_nat totalSegments)%float
            else 1%float in
  (mkPacket (pkt_id p) (pkt_sourceId p) (pkt_targetId p) (path p) seg sp' pr (speed p)
            (color p) (direction p) (onComplete p) x y,
   finished).

(** [stopAnimation()]; a frame identifier is truthy when it is not zero. *)
Definition stopAnimation (a : Animator) : Animator :=
  match animationFrameId a with
  | Some (S _ as f) =>
      mkAnimator (packets a) (packetCounter a) false None
                 (filter (fun g => g <> f) (pendingFrames a))
                 (nextFrame a) (resolved a) (ticks a)
  | other =>
      mkAnimator (packets a) (packetCounter a) false other (pendingFrames a)
                 (nextFrame a) (resolved a) (ticks a)
  end.

(** [updatePackets()].  Every packet object is in the array once, so
    removing the completed ones by [indexOf]/[splice] keeps exactly the
    packets the pass did not complete, in order. *)
Definition updatePackets (a : Animator) : Animator :=
  let passed := map advance (packets a) in
  let live := map fst (filter (fun r => snd r = false) passed) in
  let completedPackets := map fst (filter (fun r => snd r = true) passed) in
  let a' := mkAnimator live (packetCounter a) (isRunning a) (animationFrameId a)
                       (pendingFrames a) (nextFrame a)
                       (resolved a ++ map onComplete completedPackets)
                       (ticks a ++ [length (packets a)]) in
  if (length live =? 0)%nat then stopAnimation a' else a'.

(** [animate()]: one pass, then the request for the next frame. *)
Definition animate (a : Animator) : Animator :=
  if negb (isRunning a) then a
  else
    let a' := updatePackets a in
    mkAnimator (packets a') (packetCounter a') (isRunning a')
               (Some (nextFrame a')) (pendingFrames a' ++ [nextFrame a'])
               (S (nextFrame a')) (resolved a') (ticks a').

(** [startAnimation()]. *)
Definition startAnimation (a : Animator) : Animator :=
  if isRunning a then a
  else animate (mkAnimator (packets a) (packetCounter a) true (animationFrameId a)
                           (pendingFrames a) (nextFrame a) (resolved a) (ticks a)).

(** [init()], without the click handler it installs. *)
Definition init (a : Animator) : Animator := startAnimation a.

(** [options.speed || this.defaultSpeed]. *)
Definition speedOf (o : Options) : float :=
  match o_speed o with
  | Some s => if (s =? 0)%float || is_nan s then defaultSpeed else s
  | None => defaultSpeed
  end.

Definition colorOf (o : Options) : string :=
  if String.eqb (o_direction o) "response" then "#f39c12"
  else if String.eqb (o_interface o) "N4" then "#27ae60"
  else if o_error o then "#e74c3c"
  else "#3498db".

(** [sendPacket(options)]; [k] names the promise's [resolve]. *)
Definition sendPacket (ds : DataStore) (o : Options) (k : nat) (a : Animator) : Animator :=
  match getNFById ds (o_sourceId o), getNFById ds (o_targetId o) with
  | Some source, Some target =>
      let path := calculatePath ds source target in
      let counter := packetCounter a + 1 in
      let start := nth 0 path origin in
      let packet := mkPacket ("pkt-" +:+ string_of_Z counter) (o_sourceId o) (o_targetId o)
                             path 0 0 0 (speedOf o) (colorOf o) (o_direction o) k
                             (px start) (py start) in
      let a' := mkAnimator (packets a ++ [packet]) counter (isRunning a)
                           (animationFrameId a) (pendingFrames a) (nextFrame a)
                           (resolved a) (ticks a) in
      if negb (isRunning a') then startAnimation a' else a'
  | _, _ =>
      mkAnimator (packets a) (packetCounter a) (isRunning a) (animationFrameId a)
                 (pendingFrames a) (nextFrame a) (resolved a ++ [k]) (ticks a)
  end.

(** What can happen to the animator: the application initialises it,
    submits a packet, or the browser runs a frame it holds. *)
Inductive Event :=
| Init
| Send (o : Options) (k : nat)
| Frame (f : nat).

Definition handle (ds : DataStore) (e : Event) (a : Animator) : Animator :=
  match e with
  | Init => init a
  | Send o k => sendPacket ds o k a
  | Frame f =>
      if bool_decide (f ∈ pendingFrames a)
      then animate (mkAnimator (packets a) (packetCounter a) (isRunning a)
                               (animationFrameId a)
                               (filter (fun g => g <> f) (pendingFrames a))
                               (nextFrame a) (resolved a) (ticks a))
      else a
  end.

Definition run (ds : DataStore) (es : list Event) (a : Animator) : Animator :=
  fold_left (fun a e => handle ds e a) es a.

(** The continuations of the packets submitted by a sequence of events. *)
Definition submitted (es : list Event) : list nat :=
  flat_map (fun e => match e with Send _ k => [k] | _ => [] end) es.

(** The pass of [updatePackets] completes the packet: after the carry it is
    on its final segment, [seg >= path.length - 1], with progress 1.0 or
    more. *)
Definition finishes (p : Packet) : bool :=
  let len := length (path p) in
  let '(seg, sp) := carry len len (currentSegment p) (segmentProgress p + speed p)%float in
  (len <=? seg + 1)%nat && (1 <=? sp)%float.


(** The continuations of the live packets. *)
Definition pending (a : Animator) : list nat := map onComplete (packets a).

(** A request between the terminal and the mobility anchor of the
    scenario, and the frames the browser runs after it. *)
Definition request : Options := mkOptions "ue-1" "amf-1" "N1" "request" false None.


End PacketAnimator.

(** ** The topologies of the scenarios *)

Module Scenario.
Import SessionManager.

Definition at0 : Position := mkPosition 0 0.

Definition plainConfig (ip : string) : Config :=
  mkConfig (Some ip) None None None None None.

Definition amf1 : NF := mkNF "amf-1" "AMF" "AMF-1" "stable" (plainConfig "192.168.1.11") at0.
Definition smf1 : NF := mkNF "smf-1" "SMF" "SMF-1" "stable" (plainConfig "192.168.1.12") at0.
Definition gnb1 : NF := mkNF "gnb-1" "gNB" "gNB-1" "stable" (plainConfig "192.168.1.21") at0.

(** The pool over 10.0.0.2 - 10.0.0.14, nothing allocated. *)
Definition pool0 : Tun0Interface := mkTun0 (Some "10.0.0.1") (Some []) (Some 2).

Definition upf1 : NF :=
  mkNF "upf-1" "UPF" "UPF-1" "stable"
       (mkConfig (Some "192.168.1.13") None (Some pool0) None None None) at0.


Definition terminal (n : Z) (ip : string) : NF :=
  mkNF ("ue-" +:+ string_of_Z n) "UE" ("UE-" +:+ string_of_Z n) "stable"
       (mkConfig (Some ip) (Some "001010000000001") None None None None) at0.

Definition ue1 : NF := terminal 1 "192.168.1.22".
Definition ue2 : NF := terminal 2 "192.168.1.23".

(** Terminal linked to the radio unit, radio unit linked to the mobility
    anchor (the link drawn from the anchor). *)
Definition links : list Connection :=
  [mkConnection "ue-1" "gnb-1"; mkConnection "amf-1" "gnb-1"].

Definition store : DataStore := mkDataStore [amf1; smf1; upf1; gnb1; ue1] links [] [].

(** A second mobility anchor of the subnet, linked to nothing. *)
Definition amf0 : NF := mkNF "amf-0" "AMF" "AMF-0" "stable" (plainConfig "192.168.1.10") at0.



Definition world : World := mkWorld store ∅.

(** Two terminals on the same radio unit. *)
Definition store2 : DataStore :=
  mkDataStore [amf1; smf1; upf1; gnb1; ue1; ue2]
              (links ++ [mkConnection "ue-2" "gnb-1"]) [] [].

Definition world2 : World := mkWorld store2 ∅.

(** Fourteen terminals asking the pool for an address, one after the other. *)
Definition requests14 : list (NF * Z) :=
  map (fun n => (terminal (Z.of_nat n) "192.168.1.22", 1700000000000)) (seq 1 14).

(** The world after the user has deleted every link. *)
Definition unlinked (w : World) : World :=
  mkWorld (mkDataStore (nfs (dataStore w)) [] (busConnections (dataStore w))
                       (buses (dataStore w)))
          (sessions w).

(** An environment in which nothing raises. *)
Definition calm : Env := mkEnv (fun _ => false) 6 234 1700000000000.

(** An environment in which only the transmission of [m] raises. *)
Definition failingAt (m : Message) : Env :=
  mkEnv (fun m' => bool_decide (m' = m)) 6 234 1700000000000.

End Scenario.

(** ** The specification's wording, for comparison with the code *)

Module Wording.
Import SessionManager.

(** A link with one end at [a] and one end at [b]. *)
Definition linkBetween (ds : DataStore) (a b : string) : Prop :=
  exists c, c ∈ connections ds
            /\ (sourceId c = a \/ targetId c = a)
            /\ (sourceId c = b \/ targetId c = b).

(** [a] and [b] are attached to a common bus. *)
Definition commonBus (ds : DataStore) (a b : string) : Prop :=
  exists bc1 bc2, bc1 ∈ busConnections ds /\ bc2 ∈ busConnections ds
                  /\ nfId bc1 = a /\ nfId bc2 = b /\ busId bc1 = busId bc2.

(** The end of link [c] that is not [t]. *)
Definition otherEnd (t : string) (c : Connection) : string :=
  if String.eqb (sourceId c) t then targetId c else sourceId c.

(** A link joins terminal [t] to a radio unit [r] from which [other] is
    reachable (reachability from [r] being the code's). *)
Definition bridged (ds : DataStore) (t other : string) : Prop :=
  exists c, c ∈ connections ds
            /\ (sourceId c = t \/ targetId c = t)
            /\ hasType (getNFById ds (otherEnd t c)) "gNB" = true
            /\ areNFsConnected ds (otherEnd t c) other = true.

Definition isTerminal (ds : DataStore) (a : string) : Prop :=
  hasType (getNFById ds a) "UE" = true.

(** The three rules of the specification's [areConnected(a, b)]: rule 3
    applies when exactly one of the two nodes is a terminal, through the
    links of that terminal. *)
Definition areConnectedRules (ds : DataStore) (a b : string) : Prop :=
  linkBetween ds a b
  \/ commonBus ds a b
  \/ (isTerminal ds a /\ ~ isTerminal ds b /\ bridged ds a b)
  \/ (isTerminal ds b /\ ~ isTerminal ds a /\ bridged ds b a).

(** *** Closed forms of the recursion of [areNFsConnected] *)

(** The value of a call whose first node is not a terminal: when the second
    is one, the loop walks the links of the first. *)
Definition fromNonTerminal (ds : DataStore) (a b : string) : bool :=
  hasDirectConnection ds a b || shareBus ds a b
  || (hasType (getNFById ds b) "UE"
      && existsb (fun conn =>
                    hasType (getNFById ds (gnbIdOf b conn)) "gNB"
                    && (hasDirectConnection ds (gnbIdOf b conn) a
                        || shareBus ds (gnbIdOf b conn) a))
                 (getConnectionsForNF ds a)).

(** The value of a call whose first node is a terminal. *)
Definition fromTerminal (ds : DataStore) (a b : string) : bool :=
  hasDirectConnection ds a b || shareBus ds a b
  || existsb (fun conn =>
                hasType (getNFById ds (gnbIdOf a conn)) "gNB"
                && fromNonTerminal ds (gnbIdOf a conn) b)
             (getConnectionsForNF ds a).

(** *** Prerequisites *)

(** *** What the properties observe of a world *)

(** The pool of the gateway [upfKey] names, when there is one. *)
Definition poolOf (ds : DataStore) (upfKey : string) : option Tun0Interface :=
  match getNFById ds upfKey with
  | Some upf => tun0Interface (config upf)
  | None => None
  end.

(** The allocation mapping of that pool: its entries, oldest first. *)
Definition entriesOf (ds : DataStore) (upfKey : string) : list AssignedIP :=
  match poolOf ds upfKey with
  | Some tun0 => default [] (assignedIPs tun0)
  | None => []
  end.

(** The address is in the mapping. *)
Definition mapped (l : list AssignedIP) (ip : string) : Prop :=
  exists a, a ∈ l /\ a_ip a = ip.

(** The session of a terminal, as [getSession] returns it. *)
Definition sessionOf (w : World) (ueId : string) : Session := snd (getSession w ueId).

(** The store [cleanupSession] leaves, from the store and session it found. *)
Definition cleanedStore (ds : DataStore) (u : string) (s : Session) : DataStore :=
  let ds1 :=
    if truthy (upfId s) && truthy (assignedIP s) then
      match getNFById ds (default "" (upfId s)) with
      | Some upf =>
          match tun0Interface (config upf) with
          | Some tun0 =>
              match assignedIPs tun0 with
              | Some l =>
                  updateNF ds (default "" (upfId s))
                    (set_config upf (set_tun0 (config upf) (Some (withoutEntriesOf u tun0 l))))
              | None => ds
              end
          | None => ds
          end
      | None => ds
      end
    else ds in
  match getNFById ds1 u with
  | Some ue => updateNF ds1 u (set_config ue (releasedConfig (config ue)))
  | None => ds1
  end.

(** The six messages of establishment and the six of release, in order. *)
Definition establishmentMessages : list Message :=
  [N1EstablishmentRequest; NsmfPDUSessionCreate; N4SessionEstablishmentRequest;
   N4SessionEstablishmentResponse; PDUSessionAccept; N1SessionAccept].

Definition releaseMessages : list Message :=
  [N1ReleaseRequest; NsmfPDUSessionRelease; N4SessionReleaseRequest;
   N4SessionReleaseResponse; ReleaseConfirmation; N1ReleaseComplete].

(** Some message of the list raises. *)
Definition raises (env : Env) (ms : list Message) : bool := existsb (throwsAt env) ms.

(** The first node of type [t] that is stable and in the subnet, in store
    order: the node the three [find] calls of [validatePrerequisites] pick. *)
Definition firstStable (ds : DataStore) (t net : string) : option NF :=
  find (stableInSubnet t net) (getAllNFs ds).

(** The terminal [ueId] names, with its subnet. *)
Definition terminalOf (ds : DataStore) (ueId : string) (ue : NF) : Prop :=
  getNFById ds ueId = Some ue /\ nf_type ue = "UE".

Definition subnetOf (nf : NF) : string := getNetworkFromIP (ipAddress (config nf)).

(** The verdicts of prerequisite validation, clause by clause in their
    order: each verdict requires the clauses before it to hold. *)
Inductive Verdict (ds : DataStore) (ueId : string) : Validation -> Prop :=
| NotATerminal :
    (forall ue, getNFById ds ueId = Some ue -> nf_type ue <> "UE") ->
    Verdict ds ueId (Invalid "UE not found")
| NoCredentials ue :
    terminalOf ds ueId ue ->
    truthy (subscriberImsi (config ue)) = false ->
    Verdict ds ueId (Invalid "UE is not registered (no IMSI configured)")
| NoMobilityAnchor ue :
    terminalOf ds ueId ue ->
    truthy (subscriberImsi (config ue)) = true ->
    (forall nf, nf ∈ nfs ds -> stableInSubnet "AMF" (subnetOf ue) nf = false) ->
    Verdict ds ueId (Invalid "No stable AMF found in same subnet")
| AnchorUnreachable ue amf :
    terminalOf ds ueId ue ->
    truthy (subscriberImsi (config ue)) = true ->
    firstStable ds "AMF" (subnetOf ue) = Some amf ->
    areNFsConnected ds (nf_id ue) (nf_id amf) = false ->
    Verdict ds ueId (Invalid "UE is not connected to AMF (directly or via gNB)")
| NoSessionAnchor ue amf :
    terminalOf ds ueId ue ->
    truthy (subscriberImsi (config ue)) = true ->
    firstStable ds "AMF" (subnetOf ue) = Some amf ->
    areNFsConnected ds (nf_id ue) (nf_id amf) = true ->
    (forall nf, nf ∈ nfs ds -> stableInSubnet "SMF" (subnetOf ue) nf = false) ->
    Verdict ds ueId (Invalid "No stable SMF found in same subnet")
| NoGateway ue amf smf :
    terminalOf ds ueId ue ->
    truthy (subscriberImsi (config ue)) = true ->
    firstStable ds "AMF" (subnetOf ue) = Some amf ->
    areNFsConnected ds (nf_id ue) (nf_id amf) = true ->
    firstStable ds "SMF" (subnetOf ue) = Some smf ->
    (forall nf, nf ∈ nfs ds -> stableInSubnet "UPF" (subnetOf ue) nf = false) ->
    Verdict ds ueId (Invalid "No stable UPF found in same subnet")
| NoPool ue amf smf upf :
    terminalOf ds ueId ue ->
    truthy (subscriberImsi (config ue)) = true ->
    firstStable ds "AMF" (subnetOf ue) = Some amf ->
    areNFsConnected ds (nf_id ue) (nf_id amf) = true ->
    firstStable ds "SMF" (subnetOf ue) = Some smf ->
    firstStable ds "UPF" (subnetOf ue) = Some upf ->
    tun0Interface (config upf) = None ->
    Verdict ds ueId (Invalid "UPF does not have tun0 interface configured")
| Ready ue amf smf upf :
    terminalOf ds ueId ue ->
    truthy (subscriberImsi (config ue)) = true ->
    firstStable ds "AMF" (subnetOf ue) = Some amf ->
    areNFsConnected ds (nf_id ue) (nf_id amf) = true ->
    firstStable ds "SMF" (subnetOf ue) = Some smf ->
    firstStable ds "UPF" (subnetOf ue) = Some upf ->
    tun0Interface (config upf) <> None ->
    Verdict ds ueId (Valid (mkNFs ue amf smf upf)).




End Wording.

(** ** Further functions of the session manager and of the animator *)

Module Further.
Import SessionManager PacketAnimator Wording.

(** The number of dots of a string. *)
Fixpoint dots (s : string) : nat :=
  match s with
  | EmptyString => 0
  | String c rest => ((if Ascii.eqb c "." then 1 else 0) + dots rest)%nat
  end.

(** The string is made of decimal digits only. *)
Fixpoint digits_only (s : string) : bool :=
  match s with
  | EmptyString => true
  | String c rest => is_digit c && digits_only rest
  end.

(** [generateMessageId()]: [`msg-${Date.now()}-${++this.messageCounter}`],
    from the counter before the call and the clock; the identifier and the
    counter after the call.  The counter is a binary64 number that starts at
    0: [++] counts the integers up to 2^53 = 9007199254740992 and leaves
    2^53 as it is (2^53 + 1 rounds back to it).  The definition is for the
    values the counter takes, from 0 to 2^53, and for the readings
    [Date.now()] gives, integers from 0 to 8640000000000000; these print as
    their decimal digits. *)
Definition generateMessageId (messageCounter at_ : Z) : string * Z :=
  let messageCounter' :=
    if messageCounter <? 9007199254740992 then messageCounter + 1 else messageCounter in
  ("msg-" +:+ string_of_Z at_ +:+ "-" +:+ string_of_Z messageCounter', messageCounter').

(** The identifiers of successive calls, one per clock reading. *)
Fixpoint generateMessageIds (messageCounter : Z) (clock : list Z) : list string :=
  match clock with
  | [] => []
  | at_ :: rest =>
      let '(id, messageCounter') := generateMessageId messageCounter at_ in
      id :: generateMessageIds messageCounter' rest
  end.

(** [clearPackets()]: the array is replaced by an empty one; nothing else of
    the animator changes (the canvas is rendered again). *)
Definition clearPackets (a : Animator) : Animator :=
  mkAnimator [] (packetCounter a) (isRunning a) (animationFrameId a) (pendingFrames a)
             (nextFrame a) (resolved a) (ticks a).

(** [getPackets()]. *)
Definition getPackets (a : Animator) : list Packet := packets a.

(** [isAnimating()]: [this.packets.length > 0]. *)
Definition isAnimating (a : Animator) : bool := (0 <? length (packets a))%nat.

(** The identifiers of the live packets are distinct and each is
    [pkt-j] for a [j] from 1 to the counter. *)
Definition packetIdsFresh (a : Animator) : Prop :=
  NoDup (map pkt_id (packets a))
  /\ (forall p, p ∈ packets a ->
                exists j, 1 <= j <= packetCounter a /\ pkt_id p = "pkt-" +:+ string_of_Z j)
  /\ 0 <= packetCounter a.

(** The event creates a packet: it is a submission between two nodes the
    store knows. *)
Definition creates (ds : DataStore) (e : Event) : bool :=
  match e with
  | Send o _ =>
      match getNFById ds (o_sourceId o), getNFById ds (o_targetId o) with
      | Some _, Some _ => true
      | _, _ => false
      end
  | _ => false
  end.

(** The addresses of a pool's mapping. *)
Definition mappedIPs (tun0 : Tun0Interface) : list string :=
  map a_ip (default [] (assignedIPs tun0)).

(** A pool as allocation builds it: no address is mapped twice, and every
    mapped address is 10.0.0.j for some j below the counter. *)
Definition poolConsistent (tun0 : Tun0Interface) : Prop :=
  NoDup (mappedIPs tun0)
  /\ forall ip, ip ∈ mappedIPs tun0 -> exists j, j < startIP tun0 /\ ip = candidateIP j.

(** Every pool of the store is as allocation builds it. *)
Definition storeConsistent (ds : DataStore) : Prop :=
  forall nf tun0, nf ∈ nfs ds -> tun0Interface (config nf) = Some tun0 -> poolConsistent tun0.

(** The first half of [cleanupSession]: the store after the entries of the
    terminal have been taken out of the pool of the session's gateway. *)
Definition withoutPoolEntries (ds : DataStore) (u : string) (s : Session) : DataStore :=
  if truthy (upfId s) && truthy (assignedIP s) then
    match getNFById ds (default "" (upfId s)) with
    | Some upf =>
        match tun0Interface (config upf) with
        | Some tun0 =>
            match assignedIPs tun0 with
            | Some l =>
                updateNF ds (default "" (upfId s))
                  (set_config upf (set_tun0 (config upf) (Some (withoutEntriesOf u tun0 l))))
            | None => ds
            end
        | None => ds
        end
    | None => ds
    end
  else ds.

(** A call of one of the two entry points of the manager, with the
    surroundings it runs in. *)
Inductive Call :=
| Establish (env : Env) (ueId : string)
| Release (env : Env) (ueId : string).

Definition perform (c : Call) (w : World) : World :=
  match c with
  | Establish env ueId => fst (establishPDUSession env w ueId)
  | Release env ueId => fst (releasePDUSession env w ueId)
  end.

(** The calls of a list, one after the other. *)
Definition performAll (cs : list Call) (w : World) : World :=
  fold_left (fun w c => perform c w) cs w.

(** [ds'] has the nodes of [ds] and at least its links and bus
    attachments. *)
Definition extends (ds ds' : DataStore) : Prop :=
  nfs ds' = nfs ds
  /\ (forall c, c ∈ connections ds -> c ∈ connections ds')
  /\ (forall bc, bc ∈ busConnections ds -> bc ∈ busConnections ds').

(** *** Tokens on their way *)

(** The segment index of the token is an index of its path. *)
Definition withinPath (p : Packet) : Prop := (currentSegment p < length (path p))%nat.








(** *** Further scenarios *)

(** The pool of the scenario after thirteen terminals, ue-1 to ue-13, took
    10.0.0.2 to 10.0.0.14: the counter is at 15. *)
Definition pool15 : Tun0Interface := fst (allocateMany Scenario.pool0 Scenario.requests14).

Definition upf15 : NF :=
  set_config Scenario.upf1 (set_tun0 (config Scenario.upf1) (Some pool15)).

Definition ue20 : NF := Scenario.terminal 20 "192.168.1.30".

(** A further terminal, linked like the first, before that gateway. *)
Definition store15 : DataStore :=
  mkDataStore [Scenario.amf1; Scenario.smf1; upf15; Scenario.gnb1; ue20]
              [mkConnection "ue-20" "gnb-1"; mkConnection "amf-1" "gnb-1"] [] [].

Definition world15 : World := mkWorld store15 ∅.

(** The gateway of the scenario with the counter of its pool at [n]. *)
Definition upfCounting (n : Z) : NF :=
  set_config Scenario.upf1
             (set_tun0 (config Scenario.upf1) (Some (mkTun0 (Some "10.0.0.1") (Some []) (Some n)))).

(** The world after the user has deleted the node [id]. *)
Definition withoutNode (id : string) (w : World) : World :=
  mkWorld (mkDataStore (List.filter (fun nf => negb (String.eqb (nf_id nf) id))
                                    (nfs (dataStore w)))
                       (connections (dataStore w)) (busConnections (dataStore w))
                       (buses (dataStore w)))
          (sessions w).

End Further.

(** * Properties *)

Import SessionManager Wording Further.

(** ** Reachability *)

Lemma existsb_agree {A : Type} (f g : A -> bool) (l : list A) :
  (forall x, x ∈ l -> f x = g x) -> existsb f l = existsb g l.
Proof.
  induction l as [|x l IH]; intros H; simpl; [reflexivity|].
  rewrite (H x) by left. rewrite IH; [reflexivity|].
  intros y Hy. apply H. right. exact Hy.
Qed.

Lemma existsb_elem {A : Type} (f : A -> bool) (l : list A) :
  existsb f l = true <-> exists x, x ∈ l /\ f x = true.
Proof.
  rewrite existsb_exists. split; intros (x & Hx & Hf); exists x; split; try exact Hf.
  - apply list_elem_of_In. exact Hx.
  - apply list_elem_of_In. exact Hx.
Qed.

Lemma hasType_gNB_not_UE (o : option NF) :
  hasType o "gNB" = true -> hasType o "UE" = false.
Proof.
  destruct o as [nf|]; simpl; [|discriminate].
  intros H. apply String.eqb_eq in H. rewrite H. reflexivity.
Qed.

Lemma viaGnbLoop_total ds rec ueId otherId conns :
  (forall conn, conn ∈ conns ->
     hasType (getNFById ds (gnbIdOf ueId conn)) "gNB" = true ->
     exists b, rec (gnbIdOf ueId conn) otherId = Some b) ->
  viaGnbLoop ds rec ueId otherId conns
  = Some (existsb (fun conn =>
                     hasType (getNFById ds (gnbIdOf ueId conn)) "gNB"
                     && default false (rec (gnbIdOf ueId conn) otherId)) conns).
Proof.
  induction conns as [|conn rest IH]; intros Hrec; simpl; [reflexivity|].
  destruct (hasType (getNFById ds (gnbIdOf ueId conn)) "gNB") eqn:Hg; simpl.
  - destruct (Hrec conn) as [b Hb]; [left | exact Hg |].
    rewrite Hb. simpl. destruct b; [reflexivity|].
    apply IH. intros c Hc. apply Hrec. right. exact Hc.
  - apply IH. intros c Hc. apply Hrec. right. exact Hc.
Qed.

(** One unfolding of the recursion. *)
Lemma areNFsConnected_fuel_S n ds a b :
  areNFsConnected_fuel (S n) ds a b
  = if hasDirectConnection ds a b then Some true
    else if shareBus ds a b then Some true
    else if hasType (getNFById ds a) "UE" || hasType (getNFById ds b) "UE" then
      viaGnbLoop ds (areNFsConnected_fuel n ds)
                 (if hasType (getNFById ds a) "UE" then a else b)
                 (if hasType (getNFById ds a) "UE" then b else a)
                 (getConnectionsForNF ds a)
    else Some false.
Proof. reflexivity. Qed.

(** Neither node a terminal: one call decides. *)
Lemma areNFsConnected_fuel_plain ds a b n :
  hasType (getNFById ds a) "UE" = false ->
  hasType (getNFById ds b) "UE" = false ->
  areNFsConnected_fuel (S n) ds a b = Some (hasDirectConnection ds a b || shareBus ds a b).
Proof.
  intros Ha Hb. rewrite areNFsConnected_fuel_S, Ha, Hb. simpl.
  destruct (hasDirectConnection ds a b); [reflexivity|].
  destruct (shareBus ds a b); reflexivity.
Qed.

Lemma areNFsConnected_fuel_nonTerminal ds a b n :
  hasType (getNFById ds a) "UE" = false ->
  areNFsConnected_fuel (S (S n)) ds a b = Some (fromNonTerminal ds a b).
Proof.
  intros Ha. unfold fromNonTerminal.
  destruct (hasType (getNFById ds b) "UE") eqn:Hb.
  - rewrite areNFsConnected_fuel_S, Ha, Hb. cbn [orb andb].
    destruct (hasDirectConnection ds a b); [reflexivity|].
    destruct (shareBus ds a b); [reflexivity|]. cbn [orb].
    rewrite viaGnbLoop_total.
    + f_equal. apply existsb_agree. intros conn _.
      destruct (hasType (getNFById ds (gnbIdOf b conn)) "gNB") eqn:Hg; [|reflexivity].
      rewrite areNFsConnected_fuel_plain; [reflexivity| |exact Ha].
      apply hasType_gNB_not_UE. exact Hg.
    + intros conn _ Hg. rewrite areNFsConnected_fuel_plain; [eauto| |exact Ha].
      apply hasType_gNB_not_UE. exact Hg.
  - rewrite areNFsConnected_fuel_plain by assumption.
    rewrite andb_false_l, orb_false_r. reflexivity.
Qed.

Lemma areNFsConnected_fuel_terminal ds a b n :
  hasType (getNFById ds a) "UE" = true ->
  areNFsConnected_fuel (S (S (S n))) ds a b = Some (fromTerminal ds a b).
Proof.
  intros Ha. unfold fromTerminal.
  rewrite areNFsConnected_fuel_S.
  rewrite Ha. cbn [orb].
  destruct (hasDirectConnection ds a b); [reflexivity|].
  destruct (shareBus ds a b); [reflexivity|]. cbn [orb].
  rewrite viaGnbLoop_total.
  - f_equal. apply existsb_agree. intros conn _.
    destruct (hasType (getNFById ds (gnbIdOf a conn)) "gNB") eqn:Hg; [|reflexivity].
    rewrite areNFsConnected_fuel_nonTerminal; [reflexivity|].
    apply hasType_gNB_not_UE. exact Hg.
  - intros conn _ Hg. rewrite areNFsConnected_fuel_nonTerminal; [eauto|].
    apply hasType_gNB_not_UE. exact Hg.
Qed.

(** Three calls deep is enough: more fuel never changes the answer, and the
    answer is never for want of fuel. *)
Lemma areNFsConnected_total ds a b n :
  areNFsConnected_fuel (3 + n) ds a b = Some (areNFsConnected ds a b).
Proof.
  unfold areNFsConnected.
  destruct (hasType (getNFById ds a) "UE") eqn:Ha.
  - rewrite (areNFsConnected_fuel_terminal ds a b 0 Ha).
    apply (areNFsConnected_fuel_terminal ds a b n Ha).
  - rewrite (areNFsConnected_fuel_nonTerminal ds a b 1 Ha).
    apply (areNFsConnected_fuel_nonTerminal ds a b (S n) Ha).
Qed.

Lemma areNFsConnected_terminal ds a b :
  hasType (getNFById ds a) "UE" = true ->
  areNFsConnected ds a b = fromTerminal ds a b.
Proof.
  intros Ha. unfold areNFsConnected.
  rewrite (areNFsConnected_fuel_terminal ds a b 0 Ha). reflexivity.
Qed.

Lemma areNFsConnected_nonTerminal ds a b :
  hasType (getNFById ds a) "UE" = false ->
  areNFsConnected ds a b = fromNonTerminal ds a b.
Proof.
  intros Ha. unfold areNFsConnected.
  rewrite (areNFsConnected_fuel_nonTerminal ds a b 1 Ha). reflexivity.
Qed.

Lemma hasDirectConnection_linkBetween ds a b :
  hasDirectConnection ds a b = true <-> linkBetween ds a b.
Proof.
  unfold hasDirectConnection, linkBetween, getConnectionsForNF.
  rewrite existsb_elem. split.
  - intros (c & Hc & Hb). apply list_elem_of_filter in Hc as [Ha Hc].
    exists c. split; [exact Hc|]. split; [exact Ha|].
    apply orb_true_iff in Hb as [Hb|Hb]; apply String.eqb_eq in Hb; auto.
  - intros (c & Hc & Ha & Hb). exists c. split.
    + apply list_elem_of_filter. auto.
    + apply orb_true_iff. destruct Hb as [Hb|Hb]; [left|right]; apply String.eqb_eq; exact Hb.
Qed.

Lemma shareBus_commonBus ds a b :
  shareBus ds a b = true <-> commonBus ds a b.
Proof.
  unfold shareBus, commonBus, getBusConnectionsForNF.
  rewrite existsb_elem. split.
  - intros (bc1 & H1 & H). apply existsb_elem in H as (bc2 & H2 & He).
    apply list_elem_of_filter in H1 as [Ha H1].
    apply list_elem_of_filter in H2 as [Hb H2].
    apply String.eqb_eq in He. exists bc1, bc2. auto.
  - intros (bc1 & bc2 & H1 & H2 & Ha & Hb & He). exists bc1. split.
    + apply list_elem_of_filter. auto.
    + apply existsb_elem. exists bc2. split.
      * apply list_elem_of_filter. auto.
      * apply String.eqb_eq. exact He.
Qed.

Lemma gnbIdOf_otherEnd t c : gnbIdOf t c = otherEnd t c.
Proof. reflexivity. Qed.

Lemma viaRadioUnit_bridged ds a b :
  existsb (fun conn =>
             hasType (getNFById ds (gnbIdOf a conn)) "gNB"
             && fromNonTerminal ds (gnbIdOf a conn) b)
          (getConnectionsForNF ds a) = true
  <-> bridged ds a b.
Proof.
  unfold bridged, getConnectionsForNF. rewrite existsb_elem. split.
  - intros (c & Hc & H). apply list_elem_of_filter in Hc as [Ha Hc].
    apply andb_true_iff in H as [Hg Hr].
    exists c. repeat split; try assumption.
    rewrite <- gnbIdOf_otherEnd, areNFsConnected_nonTerminal; [exact Hr|].
    apply hasType_gNB_not_UE. exact Hg.
  - intros (c & Hc & Ha & Hg & Hr). exists c. split.
    + apply list_elem_of_filter. auto.
    + rewrite gnbIdOf_otherEnd. apply andb_true_iff. split; [exact Hg|].
      rewrite <- areNFsConnected_nonTerminal; [exact Hr|].
      apply hasType_gNB_not_UE. exact Hg.
Qed.

(** C5 (as amended).  [areNFsConnected a b] is true whenever a link joins
    [a] and [b] or they share a bus.  When [a] is a terminal it is true
    exactly when one of these holds or a link joins [a] to a radio unit from
    which [b] is reachable (whether or not [b] is a terminal too).  When
    neither node is a terminal, which includes nodes that do not exist, it is
    true exactly when a link joins them or they share a bus; so it is false,
    with no error, for two identifiers that name no node and that no link or
    bus attachment mentions. *)
Theorem areNFsConnected_rules (ds : DataStore) (a b : string) :
  (linkBetween ds a b -> areNFsConnected ds a b = true)
  /\ (commonBus ds a b -> areNFsConnected ds a b = true)
  /\ (isTerminal ds a ->
      (areNFsConnected ds a b = true
       <-> linkBetween ds a b \/ commonBus ds a b \/ bridged ds a b))
  /\ (~ isTerminal ds a -> ~ isTerminal ds b ->
      (areNFsConnected ds a b = true <-> linkBetween ds a b \/ commonBus ds a b))
  /\ (getNFById ds a = None -> getNFById ds b = None ->
      (forall c, c ∈ connections ds -> sourceId c <> a /\ targetId c <> a) ->
      (forall bc, bc ∈ busConnections ds -> nfId bc <> a) ->
      areNFsConnected ds a b = false).
Proof.
  assert (Hlink : linkBetween ds a b -> areNFsConnected ds a b = true).
  { intros H. apply hasDirectConnection_linkBetween in H.
    destruct (hasType (getNFById ds a) "UE") eqn:Ha.
    - rewrite areNFsConnected_terminal by exact Ha. unfold fromTerminal. rewrite H. reflexivity.
    - rewrite areNFsConnected_nonTerminal by exact Ha. unfold fromNonTerminal.
      rewrite H. reflexivity. }
  assert (Hbus : commonBus ds a b -> areNFsConnected ds a b = true).
  { intros H. apply shareBus_commonBus in H.
    destruct (hasType (getNFById ds a) "UE") eqn:Ha.
    - rewrite areNFsConnected_terminal by exact Ha. unfold fromTerminal.
      rewrite H, orb_true_r. reflexivity.
    - rewrite areNFsConnected_nonTerminal by exact Ha. unfold fromNonTerminal.
      rewrite H, orb_true_r. reflexivity. }
  assert (Hplain : ~ isTerminal ds a -> ~ isTerminal ds b ->
            (areNFsConnected ds a b = true <-> linkBetween ds a b \/ commonBus ds a b)).
  { unfold isTerminal. intros Ha Hb.
    apply not_true_is_false in Ha. apply not_true_is_false in Hb.
    rewrite areNFsConnected_nonTerminal by exact Ha. unfold fromNonTerminal.
    rewrite Hb, andb_false_l, orb_false_r, orb_true_iff.
    rewrite hasDirectConnection_linkBetween, shareBus_commonBus. reflexivity. }
  split; [exact Hlink|]. split; [exact Hbus|]. split; [|split; [exact Hplain|]].
  - intros Ha. rewrite areNFsConnected_terminal by exact Ha.
    unfold fromTerminal. rewrite !orb_true_iff.
    rewrite hasDirectConnection_linkBetween, shareBus_commonBus, viaRadioUnit_bridged.
    tauto.
  - intros Ha Hb Hc Hbc. apply not_true_is_false. intros H.
    apply Hplain in H.
    + destruct H as [(c & Hin & [H1|H1] & _) | (bc1 & bc2 & H1 & _ & H2 & _)].
      * destruct (Hc c Hin) as [Hs _]. apply Hs. exact H1.
      * destruct (Hc c Hin) as [_ Ht]. apply Ht. exact H1.
      * apply (Hbc bc1 H1). exact H2.
    + unfold isTerminal. rewrite Ha. discriminate.
    + unfold isTerminal. rewrite Hb. discriminate.
Qed.

(** C5 (counterexample to the claim as worded).  Two terminals on one radio
    unit: no link joins them, they share no bus, and rule 3 asks for exactly
    one terminal; yet the code reports them connected. *)
Lemma areNFsConnected_two_terminals :
  areNFsConnected Scenario.store2 "ue-1" "ue-2" = true
  /\ ~ areConnectedRules Scenario.store2 "ue-1" "ue-2".
Proof.
  split; [vm_compute; reflexivity|].
  unfold areConnectedRules.
  intros [(c & Hc & H1 & H2) | [(bc1 & _ & H1 & _) | [(_ & H & _) | (_ & H & _)]]].
  - cbn in Hc. rewrite !elem_of_cons, elem_of_nil in Hc.
    destruct Hc as [->|[->|[->|[]]]]; cbn in H1, H2;
      destruct H1 as [H1|H1]; destruct H2 as [H2|H2]; discriminate.
  - cbn in H1. apply elem_of_nil in H1. exact H1.
  - apply H. vm_compute. reflexivity.
  - apply H. vm_compute. reflexivity.
Qed.

(** C6 (the code at the failing input).  In the scenario topology the
    terminal reaches the mobility anchor through its radio unit, but asked
    in the other order the function walks the anchor's links with the
    terminal's identifier and answers false. *)
Lemma areNFsConnected_order_dependent :
  areNFsConnected Scenario.store "ue-1" "amf-1" = true
  /\ areNFsConnected Scenario.store "amf-1" "ue-1" = false.
Proof. split; vm_compute; reflexivity. Qed.

(** ** Prerequisite validation *)

Lemma find_none_elem {A : Type} (f : A -> bool) (l : list A) :
  find f l = None <-> forall x, x ∈ l -> f x = false.
Proof.
  split.
  - intros H x Hx. apply (find_none f l H). apply list_elem_of_In. exact Hx.
  - induction l as [|y l IH]; intros H; simpl; [reflexivity|].
    rewrite (H y) by left. apply IH. intros x Hx. apply H. right. exact Hx.
Qed.

Lemma validatePrerequisites_sound ds ueId :
  Verdict ds ueId (validatePrerequisites ds ueId).
Proof.
  unfold validatePrerequisites.
  destruct (getNFById ds ueId) as [ue|] eqn:Hue.
  2:{ apply NotATerminal. intros ue H. rewrite Hue in H. discriminate. }
  destruct (String.eqb (nf_type ue) "UE") eqn:Hty; cbn [negb].
  2:{ apply NotATerminal. intros ue' H. rewrite Hue in H. injection H as <-.
      apply String.eqb_neq. exact Hty. }
  apply String.eqb_eq in Hty.
  assert (Ht : terminalOf ds ueId ue) by (split; assumption).
  destruct (truthy (subscriberImsi (config ue))) eqn:Himsi; cbn [negb].
  2:{ eapply NoCredentials; eassumption. }
  fold (subnetOf ue).
  destruct (find (stableInSubnet "AMF" (subnetOf ue)) (getAllNFs ds)) as [amf|] eqn:Hamf.
  2:{ eapply NoMobilityAnchor; try eassumption. apply find_none_elem. exact Hamf. }
  destruct (areNFsConnected ds (nf_id ue) (nf_id amf)) eqn:Hconn; cbn [negb].
  2:{ eapply AnchorUnreachable; eassumption. }
  destruct (find (stableInSubnet "SMF" (subnetOf ue)) (getAllNFs ds)) as [smf|] eqn:Hsmf.
  2:{ eapply NoSessionAnchor; try eassumption. apply find_none_elem. exact Hsmf. }
  destruct (find (stableInSubnet "UPF" (subnetOf ue)) (getAllNFs ds)) as [upf|] eqn:Hupf.
  2:{ eapply NoGateway; try eassumption. apply find_none_elem. exact Hupf. }
  destruct (tun0Interface (config upf)) as [tun0|] eqn:Htun.
  - eapply Ready; try eassumption. rewrite Htun. discriminate.
  - eapply NoPool; eassumption.
Qed.




(** ** Address allocation *)

(** The loop finds the first free address from [n] up to 14, or none. *)
Lemma allocateLoop_scan fuel tun0 ue at_ n :
  (Z.to_nat (15 - n) <= fuel)%nat ->
  (exists k, n <= k <= 14
             /\ isAssigned tun0 (candidateIP k) = false
             /\ (forall j, n <= j < k -> isAssigned tun0 (candidateIP j) = true)
             /\ allocateLoop fuel tun0 ue at_ n
                = Some (Allocated (recordAllocation tun0 ue k at_) (candidateIP k)))
  \/ ((forall j, n <= j <= 14 -> isAssigned tun0 (candidateIP j) = true)
      /\ allocateLoop fuel tun0 ue at_ n = Some Exhausted).
Proof.
  revert n. induction fuel as [|fuel IH]; intros n Hfuel.
  - right. assert (14 < n) by lia. split; [intros j Hj; lia|].
    simpl. destruct (n <=? 14) eqn:E; [apply Z.leb_le in E; lia|reflexivity].
  - cbn [allocateLoop]. destruct (n <=? 14) eqn:E.
    + apply Z.leb_le in E.
      destruct (isAssigned tun0 (candidateIP n)) eqn:Hn.
      * destruct (IH (n + 1)) as [(k & Hk & Hfree & Hbelow & Hres) | (Hall & Hres)]; [lia| |].
        -- left. exists k. split; [lia|]. split; [exact Hfree|]. split; [|exact Hres].
           intros j Hj. destruct (Z.eq_dec j n) as [->|Hne]; [exact Hn|apply Hbelow; lia].
        -- right. split; [|exact Hres].
           intros j Hj. destruct (Z.eq_dec j n) as [->|Hne]; [exact Hn|apply Hall; lia].
      * left. exists n. split; [lia|]. split; [exact Hn|]. split; [intros j Hj; lia|reflexivity].
    + right. apply Z.leb_gt in E. split; [intros j Hj; lia|reflexivity].
Qed.

(** The scan of a pool never runs out of fuel. *)
Lemma scanPool_total tun0 ue at_ : exists r, scanPool tun0 ue at_ = Some r.
Proof.
  unfold scanPool.
  destruct (allocateLoop_scan (Z.to_nat (15 - startIP tun0)) tun0 ue at_ (startIP tun0))
    as [(k & _ & _ & _ & H) | (_ & H)]; [lia| |]; rewrite H; eauto.
Qed.

Lemma allocate_scan tun0 ue at_ :
  (exists k, startIP tun0 <= k <= 14
             /\ isAssigned tun0 (candidateIP k) = false
             /\ (forall j, startIP tun0 <= j < k -> isAssigned tun0 (candidateIP j) = true)
             /\ scanPool tun0 ue at_
                = Some (Allocated (recordAllocation tun0 ue k at_) (candidateIP k)))
  \/ ((forall j, startIP tun0 <= j <= 14 -> isAssigned tun0 (candidateIP j) = true)
      /\ scanPool tun0 ue at_ = Some Exhausted).
Proof. apply allocateLoop_scan. lia. Qed.

(** The pool-level view of [allocateUEIP]. *)
Lemma allocateUEIP_allocate ds upf ue at_ tun0 :
  tun0Interface (config upf) = Some tun0 ->
  let '(ds', upf', ip) := allocateUEIP ds upf ue at_ in
  ip = snd (allocate tun0 ue at_)
  /\ tun0Interface (config upf') = Some (fst (allocate tun0 ue at_))
  /\ nf_id upf' = nf_id upf
  /\ (ds' = ds /\ upf' = upf \/ ds' = updateNF ds (nf_id upf) upf').
Proof.
  intros Htun. unfold allocateUEIP, allocate. rewrite Htun.
  destruct (scanPool tun0 ue at_) as [[tun0' ip|]|]; cbn; auto 6.
Qed.

(** ** The store *)

Lemma getNFById_id ds id nf : getNFById ds id = Some nf -> nf_id nf = id.
Proof.
  unfold getNFById. intros H. apply find_some in H as [_ H].
  apply String.eqb_eq. exact H.
Qed.

Lemma getNFById_elem ds id nf : getNFById ds id = Some nf -> nf ∈ nfs ds.
Proof.
  unfold getNFById. intros H. apply find_some in H as [H _].
  apply list_elem_of_In. exact H.
Qed.

Lemma find_elem {A : Type} (f : A -> bool) (l : list A) (x : A) :
  find f l = Some x -> x ∈ l /\ f x = true.
Proof.
  intros H. apply find_some in H as [H1 H2]. split; [apply list_elem_of_In|]; assumption.
Qed.

Lemma getNFById_updateNF_same ds id nf old :
  getNFById ds id = Some old -> nf_id nf = id ->
  getNFById (updateNF ds id nf) id = Some nf.
Proof.
  unfold getNFById, updateNF. cbn. intros H Hid.
  induction (nfs ds) as [|x l IH]; cbn in *; [discriminate|].
  destruct (String.eqb (nf_id x) id) eqn:E; cbn.
  - rewrite Hid, String.eqb_refl. reflexivity.
  - rewrite E. apply IH. exact H.
Qed.

Lemma getNFById_updateNF_other ds id nf id' :
  nf_id nf = id -> id' <> id ->
  getNFById (updateNF ds id nf) id' = getNFById ds id'.
Proof.
  unfold getNFById, updateNF. cbn. intros Hid Hne.
  induction (nfs ds) as [|x l IH]; cbn; [reflexivity|].
  destruct (String.eqb (nf_id x) id) eqn:E; cbn.
  - apply String.eqb_eq in E. rewrite Hid, E.
    destruct (String.eqb id id') eqn:E'; [|reflexivity].
    apply String.eqb_eq in E'. congruence.
  - destruct (String.eqb (nf_id x) id'); [reflexivity|exact IH].
Qed.

Lemma getNFById_updateNF_missing ds id nf :
  getNFById ds id = None -> updateNF ds id nf = ds.
Proof.
  unfold getNFById, updateNF. destruct ds as [l cs bcs bs]. cbn. intros H. f_equal.
  induction l as [|x l IH]; cbn in *; [reflexivity|].
  destruct (String.eqb (nf_id x) id); [discriminate|]. f_equal. apply IH. exact H.
Qed.

Lemma wellFormed_same_id ds x y :
  wellFormed ds -> x ∈ nfs ds -> y ∈ nfs ds -> nf_id x = nf_id y -> x = y.
Proof.
  intros [Hnd _]. induction (nfs ds) as [|z l IH]; intros Hx Hy Hid.
  - apply elem_of_nil in Hx. contradiction.
  - cbn in Hnd. apply NoDup_cons in Hnd as [Hz Hnd].
    apply elem_of_cons in Hx as [->|Hx]; apply elem_of_cons in Hy as [->|Hy].
    + reflexivity.
    + exfalso. apply Hz. rewrite Hid. apply list_elem_of_fmap. exists y. auto.
    + exfalso. apply Hz. rewrite <- Hid. apply list_elem_of_fmap. exists x. auto.
    + apply IH; assumption.
Qed.

(** ** Sessions *)

Lemma getSession_lookup w ueId :
  sessions (fst (getSession w ueId)) !! ueId = Some (snd (getSession w ueId)).
Proof.
  unfold getSession. destruct (sessions w !! ueId) eqn:E; cbn; [exact E|].
  apply lookup_insert_eq.
Qed.

Lemma getSession_store w ueId : dataStore (fst (getSession w ueId)) = dataStore w.
Proof. unfold getSession. destruct (sessions w !! ueId); reflexivity. Qed.

Lemma getSession_known w ueId s :
  sessions w !! ueId = Some s -> getSession w ueId = (w, s).
Proof. unfold getSession. intros ->. reflexivity. Qed.

Lemma getSession_modify w ueId f s :
  sessions w !! ueId = Some s ->
  getSession (modifySession ueId f w) ueId = (modifySession ueId f w, f s).
Proof.
  intros H. apply getSession_known. cbn. rewrite lookup_alter_eq, H. reflexivity.
Qed.

(** ** Cleanup *)

Lemma poolOf_updateNF_same ds key nf old :
  getNFById ds key = Some old -> nf_id nf = key ->
  poolOf (updateNF ds key nf) key = tun0Interface (config nf).
Proof.
  intros H Hid. unfold poolOf. rewrite (getNFById_updateNF_same ds key nf old H Hid).
  reflexivity.
Qed.

(** Clearing the terminal's session config touches no pool. *)
Lemma poolOf_release_terminal ds u key :
  poolOf (match getNFById ds u with
          | Some ue => updateNF ds u (set_config ue (releasedConfig (config ue)))
          | None => ds
          end) key
  = poolOf ds key.
Proof.
  destruct (getNFById ds u) as [ue|] eqn:Hue; [|reflexivity].
  pose proof (getNFById_id _ _ _ Hue) as Hid.
  destruct (decide (key = u)) as [->|Hne].
  - rewrite (poolOf_updateNF_same ds u _ ue Hue) by exact Hid.
    unfold poolOf. rewrite Hue. reflexivity.
  - unfold poolOf. rewrite getNFById_updateNF_other; [reflexivity|exact Hid|exact Hne].
Qed.

Lemma cleanupSession_session w u :
  sessions (cleanupSession w u) !! u = Some (resetSession (sessionOf w u)).
Proof.
  unfold cleanupSession, sessionOf.
  pose proof (getSession_lookup w u) as H.
  destruct (getSession w u) as [w0 s0]. cbn in *.
  rewrite lookup_alter_eq, H. reflexivity.
Qed.

Lemma cleanupSession_other_session w u v :
  v <> u -> sessions (cleanupSession w u) !! v = sessions w !! v.
Proof.
  intros Hne. unfold cleanupSession, getSession.
  destruct (sessions w !! u) eqn:E; cbn.
  - rewrite lookup_alter_ne by congruence. reflexivity.
  - rewrite lookup_alter_ne by congruence. rewrite lookup_insert_ne by congruence. reflexivity.
Qed.

Lemma cleanupSession_store w u :
  dataStore (cleanupSession w u) = cleanedStore (dataStore w) u (sessionOf w u).
Proof.
  unfold cleanupSession, sessionOf, cleanedStore.
  pose proof (getSession_store w u) as H.
  destruct (getSession w u) as [w0 s0]. cbn in *. rewrite H. reflexivity.
Qed.

Lemma cleanedStore_pool ds u s upfKey ip upf tun0 l :
  upfId s = Some upfKey -> assignedIP s = Some ip -> upfKey <> "" -> ip <> "" ->
  getNFById ds upfKey = Some upf -> tun0Interface (config upf) = Some tun0 ->
  assignedIPs tun0 = Some l ->
  poolOf (cleanedStore ds u s) upfKey = Some (withoutEntriesOf u tun0 l).
Proof.
  intros Hk Hip Hk0 Hip0 Hupf Htun Hl. unfold cleanedStore.
  rewrite poolOf_release_terminal. rewrite Hk, Hip. cbn [truthy from_option id].
  apply String.eqb_neq in Hk0, Hip0. rewrite Hk0, Hip0. cbn [negb andb].
  rewrite Hupf, Htun, Hl.
  rewrite (poolOf_updateNF_same ds upfKey _ upf Hupf); [reflexivity|].
  cbn. apply (getNFById_id _ _ _ Hupf).
Qed.

Lemma cleanedStore_entries ds u s upfKey ip :
  upfId s = Some upfKey -> assignedIP s = Some ip -> upfKey <> "" -> ip <> "" ->
  entriesOf (cleanedStore ds u s) upfKey
  = filter (fun a => a_ueId a <> u) (entriesOf ds upfKey).
Proof.
  intros Hk Hip Hk0 Hip0.
  destruct (getNFById ds upfKey) as [upf|] eqn:Hupf.
  - destruct (tun0Interface (config upf)) as [tun0|] eqn:Htun.
    + destruct (assignedIPs tun0) as [l|] eqn:Hl.
      * unfold entriesOf.
        rewrite (cleanedStore_pool ds u s upfKey ip upf tun0 l) by assumption.
        unfold poolOf. rewrite Hupf, Htun, Hl. reflexivity.
      * unfold entriesOf, cleanedStore. rewrite poolOf_release_terminal.
        rewrite Hk, Hip. cbn [truthy from_option id].
        apply String.eqb_neq in Hk0, Hip0. rewrite Hk0, Hip0. cbn [negb andb].
        rewrite Hupf, Htun, Hl. unfold poolOf. rewrite Hupf, Htun, Hl. reflexivity.
    + unfold entriesOf, cleanedStore. rewrite poolOf_release_terminal.
      rewrite Hk, Hip. cbn [truthy from_option id].
      apply String.eqb_neq in Hk0, Hip0. rewrite Hk0, Hip0. cbn [negb andb].
      rewrite Hupf, Htun. unfold poolOf. rewrite Hupf, Htun. reflexivity.
  - unfold entriesOf, cleanedStore. rewrite poolOf_release_terminal.
    rewrite Hk, Hip. cbn [truthy from_option id].
    apply String.eqb_neq in Hk0, Hip0. rewrite Hk0, Hip0. cbn [negb andb].
    rewrite Hupf. unfold poolOf. rewrite Hupf. reflexivity.
Qed.

Lemma cleanedStore_terminal ds u s ue :
  getNFById ds u = Some ue ->
  exists ue', getNFById (cleanedStore ds u s) u = Some ue'
              /\ pduSession (config ue') = None
              /\ tunInterface (config ue') = None
              /\ pduSessionState (config ue') = Some RELEASED.
Proof.
  intros Hue. unfold cleanedStore.
  set (ds1 := if truthy (upfId s) && truthy (assignedIP s) then _ else ds).
  assert (H1 : exists x, getNFById ds1 u = Some x).
  { subst ds1. destruct (truthy (upfId s) && truthy (assignedIP s)); [|eauto].
    destruct (getNFById ds (default "" (upfId s))) as [upf|] eqn:Hupf; [|eauto].
    destruct (tun0Interface (config upf)) as [tun0|]; [|eauto].
    destruct (assignedIPs tun0) as [l|]; [|eauto].
    destruct (decide (u = default "" (upfId s))) as [->|Hne].
    - eexists. eapply getNFById_updateNF_same; [exact Hupf|].
      cbn. apply (getNFById_id _ _ _ Hupf).
    - exists ue. rewrite getNFById_updateNF_other; [exact Hue| |exact Hne].
      cbn. apply (getNFById_id _ _ _ Hupf). }
  destruct H1 as [x Hx]. rewrite Hx.
  eexists. split.
  - eapply getNFById_updateNF_same; [exact Hx|]. cbn. apply (getNFById_id _ _ _ Hx).
  - cbn. auto.
Qed.

Lemma filter_not_owner u (l : list AssignedIP) a :
  a ∈ filter (fun a => a_ueId a <> u) l -> a_ueId a <> u.
Proof. intros H. apply list_elem_of_filter in H as [H _]. exact H. Qed.

Lemma filter_unmapped u (l : list AssignedIP) ip :
  (forall a, a ∈ l -> a_ip a = ip -> a_ueId a = u) ->
  ~ mapped (filter (fun a => a_ueId a <> u) l) ip.
Proof.
  intros Hown (a & Ha & Hip). apply list_elem_of_filter in Ha as [Hne Ha].
  apply Hne. apply Hown; assumption.
Qed.

(** ** Release *)

Lemma active_session_known w u :
  state (sessionOf w u) = ACTIVE -> getSession w u = (w, sessionOf w u).
Proof.
  unfold sessionOf, getSession. destruct (sessions w !! u); cbn; [reflexivity|discriminate].
Qed.

Lemma sessionOf_lookup w u s : sessions w !! u = Some s -> sessionOf w u = s.
Proof. intros H. unfold sessionOf. rewrite (getSession_known w u s H). reflexivity. Qed.

Lemma sessionOf_cleanup w u : sessionOf (cleanupSession w u) u = resetSession (sessionOf w u).
Proof. apply sessionOf_lookup, cleanupSession_session. Qed.

Lemma sessionOf_modify w u f :
  state (sessionOf w u) = ACTIVE -> sessionOf (modifySession u f w) u = f (sessionOf w u).
Proof.
  intros H. apply sessionOf_lookup. cbn. rewrite lookup_alter_eq.
  pose proof (getSession_lookup w u) as Hl. rewrite (active_session_known w u H) in Hl.
  cbn in Hl. rewrite Hl. reflexivity.
Qed.

(** The five release steps change nothing; they complete unless a message
    raises. *)
Lemma releaseSteps_outcome env w :
  releaseSteps env w
  = (w, if raises env releaseMessages then Thrown else Returned tt).
Proof.
  unfold releaseSteps, sendN1ReleaseRequest, sendNsmfPDUSessionRelease, sendN4SessionRelease,
    sendReleaseConfirmation, sendN1ReleaseComplete, raises, releaseMessages, bind, transmit.
  cbn [existsb].
  destruct (throwsAt env N1ReleaseRequest); [reflexivity|].
  destruct (throwsAt env NsmfPDUSessionRelease); [reflexivity|].
  destruct (throwsAt env N4SessionReleaseRequest); [reflexivity|].
  destruct (throwsAt env N4SessionReleaseResponse); [reflexivity|].
  destruct (throwsAt env ReleaseConfirmation); [reflexivity|].
  destruct (throwsAt env N1ReleaseComplete); reflexivity.
Qed.

(** What a release of an active session of an existing terminal comes to:
    the cleanup, run on the world as found, the session perhaps marked
    RELEASING. *)
Lemma releasePDUSession_active env w u ue :
  state (sessionOf w u) = ACTIVE ->
  getNFById (dataStore w) u = Some ue ->
  releasePDUSession env w u
  = match validatePrerequisites (dataStore w) u with
    | Invalid _ => (cleanupSession w u, true)
    | Valid _ =>
        (cleanupSession (modifySession u (setState RELEASING) w) u,
         negb (raises env releaseMessages))
    end.
Proof.
  intros Hact Hue. unfold releasePDUSession.
  rewrite (active_session_known w u Hact), Hact, Hue.
  destruct (validatePrerequisites (dataStore w) u); [reflexivity|].
  rewrite releaseSteps_outcome.
  destruct (raises env releaseMessages); reflexivity.
Qed.

(** What the cleanup leaves of session [s] of terminal [u], between the
    stores [ds] and [ds']. *)
Lemma cleanup_effects ds u s ue :
  getNFById ds u = Some ue ->
  (exists ue', getNFById (cleanedStore ds u s) u = Some ue'
               /\ pduSession (config ue') = None
               /\ tunInterface (config ue') = None
               /\ pduSessionState (config ue') = Some RELEASED)
  /\ (forall upfKey ip,
         upfId s = Some upfKey -> assignedIP s = Some ip -> upfKey <> "" -> ip <> "" ->
         entriesOf (cleanedStore ds u s) upfKey
         = filter (fun a => a_ueId a <> u) (entriesOf ds upfKey)
         /\ (forall a, a ∈ entriesOf (cleanedStore ds u s) upfKey -> a_ueId a <> u)
         /\ ((forall a, a ∈ entriesOf ds upfKey -> a_ip a = ip -> a_ueId a = u) ->
             ~ mapped (entriesOf (cleanedStore ds u s) upfKey) ip)).
Proof.
  intros Hue. split; [apply (cleanedStore_terminal ds u s ue Hue)|].
  intros upfKey ip Hk Hip Hk0 Hip0.
  rewrite (cleanedStore_entries ds u s upfKey ip) by assumption.
  split; [reflexivity|]. split.
  - intros a. apply filter_not_owner.
  - apply filter_unmapped.
Qed.

(** C2 (as amended).  A release that starts its five steps (session
    ACTIVE, prerequisites valid) ends, whether or not a step raises, with
    the session RELEASED and emptied, the terminal's [pduSession] and
    [tunInterface] deleted and its [pduSessionState] RELEASED, and the pool
    of the gateway the session names without any entry of the terminal.
    The cleanup removes by owner, not by address: the assigned address is in
    the mapping no more when every entry that carried it was the terminal's,
    and it stays in the mapping when an entry of another terminal carries
    it.  The call answers true exactly when no step raised. *)
Theorem releasePDUSession_always_cleans
        (env : Env) (w : World) (ueId : string) (found : NFs) :
  state (sessionOf w ueId) = ACTIVE ->
  validatePrerequisites (dataStore w) ueId = Valid found ->
  let s := sessionOf w ueId in
  let w' := fst (releasePDUSession env w ueId) in
  state (sessionOf w' ueId) = RELEASED
  /\ sessionOf w' ueId = mkSession (s_ueId s) RELEASED None None None None None
  /\ (exists ue', getNFById (dataStore w') ueId = Some ue'
                  /\ pduSession (config ue') = None
                  /\ tunInterface (config ue') = None
                  /\ pduSessionState (config ue') = Some RELEASED)
  /\ (forall upfKey ip,
         upfId s = Some upfKey -> assignedIP s = Some ip -> upfKey <> "" -> ip <> "" ->
         entriesOf (dataStore w') upfKey
         = filter (fun a => a_ueId a <> ueId) (entriesOf (dataStore w) upfKey)
         /\ (forall a, a ∈ entriesOf (dataStore w') upfKey -> a_ueId a <> ueId)
         /\ ((forall a, a ∈ entriesOf (dataStore w) upfKey -> a_ip a = ip -> a_ueId a = ueId) ->
             ~ mapped (entriesOf (dataStore w') upfKey) ip)
         /\ ((exists a, a ∈ entriesOf (dataStore w) upfKey /\ a_ip a = ip /\ a_ueId a <> ueId) ->
             mapped (entriesOf (dataStore w') upfKey) ip))
  /\ snd (releasePDUSession env w ueId) = negb (raises env releaseMessages).
Proof.
  intros Hact Hval s w'.
  assert (Hue : exists ue, getNFById (dataStore w) ueId = Some ue).
  { pose proof (validatePrerequisites_sound (dataStore w) ueId) as V.
    rewrite Hval in V. inversion V as [| | | | | | |ue0 ? ? ? [Hue0 _]]. eauto. }
  destruct Hue as [ue Hue].
  subst w'. rewrite (releasePDUSession_active env w ueId ue Hact Hue), Hval. cbn [fst snd].
  rewrite sessionOf_cleanup, cleanupSession_store.
  rewrite (sessionOf_modify w ueId _ Hact). fold s.
  change (dataStore (modifySession ueId (setState RELEASING) w)) with (dataStore w).
  split; [reflexivity|]. split; [reflexivity|].
  destruct (cleanup_effects (dataStore w) ueId (setState RELEASING s) ue Hue) as [Ht Hp].
  split; [exact Ht|]. split; [|reflexivity].
  intros upfKey ip Hk Hip Hk0 Hip0.
  destruct (Hp upfKey ip Hk Hip Hk0 Hip0) as (He & Hown & Hgone).
  split; [exact He|]. split; [exact Hown|]. split; [exact Hgone|].
  intros (a & Ha & Haip & Hother). exists a. split; [|exact Haip].
  rewrite He. apply list_elem_of_filter. split; assumption.
Qed.

(** C2 (counterexample to the claim as worded).  Before a gateway whose
    pool is exhausted, all of 10.0.0.2 to 10.0.0.14 mapped to other
    terminals, terminal ue-20 is given the fallback 10.0.0.2.  Its release
    runs all five steps and ends RELEASED, and 10.0.0.2, the address that
    was assigned to it, is still in the pool's mapping. *)
Lemma released_fallback_address_still_mapped :
  let w1 := fst (establishPDUSession Scenario.calm world15 "ue-20") in
  let w2 := fst (releasePDUSession Scenario.calm w1 "ue-20") in
  state (sessionOf w1 "ue-20") = ACTIVE
  /\ assignedIP (sessionOf w1 "ue-20") = Some "10.0.0.2"
  /\ upfId (sessionOf w1 "ue-20") = Some "upf-1"
  /\ valid (validatePrerequisites (dataStore w1) "ue-20") = true
  /\ snd (releasePDUSession Scenario.calm w1 "ue-20") = true
  /\ state (sessionOf w2 "ue-20") = RELEASED
  /\ mapped (entriesOf (dataStore w2) "upf-1") "10.0.0.2"
  /\ length (entriesOf (dataStore w2) "upf-1") = 13%nat.
Proof.
  cbv zeta.
  repeat (split; [vm_compute; reflexivity|]).
  split; [|vm_compute; reflexivity].
  assert (H : existsb (fun a => String.eqb (a_ip a) "10.0.0.2")
                      (entriesOf
                         (dataStore
                            (fst (releasePDUSession Scenario.calm
                                    (fst (establishPDUSession Scenario.calm world15 "ue-20"))
                                    "ue-20")))
                         "upf-1") = true) by (vm_compute; reflexivity).
  apply existsb_elem in H as (a & Ha & He). exists a. split; [exact Ha|].
  apply String.eqb_eq. exact He.
Qed.

(** C10 (as amended).  For an active session whose prerequisites do not
    validate, release runs no step (its result does not depend on what the
    steps would do, and the session never becomes RELEASING).  When the
    terminal's node is still in the store, the call is the local cleanup of
    the world as found and the answer is true: the session is RELEASED and
    emptied, the terminal's session and tunnel config are cleared, and the
    pool of the gateway the session names is without any entry of the
    terminal (the address leaves the mapping when every entry that carried
    it was the terminal's).  When the terminal's node is not in the store,
    which is the failure "UE not found", the call answers false and changes
    nothing: no cleanup is made and the session stays ACTIVE. *)
Theorem releasePDUSession_local_cleanup
        (env : Env) (w : World) (ueId : string) (reason : string) :
  state (sessionOf w ueId) = ACTIVE ->
  validatePrerequisites (dataStore w) ueId = Invalid reason ->
  let s := sessionOf w ueId in
  let w' := cleanupSession w ueId in
  (forall ue, getNFById (dataStore w) ueId = Some ue ->
     releasePDUSession env w ueId = (w', true)
     /\ state (sessionOf w' ueId) = RELEASED
     /\ sessionOf w' ueId = mkSession (s_ueId s) RELEASED None None None None None
     /\ (exists ue', getNFById (dataStore w') ueId = Some ue'
                     /\ pduSession (config ue') = None
                     /\ tunInterface (config ue') = None
                     /\ pduSessionState (config ue') = Some RELEASED)
     /\ (forall upfKey ip,
            upfId s = Some upfKey -> assignedIP s = Some ip -> upfKey <> "" -> ip <> "" ->
            entriesOf (dataStore w') upfKey
            = filter (fun a => a_ueId a <> ueId) (entriesOf (dataStore w) upfKey)
            /\ (forall a, a ∈ entriesOf (dataStore w') upfKey -> a_ueId a <> ueId)
            /\ ((forall a, a ∈ entriesOf (dataStore w) upfKey -> a_ip a = ip ->
                           a_ueId a = ueId) ->
                ~ mapped (entriesOf (dataStore w') upfKey) ip)))
  /\ (getNFById (dataStore w) ueId = None ->
      reason = "UE not found"
      /\ releasePDUSession env w ueId = (w, false)
      /\ state (sessionOf (fst (releasePDUSession env w ueId)) ueId) = ACTIVE).
Proof.
  intros Hact Hval s w'. split.
  - intros ue Hue.
    split; [rewrite (releasePDUSession_active env w ueId ue Hact Hue), Hval; reflexivity|].
    subst w'. rewrite sessionOf_cleanup, cleanupSession_store. fold s.
    split; [reflexivity|]. split; [reflexivity|].
    destruct (cleanup_effects (dataStore w) ueId s ue Hue) as [Ht Hp].
    split; [exact Ht|].
    intros upfKey ip Hk Hip. apply Hp; assumption.
  - intros Hnone.
    assert (Hrel : releasePDUSession env w ueId = (w, false)).
    { unfold releasePDUSession. rewrite (active_session_known w ueId Hact), Hact, Hnone.
      reflexivity. }
    split.
    + unfold validatePrerequisites in Hval. rewrite Hnone in Hval.
      injection Hval as <-. reflexivity.
    + rewrite Hrel. split; [reflexivity|exact Hact].
Qed.

(** C10 (counterexample to the claim as worded).  The terminal of the
    scenario has an ACTIVE session and the address 10.0.0.2 when the user
    deletes its node.  Its prerequisites no longer validate, "UE not found";
    release answers false and leaves the world as it is: the session is
    still ACTIVE and the address is still mapped to the terminal. *)
Lemma release_of_deleted_terminal :
  let w := withoutNode "ue-1" (fst (establishPDUSession Scenario.calm Scenario.world "ue-1")) in
  state (sessionOf w "ue-1") = ACTIVE
  /\ validatePrerequisites (dataStore w) "ue-1" = Invalid "UE not found"
  /\ releasePDUSession Scenario.calm w "ue-1" = (w, false)
  /\ state (sessionOf (fst (releasePDUSession Scenario.calm w "ue-1")) "ue-1") = ACTIVE
  /\ entriesOf (dataStore (fst (releasePDUSession Scenario.calm w "ue-1"))) "upf-1"
     = [mkAssignedIP "ue-1" "UE-1" "10.0.0.2" 1700000000000].
Proof.
  cbv zeta.
  set (w := withoutNode "ue-1"
              (fst (establishPDUSession Scenario.calm Scenario.world "ue-1"))).
  assert (Hact : state (sessionOf w "ue-1") = ACTIVE) by (vm_compute; reflexivity).
  assert (Hnone : getNFById (dataStore w) "ue-1" = None) by (vm_compute; reflexivity).
  assert (H : releasePDUSession Scenario.calm w "ue-1" = (w, false)).
  { unfold releasePDUSession.
    rewrite (active_session_known w "ue-1" Hact), Hact, Hnone. reflexivity. }
  split; [exact Hact|]. split; [vm_compute; reflexivity|]. split; [exact H|].
  rewrite H. cbn [fst]. split; [exact Hact|vm_compute; reflexivity].
Qed.

(** ** Establishment *)

Lemma allocateUEIP_store ds upf ue at_ :
  let '(ds', upf', _) := allocateUEIP ds upf ue at_ in
  nf_id upf' = nf_id upf /\ (ds' = ds \/ ds' = updateNF ds (nf_id upf) upf').
Proof.
  unfold allocateUEIP.
  destruct (tun0Interface (config upf)) as [tun0|]; [|auto].
  destruct (scanPool tun0 ue at_) as [[tun0' ip|]|]; cbn; auto.
Qed.

(** What a valid verdict says of the nodes it names. *)
Lemma valid_nodes ds u found :
  validatePrerequisites ds u = Valid found ->
  getNFById ds u = Some (ue found)
  /\ nf_type (ue found) = "UE"
  /\ upf found ∈ nfs ds
  /\ nf_type (upf found) = "UPF"
  /\ tun0Interface (config (upf found)) <> None.
Proof.
  intros Hval. pose proof (validatePrerequisites_sound ds u) as V. rewrite Hval in V.
  inversion V as [| | | | | | |ue0 amf0 smf0 upf0 [Hue Hty] _ _ _ _ Hupf Htun]. subst. cbn.
  apply find_elem in Hupf as [Hin Hst]. unfold stableInSubnet in Hst.
  apply andb_true_iff in Hst as [Hst _]. apply andb_true_iff in Hst as [Hst _].
  apply String.eqb_eq in Hst. auto.
Qed.

Lemma valid_gateway_not_terminal ds u found :
  wellFormed ds -> validatePrerequisites ds u = Valid found -> nf_id (upf found) <> u.
Proof.
  intros Hwf Hval Heq.
  destruct (valid_nodes ds u found Hval) as (Hue & Hty & Hin & Hty' & _).
  assert (upf found = ue found).
  { apply (wellFormed_same_id ds); [exact Hwf|exact Hin|apply (getNFById_elem _ _ _ Hue)|].
    rewrite Heq. symmetry. apply (getNFById_id _ _ _ Hue). }
  congruence.
Qed.

(** The runs of the [try] block, by the first message that raises. *)
Lemma establishSteps_outcome env u found w :
  establishSteps env u found w
  = let wA := modifySession u (setPduSessionId (randomSessionId env + 1)) w in
    if raises env [N1EstablishmentRequest; NsmfPDUSessionCreate; N4SessionEstablishmentRequest]
    then (wA, Thrown)
    else
      let '(ds', upf', ip) :=
        allocateUEIP (dataStore wA) (upf found) (ue found) (now env) in
      let wB := setStore wA ds' in
      if throwsAt env N4SessionEstablishmentResponse then (wB, Thrown)
      else
        let wC := modifySession u
                    (setAllocation ip ("gtp-" +:+ string_of_Z (1000 + randomTunnel env))
                                   (nf_id upf')) wB in
        if raises env [PDUSessionAccept; N1SessionAccept] then (wC, Thrown)
        else (modifySession u (setActive (now env))
                (commitTerminal env u (ue found) upf' wC), Returned true).
Proof.
  unfold establishSteps, sendN1EstablishmentRequest, sendNsmfPDUSessionCreate,
    sendN4SessionEstablishment, sendPDUSessionAccept, sendN1SessionAccept,
    raises, bind, transmit, mutate, ret.
  cbn [existsb orb].
  destruct (throwsAt env N1EstablishmentRequest); [reflexivity|].
  destruct (throwsAt env NsmfPDUSessionCreate); [reflexivity|].
  destruct (throwsAt env N4SessionEstablishmentRequest); [reflexivity|].
  cbn [orb].
  destruct (allocateUEIP _ (upf found) (ue found) (now env)) as [[ds' upf'] ip].
  destruct (throwsAt env N4SessionEstablishmentResponse); [reflexivity|].
  destruct (throwsAt env PDUSessionAccept); [reflexivity|].
  destruct (throwsAt env N1SessionAccept); reflexivity.
Qed.

Lemma raises_establishment env :
  raises env establishmentMessages
  = raises env [N1EstablishmentRequest; NsmfPDUSessionCreate; N4SessionEstablishmentRequest]
    || throwsAt env N4SessionEstablishmentResponse
    || raises env [PDUSessionAccept; N1SessionAccept].
Proof.
  unfold raises, establishmentMessages. cbn [existsb].
  rewrite !orb_false_r, !orb_assoc. reflexivity.
Qed.

(** Entering establishment: the session exists afterwards and is marked. *)
Lemma establishPDUSession_entered env w u found :
  state (sessionOf w u) <> ACTIVE -> state (sessionOf w u) <> ESTABLISHING ->
  validatePrerequisites (dataStore w) u = Valid found ->
  establishPDUSession env w u
  = let w1 := modifySession u (setState ESTABLISHING) (fst (getSession w u)) in
    match establishSteps env u found w1 with
    | (w', Returned r) => (w', r)
    | (w', Thrown) => (modifySession u (setState IDLE) w', false)
    end.
Proof.
  intros H1 H2 Hval. unfold establishPDUSession, sessionOf in *.
  pose proof (getSession_store w u) as Hds.
  destruct (getSession w u) as [w0 s0]. cbn in *. rewrite Hds, Hval.
  destruct (state s0); try reflexivity; contradiction.
Qed.

Lemma sessions_modify w u f s :
  sessions w !! u = Some s -> sessions (modifySession u f w) !! u = Some (f s).
Proof. intros H. cbn. rewrite lookup_alter_eq, H. reflexivity. Qed.

Lemma sessions_setStore w ds u : sessions (setStore w ds) !! u = sessions w !! u.
Proof. reflexivity. Qed.

(** C1 (as amended).  When establishment has entered ESTABLISHING and one
    of its messages raises, [establishPDUSession] answers false and the
    session is IDLE again; the terminal's node in the store is untouched (no
    session or tunnel config is committed to it).  What was written before
    the exception stays: if the exception comes before the allocation of
    step 3 the store and the session's address, tunnel and gateway fields
    are as they were; otherwise the store is the one the allocation left
    (the address stays in the pool's mapping), and when the exception comes
    after step 4 the session keeps the address, tunnel id and gateway id. *)
Theorem establishPDUSession_failure
        (env : Env) (w : World) (ueId : string) (found : NFs) :
  wellFormed (dataStore w) ->
  state (sessionOf w ueId) <> ACTIVE ->
  state (sessionOf w ueId) <> ESTABLISHING ->
  validatePrerequisites (dataStore w) ueId = Valid found ->
  raises env establishmentMessages = true ->
  let s := sessionOf w ueId in
  let w' := fst (establishPDUSession env w ueId) in
  let s' := sessionOf w' ueId in
  let alloc := allocateUEIP (dataStore w) (upf found) (ue found) (now env) in
  snd (establishPDUSession env w ueId) = false
  /\ state s' = IDLE
  /\ getNFById (dataStore w') ueId = Some (ue found)
  /\ (raises env [N1EstablishmentRequest; NsmfPDUSessionCreate;
                  N4SessionEstablishmentRequest] = true ->
      dataStore w' = dataStore w
      /\ assignedIP s' = assignedIP s /\ tunnelId s' = tunnelId s /\ upfId s' = upfId s)
  /\ (raises env [N1EstablishmentRequest; NsmfPDUSessionCreate;
                  N4SessionEstablishmentRequest] = false ->
      dataStore w' = fst (fst alloc)
      /\ (throwsAt env N4SessionEstablishmentResponse = true ->
          assignedIP s' = assignedIP s /\ tunnelId s' = tunnelId s /\ upfId s' = upfId s)
      /\ (throwsAt env N4SessionEstablishmentResponse = false ->
          assignedIP s' = Some (snd alloc)
          /\ tunnelId s' = Some ("gtp-" +:+ string_of_Z (1000 + randomTunnel env))
          /\ upfId s' = Some (nf_id (upf found)))).
Proof.
  intros Hwf Hna Hne Hval Hraise s w' s' alloc.
  destruct (valid_nodes _ _ _ Hval) as (Hue & _).
  pose proof (valid_gateway_not_terminal _ _ _ Hwf Hval) as Hgw.
  pose proof (getSession_lookup w ueId) as Hs0. fold (sessionOf w ueId) in Hs0. fold s in Hs0.
  pose proof (getSession_store w ueId) as Hds0.
  subst w' s'. rewrite (establishPDUSession_entered env w ueId found Hna Hne Hval).
  cbv zeta. rewrite establishSteps_outcome. cbv zeta.
  rewrite raises_establishment in Hraise.
  set (w0 := fst (getSession w ueId)) in *.
  set (wA := modifySession ueId (setPduSessionId (randomSessionId env + 1))
               (modifySession ueId (setState ESTABLISHING) w0)).
  assert (HsA : sessions wA !! ueId
                = Some (setPduSessionId (randomSessionId env + 1) (setState ESTABLISHING s))).
  { subst wA. apply sessions_modify, sessions_modify. exact Hs0. }
  assert (HdA : dataStore wA = dataStore w) by exact Hds0.
  destruct (raises env [N1EstablishmentRequest; NsmfPDUSessionCreate;
                        N4SessionEstablishmentRequest]) eqn:R1.
  { cbn [fst snd].
    rewrite (sessionOf_lookup _ ueId _ (sessions_modify _ _ (setState IDLE) _ HsA)).
    change (dataStore (modifySession ueId (setState IDLE) wA)) with (dataStore wA).
    rewrite HdA. repeat split; auto; discriminate. }
  rewrite HdA. subst alloc.
  pose proof (allocateUEIP_store (dataStore w) (upf found) (ue found) (now env)) as Hal.
  destruct (allocateUEIP (dataStore w) (upf found) (ue found) (now env)) as [[ds' upf'] ip].
  destruct Hal as [Hid Hds']. cbn [fst snd].
  assert (Hue' : getNFById ds' ueId = Some (ue found)).
  { destruct Hds' as [->| ->]; [exact Hue|].
    rewrite getNFById_updateNF_other; [exact Hue|exact Hid|]. congruence. }
  destruct (throwsAt env N4SessionEstablishmentResponse) eqn:R2.
  { cbn [fst snd].
    erewrite (sessionOf_lookup _ ueId); [|apply sessions_modify; exact HsA].
    repeat split; auto; discriminate. }
  destruct (raises env [PDUSessionAccept; N1SessionAccept]) eqn:R3; [|discriminate].
  cbn [fst snd].
  erewrite (sessionOf_lookup _ ueId);
    [|apply sessions_modify, sessions_modify; exact HsA].
  rewrite Hid. repeat split; auto; discriminate.
Qed.

(** C1 (counterexample to the claim as worded).  In the scenario, with the
    exception raised by the accept message of step 5: the session is IDLE
    again, but it keeps the address and the tunnel id, and the address is
    still in the gateway pool's mapping, which was empty before. *)
Lemma establishPDUSession_failure_keeps_allocation :
  let env := Scenario.failingAt PDUSessionAccept in
  let w' := fst (establishPDUSession env Scenario.world "ue-1") in
  validatePrerequisites (dataStore Scenario.world) "ue-1"
  = Valid (mkNFs Scenario.ue1 Scenario.amf1 Scenario.smf1 Scenario.upf1)
  /\ state (sessionOf Scenario.world "ue-1") = IDLE
  /\ raises env establishmentMessages = true
  /\ entriesOf (dataStore Scenario.world) "upf-1" = []
  /\ state (sessionOf w' "ue-1") = IDLE
  /\ assignedIP (sessionOf w' "ue-1") = Some "10.0.0.2"
  /\ tunnelId (sessionOf w' "ue-1") = Some "gtp-1234"
  /\ entriesOf (dataStore w') "upf-1"
     = [mkAssignedIP "ue-1" "UE-1" "10.0.0.2" 1700000000000].
Proof. vm_compute. repeat split; reflexivity. Qed.

(** ** Addresses as strings *)

Lemma string_of_Z_inj a b : string_of_Z a = string_of_Z b -> a = b.
Proof.
  unfold string_of_Z. intros H. apply to_int_inj.
  assert (Hnn : forall z, Z.to_int z <> Decimal.Pos Decimal.Nil
                          /\ Z.to_int z <> Decimal.Neg Decimal.Nil).
  { intros [|p|p]; cbn; split; try discriminate; intros E; injection E as E;
      exact (DecimalPos.Unsigned.to_uint_nonnil p E). }
  destruct (Hnn a) as [Ha1 Ha2]. destruct (Hnn b) as [Hb1 Hb2].
  pose proof (NilZero.isi _ Ha1 Ha2) as Ia. pose proof (NilZero.isi _ Hb1 Hb2) as Ib.
  rewrite H in Ia. rewrite Ia in Ib. injection Ib as Ib. exact Ib.
Qed.

Lemma candidateIP_inj a b : candidateIP a = candidateIP b -> a = b.
Proof.
  unfold candidateIP. cbn. intros H. injection H as H. apply string_of_Z_inj. exact H.
Qed.

Lemma candidateIP_nonempty k : candidateIP k <> "".
Proof. unfold candidateIP. cbn. discriminate. Qed.

Lemma fallback_is_candidate : "10.0.0.2" = candidateIP 2.
Proof. reflexivity. Qed.

(** ** Allocation, continued *)

Lemma isAssigned_mapped tun0 ip :
  isAssigned tun0 ip = true <-> mapped (default [] (assignedIPs tun0)) ip.
Proof.
  unfold isAssigned, mapped. rewrite existsb_elem. split.
  - intros (a & Ha & H). apply String.eqb_eq in H. eauto.
  - intros (a & Ha & H). exists a. split; [exact Ha|]. apply String.eqb_eq. exact H.
Qed.

(** C3 (as amended).  [allocateUEIP] scans the addresses [10.0.0.k] from the
    pool's counter (2 when the counter is unset or 0) up to 14 and returns
    the first one that no entry of the mapping carries; it then appends the
    entry for the requester and sets the counter just past the address.
    The lower end of the scan is the counter, not 2: the address is within
    10.0.0.2 to 10.0.0.14 when the counter is at least 2.  (The counter is
    an integer a binary64 number counts exactly, from -2^53 up.)  When every
    address of the scan is in the mapping (or the counter is past 14) it
    returns 10.0.0.2 and leaves the pool as it was.  [allocate] is this
    function seen from the pool: from a pool with counter 2 and an empty
    mapping, thirteen calls return 10.0.0.2 to 10.0.0.14, all different, and
    the fourteenth returns 10.0.0.2 again. *)
Theorem allocateUEIP_first_free :
  (forall ds upf ue at_ tun0,
      tun0Interface (config upf) = Some tun0 ->
      - 9007199254740992 <= startIP tun0 ->
      let entries := default [] (assignedIPs tun0) in
      let '(ds', upf', ip) := allocateUEIP ds upf ue at_ in
      (exists k,
          startIP tun0 <= k <= 14
          /\ (2 <= startIP tun0 -> 2 <= k <= 14)
          /\ ~ mapped entries (candidateIP k)
          /\ (forall j, startIP tun0 <= j < k -> mapped entries (candidateIP j))
          /\ ip = candidateIP k
          /\ tun0Interface (config upf')
             = Some (mkTun0 (gatewayIP tun0)
                            (Some (entries
                                   ++ [mkAssignedIP (nf_id ue) (nf_name ue) (candidateIP k) at_]))
                            (Some (k + 1)))
          /\ ds' = updateNF ds (nf_id upf) upf')
      \/ ((forall j, startIP tun0 <= j <= 14 -> mapped entries (candidateIP j))
          /\ ip = "10.0.0.2" /\ upf' = upf /\ ds' = ds))
  /\ (forall tun0, nextAvailableIP tun0 = None \/ nextAvailableIP tun0 = Some 0 ->
                   startIP tun0 = 2)
  /\ (forall tun0 n, nextAvailableIP tun0 = Some n -> n <> 0 -> startIP tun0 = n)
  /\ (forall ds upf ue at_ tun0,
         tun0Interface (config upf) = Some tun0 ->
         let '(_, upf', ip) := allocateUEIP ds upf ue at_ in
         ip = snd (allocate tun0 ue at_)
         /\ tun0Interface (config upf') = Some (fst (allocate tun0 ue at_)))
  /\ (let ips := snd (allocateMany Scenario.pool0 Scenario.requests14) in
      ips = map candidateIP [2; 3; 4; 5; 6; 7; 8; 9; 10; 11; 12; 13; 14] ++ ["10.0.0.2"]
      /\ NoDup (take 13 ips)
      /\ nextAvailableIP (fst (allocateMany Scenario.pool0 Scenario.requests14)) = Some 15).
Proof.
  split; [|split; [|split; [|split]]].
  - intros ds upf ue at_ tun0 Htun _. cbv zeta. unfold allocateUEIP. rewrite Htun.
    destruct (allocate_scan tun0 ue at_) as [(k & Hk & Hfree & Hbelow & Hres) | (Hall & Hres)];
      rewrite Hres.
    + left. exists k. cbn.
      split; [exact Hk|]. split; [lia|]. split.
      { intros Hm. apply isAssigned_mapped in Hm. congruence. }
      split; [intros j Hj; apply isAssigned_mapped, Hbelow, Hj|]. auto.
    + right. split; [intros j Hj; apply isAssigned_mapped, Hall, Hj|]. auto.
  - intros tun0 [H|H]; unfold startIP; rewrite H; reflexivity.
  - intros tun0 n H Hn. unfold startIP. rewrite H.
    destruct (n =? 0) eqn:E; [apply Z.eqb_eq in E; contradiction|reflexivity].
  - intros ds upf ue at_ tun0 Htun.
    pose proof (allocateUEIP_allocate ds upf ue at_ tun0 Htun) as H.
    destruct (allocateUEIP ds upf ue at_) as [[ds' upf'] ip].
    destruct H as (H1 & H2 & _). auto.
  - vm_compute. split; [reflexivity|]. split; [|reflexivity].
    repeat (constructor; [rewrite ?elem_of_cons, elem_of_nil; intros H;
                          repeat destruct H as [H|H]; try discriminate H; exact H|]).
    constructor.
Qed.

(** C3 (counterexample to the claim as worded).  The scan starts at the
    counter whatever it is.  From a pool with an empty mapping and the
    counter at 1 the address returned is 10.0.0.1, the address of the
    gateway itself, and from the counter at -3 it is 10.0.0.-3: neither is
    within 10.0.0.2 to 10.0.0.14, and both are recorded in the mapping. *)
Lemma allocateUEIP_below_range :
  snd (allocateUEIP Scenario.store (upfCounting 1) Scenario.ue1 1700000000000) = "10.0.0.1"
  /\ snd (allocateUEIP Scenario.store (upfCounting (-3)) Scenario.ue1 1700000000000)
     = "10.0.0.-3"
  /\ entriesOf (fst (fst (allocateUEIP Scenario.store (upfCounting 1) Scenario.ue1
                                       1700000000000))) "upf-1"
     = [mkAssignedIP "ue-1" "UE-1" "10.0.0.1" 1700000000000]
  /\ tun0Interface (config (upfCounting 1))
     = Some (mkTun0 (Some "10.0.0.1") (Some []) (Some 1)).
Proof. vm_compute. repeat split; reflexivity. Qed.

(** The first free address of the scan is the one the scan returns. *)
Lemma scanPool_first_free tun0 ue at_ k :
  startIP tun0 <= k <= 14 ->
  isAssigned tun0 (candidateIP k) = false ->
  (forall j, startIP tun0 <= j < k -> isAssigned tun0 (candidateIP j) = true) ->
  scanPool tun0 ue at_ = Some (Allocated (recordAllocation tun0 ue k at_) (candidateIP k)).
Proof.
  intros Hk Hfree Hbelow.
  destruct (allocate_scan tun0 ue at_) as [(k' & Hk' & Hfree' & Hbelow' & Hres) | (Hall & _)].
  - assert (k' = k); [|subst; exact Hres].
    destruct (Z.lt_trichotomy k' k) as [Hlt|[Heq|Hgt]]; [|exact Heq|].
    + rewrite Hbelow in Hfree' by lia. discriminate.
    + rewrite Hbelow' in Hfree by lia. discriminate.
  - rewrite Hall in Hfree by lia. discriminate.
Qed.

(** The counter never moves back: from a pool whose scan starts at [m] or
    above, every address handed out is 10.0.0.j with j at least [m], or the
    fallback. *)
Lemma allocateMany_above reqs : forall tun0 m,
  1 <= m -> m <= startIP tun0 ->
  forall ip, ip ∈ snd (allocateMany tun0 reqs) ->
             ip = "10.0.0.2" \/ exists j, m <= j <= 14 /\ ip = candidateIP j.
Proof.
  induction reqs as [|[ue at_] rest IH]; intros tun0 m Hm Hstart ip Hip.
  - cbn in Hip. apply elem_of_nil in Hip. contradiction.
  - cbn [allocateMany] in Hip. unfold allocate in Hip.
    destruct (allocate_scan tun0 ue at_) as [(k & Hk & _ & _ & Hres) | (_ & Hres)];
      rewrite Hres in Hip.
    + destruct (allocateMany (recordAllocation tun0 ue k at_) rest) as [t ips] eqn:E.
      cbn in Hip. apply elem_of_cons in Hip as [->|Hip].
      * right. exists k. split; [lia|reflexivity].
      * apply (IH (recordAllocation tun0 ue k at_) m Hm); [|rewrite E; exact Hip].
        unfold startIP. cbn. destruct (k + 1 =? 0) eqn:E0; [apply Z.eqb_eq in E0|]; lia.
    + destruct (allocateMany tun0 rest) as [t ips] eqn:E.
      cbn in Hip. apply elem_of_cons in Hip as [->|Hip]; [left; reflexivity|].
      apply (IH tun0 m Hm Hstart). rewrite E. exact Hip.
Qed.

(** ** Establishment that completes *)

Lemma wellFormed_lookup ds x : wellFormed ds -> x ∈ nfs ds -> getNFById ds (nf_id x) = Some x.
Proof.
  intros Hwf Hx. destruct (getNFById ds (nf_id x)) as [y|] eqn:E.
  - f_equal. apply (wellFormed_same_id ds); [exact Hwf|apply (getNFById_elem _ _ _ E)|exact Hx|].
    apply (getNFById_id _ _ _ E).
  - exfalso. unfold getNFById in E.
    apply list_elem_of_In in Hx. pose proof (find_none _ _ E x Hx) as Hf.
    cbn in Hf. rewrite String.eqb_refl in Hf. discriminate.
Qed.

Lemma establishPDUSession_completes env w u found tun0 k :
  wellFormed (dataStore w) ->
  state (sessionOf w u) <> ACTIVE ->
  state (sessionOf w u) <> ESTABLISHING ->
  validatePrerequisites (dataStore w) u = Valid found ->
  raises env establishmentMessages = false ->
  tun0Interface (config (upf found)) = Some tun0 ->
  startIP tun0 <= k <= 14 ->
  isAssigned tun0 (candidateIP k) = false ->
  (forall j, startIP tun0 <= j < k -> isAssigned tun0 (candidateIP j) = true) ->
  let w1 := fst (establishPDUSession env w u) in
  snd (establishPDUSession env w u) = true
  /\ state (sessionOf w1 u) = ACTIVE
  /\ assignedIP (sessionOf w1 u) = Some (candidateIP k)
  /\ upfId (sessionOf w1 u) = Some (nf_id (upf found))
  /\ (exists ue', getNFById (dataStore w1) u = Some ue')
  /\ poolOf (dataStore w1) (nf_id (upf found))
     = Some (recordAllocation tun0 (ue found) k (now env)).
Proof.
  intros Hwf Hna Hne Hval Hraise Htun Hk Hfree Hbelow w1.
  destruct (valid_nodes _ _ _ Hval) as (Hue & _ & Hin & _).
  pose proof (valid_gateway_not_terminal _ _ _ Hwf Hval) as Hgw.
  pose proof (wellFormed_lookup _ _ Hwf Hin) as Hupf.
  pose proof (getNFById_id _ _ _ Hue) as Hueid.
  pose proof (getSession_lookup w u) as Hs0. fold (sessionOf w u) in Hs0.
  pose proof (getSession_store w u) as Hds0.
  subst w1. rewrite (establishPDUSession_entered env w u found Hna Hne Hval).
  cbv zeta. rewrite establishSteps_outcome. cbv zeta.
  rewrite raises_establishment in Hraise.
  apply orb_false_iff in Hraise as [Hraise R3]. apply orb_false_iff in Hraise as [R1 R2].
  rewrite R1.
  change (dataStore (modifySession u (setPduSessionId (randomSessionId env + 1))
                       (modifySession u (setState ESTABLISHING) (fst (getSession w u)))))
    with (dataStore (fst (getSession w u))).
  rewrite Hds0. unfold allocateUEIP. rewrite Htun.
  rewrite (scanPool_first_free tun0 (ue found) (now env) k Hk Hfree Hbelow).
  cbv zeta. rewrite R2, R3. cbn [fst snd].
  set (upf' := set_config (upf found)
                 (set_tun0 (config (upf found))
                    (Some (recordAllocation tun0 (ue found) k (now env))))).
  assert (Hid' : nf_id upf' = nf_id (upf found)) by reflexivity.
  rewrite Hid'.
  set (ds' := updateNF (dataStore w) (nf_id (upf found)) upf').
  set (wC := modifySession u _ (setStore _ ds')).
  assert (HsC : exists sC, sessions wC !! u = Some sC
                           /\ assignedIP sC = Some (candidateIP k)
                           /\ upfId sC = Some (nf_id (upf found))).
  { eexists. split.
    - subst wC. apply sessions_modify. rewrite sessions_setStore.
      apply sessions_modify, sessions_modify. exact Hs0.
    - split; reflexivity. }
  destruct HsC as (sC & HsC & HipC & HkC).
  assert (HdC : dataStore wC = ds') by reflexivity.
  unfold commitTerminal. rewrite HdC.
  set (ue' := set_config (ue found) _).
  assert (Hue' : getNFById ds' u = Some (ue found)).
  { subst ds'. rewrite getNFById_updateNF_other; [exact Hue|exact Hid'|]. congruence. }
  split; [reflexivity|].
  erewrite (sessionOf_lookup _ u); [|apply sessions_modify; rewrite sessions_setStore; exact HsC].
  split; [reflexivity|]. split; [exact HipC|]. split; [exact HkC|].
  change (dataStore (modifySession u (setActive (now env)) (setStore wC (updateNF ds' u ue'))))
    with (updateNF ds' u ue').
  split.
  - exists ue'. apply (getNFById_updateNF_same ds' u ue' (ue found) Hue'). exact Hueid.
  - unfold poolOf. rewrite getNFById_updateNF_other; [|exact Hueid|exact Hgw].
    subst ds'. rewrite (getNFById_updateNF_same _ _ upf' (upf found) Hupf Hid'). reflexivity.
Qed.

(** ** An address from allocation to release *)

Lemma cleanedStore_setState ds u st s :
  cleanedStore ds u (setState st s) = cleanedStore ds u s.
Proof. reflexivity. Qed.

(** The store a release of an active session of an existing terminal
    leaves, whichever way it goes. *)
Lemma releasePDUSession_store env w u ue :
  state (sessionOf w u) = ACTIVE ->
  getNFById (dataStore w) u = Some ue ->
  dataStore (fst (releasePDUSession env w u)) = cleanedStore (dataStore w) u (sessionOf w u)
  /\ sessionOf (fst (releasePDUSession env w u)) u = resetSession (sessionOf w u).
Proof.
  intros Hact Hue. rewrite (releasePDUSession_active env w u ue Hact Hue).
  destruct (validatePrerequisites (dataStore w) u); cbn [fst].
  - rewrite cleanupSession_store, sessionOf_cleanup. split; reflexivity.
  - rewrite cleanupSession_store, sessionOf_cleanup.
    rewrite (sessionOf_modify w u _ Hact). split; reflexivity.
Qed.

(** C4 (as amended).  When establishment completes and the scan of the
    gateway's pool found a free address (counter at 2 or above, range not
    exhausted), the terminal's address is 10.0.0.k with k from 2 to 14 and
    the pool's mapping has an entry that gives this address to the terminal.
    After the terminal's release, however it goes, the address is in the
    mapping no more.  The pool's counter stays just past the address: later
    allocations return addresses above it or the fallback 10.0.0.2, so the
    released address is handed out again only if it is 10.0.0.2 itself. *)
Theorem established_address_lifecycle
        (env env' : Env) (w : World) (ueId : string) (found : NFs)
        (tun0 : Tun0Interface) (k : Z) :
  wellFormed (dataStore w) ->
  state (sessionOf w ueId) <> ACTIVE ->
  state (sessionOf w ueId) <> ESTABLISHING ->
  validatePrerequisites (dataStore w) ueId = Valid found ->
  raises env establishmentMessages = false ->
  tun0Interface (config (upf found)) = Some tun0 ->
  2 <= startIP tun0 ->
  startIP tun0 <= k <= 14 ->
  isAssigned tun0 (candidateIP k) = false ->
  (forall j, startIP tun0 <= j < k -> isAssigned tun0 (candidateIP j) = true) ->
  let gw := nf_id (upf found) in
  let w1 := fst (establishPDUSession env w ueId) in
  let w2 := fst (releasePDUSession env' w1 ueId) in
  snd (establishPDUSession env w ueId) = true
  /\ state (sessionOf w1 ueId) = ACTIVE
  /\ assignedIP (sessionOf w1 ueId) = Some (candidateIP k)
  /\ 2 <= k <= 14
  /\ (exists a, a ∈ entriesOf (dataStore w1) gw
                /\ a_ip a = candidateIP k /\ a_ueId a = ueId)
  /\ state (sessionOf w2 ueId) = RELEASED
  /\ ~ mapped (entriesOf (dataStore w2) gw) (candidateIP k)
  /\ exists pool2,
      poolOf (dataStore w2) gw = Some pool2
      /\ nextAvailableIP pool2 = Some (k + 1)
      /\ (forall reqs ip, ip ∈ snd (allocateMany pool2 reqs) ->
                          ip = "10.0.0.2" \/ exists j, k < j <= 14 /\ ip = candidateIP j)
      /\ (forall reqs, candidateIP k ∈ snd (allocateMany pool2 reqs) -> k = 2).
Proof.
  intros Hwf Hna Hne Hval Hraise Htun Hstart Hk Hfree Hbelow gw w1 w2.
  destruct (establishPDUSession_completes env w ueId found tun0 k
              Hwf Hna Hne Hval Hraise Htun Hk Hfree Hbelow)
    as (Hr & Hact & Hip & Hgwid & [ue' Hue'] & Hpool).
  fold w1 in Hact, Hip, Hgwid, Hue', Hpool. fold gw in Hgwid, Hpool.
  destruct (valid_nodes _ _ _ Hval) as (Hue & _ & Hin & _).
  pose proof (getNFById_id _ _ _ Hue) as Hueid.
  assert (Hgw0 : gw <> "") by (destruct Hwf as [_ Hne0]; apply Hne0; exact Hin).
  set (l1 := default [] (assignedIPs tun0)
             ++ [mkAssignedIP (nf_id (ue found)) (nf_name (ue found)) (candidateIP k)
                              (now env)]).
  assert (He1 : entriesOf (dataStore w1) gw = l1).
  { unfold entriesOf. rewrite Hpool. reflexivity. }
  destruct (releasePDUSession_store env' w1 ueId ue' Hact Hue') as [Hds2 Hs2].
  fold w2 in Hds2, Hs2.
  assert (Hupf1 : exists upf1, getNFById (dataStore w1) gw = Some upf1
                               /\ tun0Interface (config upf1)
                                  = Some (recordAllocation tun0 (ue found) k (now env))).
  { unfold poolOf in Hpool. destruct (getNFById (dataStore w1) gw) as [upf1|]; [eauto|discriminate]. }
  destruct Hupf1 as (upf1 & Hupf1 & Htun1).
  assert (Hpool2 : poolOf (dataStore w2) gw
                   = Some (withoutEntriesOf ueId
                             (recordAllocation tun0 (ue found) k (now env)) l1)).
  { rewrite Hds2.
    apply (cleanedStore_pool _ _ _ gw (candidateIP k) upf1); try assumption.
    - apply candidateIP_nonempty.
    - reflexivity. }
  split; [exact Hr|]. split; [exact Hact|]. split; [exact Hip|]. split; [lia|].
  split.
  { rewrite He1. eexists. split; [apply elem_of_app; right; left|]. split; [reflexivity|exact Hueid]. }
  split; [rewrite Hs2; reflexivity|].
  split.
  { unfold entriesOf. rewrite Hpool2. cbn [withoutEntriesOf assignedIPs from_option id].
    apply filter_unmapped. intros a Ha Hipa. subst l1.
    apply elem_of_app in Ha as [Ha|Ha].
    - exfalso. apply not_true_iff_false in Hfree. apply Hfree.
      apply isAssigned_mapped. exists a. auto.
    - apply list_elem_of_singleton in Ha. subst a. exact Hueid. }
  eexists. split; [exact Hpool2|]. split; [reflexivity|].
  assert (Habove : forall reqs ip,
             ip ∈ snd (allocateMany (withoutEntriesOf ueId
                                       (recordAllocation tun0 (ue found) k (now env)) l1) reqs) ->
             ip = "10.0.0.2" \/ exists j, k < j <= 14 /\ ip = candidateIP j).
  { intros reqs ip Hin'.
    apply (allocateMany_above reqs _ (k + 1)) in Hin' as [H|(j & Hj & H)]; [auto| |lia|].
    - right. exists j. split; [lia|exact H].
    - unfold startIP. cbn. destruct (k + 1 =? 0) eqn:E0; [apply Z.eqb_eq in E0|]; lia. }
  split; [exact Habove|].
  intros reqs Hin'. apply Habove in Hin' as [H|(j & Hj & H)].
  - rewrite fallback_is_candidate in H. apply candidateIP_inj in H. exact H.
  - apply candidateIP_inj in H. lia.
Qed.

(** C4 (counterexample to the claim as worded).  Two terminals establish in
    turn and get 10.0.0.2 and 10.0.0.3; the second releases.  Its address is
    then absent from the mapping, but the pool's counter stays at 4, and no
    sequence of later allocations returns 10.0.0.3. *)
Lemma released_address_not_reallocated :
  let w1 := fst (establishPDUSession Scenario.calm Scenario.world2 "ue-1") in
  let w2 := fst (establishPDUSession Scenario.calm w1 "ue-2") in
  let w3 := fst (releasePDUSession Scenario.calm w2 "ue-2") in
  snd (establishPDUSession Scenario.calm w1 "ue-2") = true
  /\ state (sessionOf w2 "ue-2") = ACTIVE
  /\ assignedIP (sessionOf w2 "ue-2") = Some "10.0.0.3"
  /\ snd (releasePDUSession Scenario.calm w2 "ue-2") = true
  /\ state (sessionOf w3 "ue-2") = RELEASED
  /\ entriesOf (dataStore w3) "upf-1"
     = [mkAssignedIP "ue-1" "UE-1" "10.0.0.2" 1700000000000]
  /\ exists pool,
      poolOf (dataStore w3) "upf-1" = Some pool
      /\ nextAvailableIP pool = Some 4
      /\ forall reqs, ~ "10.0.0.3" ∈ snd (allocateMany pool reqs).
Proof.
  cbv zeta.
  split; [vm_compute; reflexivity|]. split; [vm_compute; reflexivity|].
  split; [vm_compute; reflexivity|]. split; [vm_compute; reflexivity|].
  split; [vm_compute; reflexivity|]. split; [vm_compute; reflexivity|].
  exists (mkTun0 (Some "10.0.0.1")
                 (Some [mkAssignedIP "ue-1" "UE-1" "10.0.0.2" 1700000000000]) (Some 4)).
  split; [vm_compute; reflexivity|]. split; [reflexivity|].
  intros reqs Hin.
  apply (allocateMany_above reqs _ 4) in Hin as [H|(j & Hj & H)]; [discriminate H| |lia|].
  - change "10.0.0.3" with (candidateIP 3) in H. apply candidateIP_inj in H. lia.
  - unfold startIP. cbn. lia.
Qed.

(** ** The packet animator *)

Import PacketAnimator.

Lemma advance_onComplete p : onComplete (fst (advance p)) = onComplete p.
Proof. unfold advance. destruct (carry _ _ _ _). reflexivity. Qed.

Lemma advance_finishes p : snd (advance p) = finishes p.
Proof. unfold advance, finishes. destruct (carry _ _ _ _) as [seg sp]. reflexivity. Qed.

(** The carry loop has the fuel it needs: when it stops, its condition is
    false. *)
Lemma carry_stops fuel len seg sp :
  (len <= seg + fuel)%nat ->
  let '(seg', sp') := carry fuel len seg sp in
  (1 <=? sp')%float && (seg' + 1 <? len)%nat = false.
Proof.
  revert seg sp. induction fuel as [|fuel IH]; intros seg sp Hfuel; cbn [carry].
  - apply andb_false_intro2. apply Nat.ltb_ge. lia.
  - destruct ((1 <=? sp)%float && (seg + 1 <? len)%nat) eqn:E; [|exact E].
    apply IH. lia.
Qed.


Lemma pass_live (l : list Packet) :
  map fst (filter (fun r => snd r = false) (map advance l))
  = map (fun p => fst (advance p)) (List.filter (fun p => negb (finishes p)) l).
Proof.
  induction l as [|p l IH]; [reflexivity|].
  cbn [map List.filter]. rewrite filter_cons, <- advance_finishes.
  destruct (decide (snd (advance p) = false)) as [E|E].
  - rewrite E. cbn [map negb]. rewrite IH. reflexivity.
  - apply not_false_is_true in E. rewrite E. exact IH.
Qed.

(** One pass neither loses nor duplicates a continuation. *)
Lemma pass_conserves (l : list Packet) :
  map onComplete l
  ≡ₚ map onComplete (map fst (filter (fun r => snd r = true) (map advance l)))
     ++ map onComplete (map fst (filter (fun r => snd r = false) (map advance l))).
Proof.
  induction l as [|p l IH]; [reflexivity|].
  cbn [map]. rewrite !filter_cons.
  destruct (decide (snd (advance p) = true)) as [E|E];
    destruct (decide (snd (advance p) = false)) as [E'|E']; try congruence.
  - cbn [map app]. rewrite advance_onComplete. constructor. exact IH.
  - cbn [map]. rewrite advance_onComplete, IH. apply Permutation_middle.
  - destruct (snd (advance p)); congruence.
Qed.

Lemma stopAnimation_fields a :
  packets (stopAnimation a) = packets a
  /\ resolved (stopAnimation a) = resolved a
  /\ ticks (stopAnimation a) = ticks a
  /\ isRunning (stopAnimation a) = false
  /\ packetCounter (stopAnimation a) = packetCounter a.
Proof. unfold stopAnimation. destruct (animationFrameId a) as [[|f]|]; cbn; auto. Qed.

(** What one pass does. *)
Lemma updatePackets_fields a :
  let a' := updatePackets a in
  packets a' = map fst (filter (fun r => snd r = false) (map advance (packets a)))
  /\ resolved a'
     = resolved a
       ++ map onComplete (map fst (filter (fun r => snd r = true) (map advance (packets a))))
  /\ ticks a' = ticks a ++ [length (packets a)]
  /\ (packets a' = [] -> isRunning a' = false)
  /\ (packets a' <> [] -> isRunning a' = isRunning a).
Proof.
  cbv zeta. unfold updatePackets.
  set (live := map fst (filter (fun r => snd r = false) (map advance (packets a)))).
  destruct (length live =? 0)%nat eqn:E.
  - destruct (stopAnimation_fields
                (mkAnimator live (packetCounter a) (isRunning a) (animationFrameId a)
                   (pendingFrames a) (nextFrame a)
                   (resolved a ++ map onComplete
                      (map fst (filter (fun r => snd r = true) (map advance (packets a)))))
                   (ticks a ++ [length (packets a)])))
      as (Hp & Hr & Ht & Hi & _).
    rewrite Hp, Hr, Ht, Hi. cbn. repeat split; auto.
    intros Hne. apply Nat.eqb_eq in E. destruct live; [contradiction|discriminate].
  - cbn. repeat split; auto.
    intros Hnil. rewrite Hnil in E. discriminate.
Qed.

(** The packets a pass completes are resolved, once each, and leave the live
    set; the others stay. *)
Lemma updatePackets_completed a :
  let a' := updatePackets a in
  resolved a' ++ pending a' ≡ₚ resolved a ++ pending a.
Proof.
  cbv zeta. unfold pending.
  destruct (updatePackets_fields a) as (Hp & Hr & _). rewrite Hp, Hr.
  rewrite <- app_assoc. apply Permutation_app_head. symmetry. apply pass_conserves.
Qed.

Lemma animate_fields a :
  let a' := animate a in
  (isRunning a = false -> a' = a)
  /\ (isRunning a = true ->
      packets a' = packets (updatePackets a)
      /\ resolved a' = resolved (updatePackets a)
      /\ ticks a' = ticks a ++ [length (packets a)]
      /\ isRunning a' = isRunning (updatePackets a)).
Proof.
  cbv zeta. unfold animate. destruct (isRunning a); cbn [negb].
  - split; [discriminate|]. intros _. cbn.
    destruct (updatePackets_fields a) as (_ & _ & Ht & _). auto.
  - split; [reflexivity|discriminate].
Qed.





Lemma run_snoc ds es e a : run ds (es ++ [e]) a = handle ds e (run ds es a).
Proof. unfold run. rewrite fold_left_app. reflexivity. Qed.


Lemma animate_conserves a :
  resolved (animate a) ++ pending (animate a) ≡ₚ resolved a ++ pending a.
Proof.
  destruct (animate_fields a) as [Hoff Hon]. destruct (isRunning a) eqn:E.
  - destruct (Hon eq_refl) as (Hp & Hr & _). unfold pending at 1. rewrite Hp, Hr.
    apply updatePackets_completed.
  - rewrite (Hoff eq_refl). reflexivity.
Qed.

Lemma startAnimation_conserves a :
  resolved (startAnimation a) ++ pending (startAnimation a) ≡ₚ resolved a ++ pending a.
Proof.
  unfold startAnimation. destruct (isRunning a); [reflexivity|].
  etransitivity; [apply animate_conserves|]. reflexivity.
Qed.

Lemma handle_conserves ds e a :
  resolved (handle ds e a) ++ pending (handle ds e a)
  ≡ₚ (resolved a ++ pending a) ++ submitted [e].
Proof.
  destruct e as [|o k|f]; cbn [handle submitted flat_map app].
  - rewrite app_nil_r. apply startAnimation_conserves.
  - unfold sendPacket.
    destruct (getNFById ds (o_sourceId o)) as [source|];
      [destruct (getNFById ds (o_targetId o)) as [target|]|].
    + match goal with
      | |- context [if negb (isRunning ?b) then _ else _] => set (a' := b)
      end.
      assert (H : resolved a' ++ pending a' ≡ₚ (resolved a ++ pending a) ++ [k]).
      { subst a'. unfold pending. cbn. rewrite map_app, app_assoc. reflexivity. }
      destruct (negb (isRunning a')); [|exact H].
      etransitivity; [apply startAnimation_conserves|exact H].
    + unfold pending. cbn. rewrite <- !app_assoc. apply Permutation_app_head.
      apply Permutation_app_comm.
    + unfold pending. cbn. rewrite <- !app_assoc. apply Permutation_app_head.
      apply Permutation_app_comm.
  - rewrite app_nil_r. destruct (bool_decide (f ∈ pendingFrames a)); [|reflexivity].
    etransitivity; [apply animate_conserves|]. reflexivity.
Qed.

Lemma submitted_snoc es e : submitted (es ++ [e]) = submitted es ++ submitted [e].
Proof. unfold submitted. rewrite flat_map_app. reflexivity. Qed.







(** C9.  When the source or the target of a request names no node of the
    store, [sendPacket] resolves the promise at once and does nothing else:
    no packet is created, the packet counter stays, no pass is made and the
    animator is not started, so the caller's step goes on as after a
    delivery. *)
Theorem sendPacket_unknown_node (ds : DataStore) (o : Options) (k : nat) (a : Animator) :
  getNFById ds (o_sourceId o) = None \/ getNFById ds (o_targetId o) = None ->
  let a' := sendPacket ds o k a in
  resolved a' = resolved a ++ [k]
  /\ packets a' = packets a
  /\ packetCounter a' = packetCounter a
  /\ ticks a' = ticks a
  /\ isRunning a' = isRunning a
  /\ pendingFrames a' = pendingFrames a.
Proof.
  intros H. cbv zeta. unfold sendPacket.
  destruct (getNFById ds (o_sourceId o)) as [source|];
    [destruct (getNFById ds (o_targetId o)) as [target|]|].
  - destruct H as [H|H]; discriminate.
  - cbn. auto 10.
  - cbn. auto 10.
Qed.

(** ** The theorems at concrete inputs *)

Lemma scenario_wellFormed : wellFormed Scenario.store.
Proof.
  split.
  - cbn. repeat (constructor; [rewrite ?elem_of_cons, elem_of_nil; intros H;
                               repeat destruct H as [H|H]; try discriminate H; exact H|]).
    constructor.
  - intros nf Hin. cbn in Hin. rewrite !elem_of_cons, elem_of_nil in Hin.
    repeat destruct Hin as [Hin|Hin]; try (subst nf; discriminate). contradiction.
Qed.

(** C1 at the scenario, the fifth message raising. *)
Lemma establishPDUSession_failure_witness :
  state (sessionOf (fst (establishPDUSession (Scenario.failingAt PDUSessionAccept)
                                             Scenario.world "ue-1")) "ue-1") = IDLE.
Proof.
  pose proof (establishPDUSession_failure
                (Scenario.failingAt PDUSessionAccept) Scenario.world "ue-1"
                (mkNFs Scenario.ue1 Scenario.amf1 Scenario.smf1 Scenario.upf1)
                scenario_wellFormed
                ltac:(vm_compute; discriminate) ltac:(vm_compute; discriminate)
                ltac:(vm_compute; reflexivity) ltac:(vm_compute; reflexivity)) as H.
  cbv zeta in H. destruct H as (_ & H & _). exact H.
Defined.

(** C2 at the scenario, the response of the gateway raising during release. *)
Lemma releasePDUSession_always_cleans_witness :
  state (sessionOf
           (fst (releasePDUSession (Scenario.failingAt N4SessionReleaseResponse)
                   (fst (establishPDUSession Scenario.calm Scenario.world "ue-1")) "ue-1"))
           "ue-1") = RELEASED.
Proof.
  pose proof (releasePDUSession_always_cleans
                (Scenario.failingAt N4SessionReleaseResponse)
                (fst (establishPDUSession Scenario.calm Scenario.world "ue-1")) "ue-1"
                (mkNFs (default Scenario.ue1
                          (getNFById (dataStore (fst (establishPDUSession Scenario.calm
                                                        Scenario.world "ue-1"))) "ue-1"))
                       Scenario.amf1 Scenario.smf1
                       (default Scenario.upf1
                          (getNFById (dataStore (fst (establishPDUSession Scenario.calm
                                                        Scenario.world "ue-1"))) "upf-1")))
                ltac:(vm_compute; reflexivity) ltac:(vm_compute; reflexivity)) as H.
  cbv zeta in H. destruct H as (H & _). exact H.
Defined.

(** C4 at the scenario: the first address of the pool. *)
Lemma established_address_lifecycle_witness :
  assignedIP (sessionOf (fst (establishPDUSession Scenario.calm Scenario.world "ue-1"))
                        "ue-1") = Some (candidateIP 2)
  /\ ~ mapped (entriesOf
                 (dataStore
                    (fst (releasePDUSession (Scenario.failingAt ReleaseConfirmation)
                            (fst (establishPDUSession Scenario.calm Scenario.world "ue-1"))
                            "ue-1")))
                 "upf-1")
              (candidateIP 2).
Proof.
  pose proof (established_address_lifecycle
                Scenario.calm (Scenario.failingAt ReleaseConfirmation) Scenario.world "ue-1"
                (mkNFs Scenario.ue1 Scenario.amf1 Scenario.smf1 Scenario.upf1)
                Scenario.pool0 2
                scenario_wellFormed
                ltac:(vm_compute; discriminate) ltac:(vm_compute; discriminate)
                ltac:(vm_compute; reflexivity) ltac:(vm_compute; reflexivity)
                ltac:(reflexivity) ltac:(vm_compute; discriminate)
                ltac:(vm_compute; split; discriminate) ltac:(vm_compute; reflexivity)
                ltac:(intros j Hj; unfold startIP in Hj; cbn in Hj; lia)) as H.
  cbv zeta in H. destruct H as (_ & _ & H1 & _ & _ & _ & H2 & _). split; [exact H1|exact H2].
Defined.

(** C9 at a request from a node the scenario store does not have. *)
Lemma sendPacket_unknown_node_witness :
  resolved (sendPacket Scenario.store
              (mkOptions "ue-9" "amf-1" "N1" "request" false None) 3 constructed) = [3%nat]
  /\ packets (sendPacket Scenario.store
                (mkOptions "ue-9" "amf-1" "N1" "request" false None) 3 constructed) = [].
Proof.
  pose proof (sendPacket_unknown_node Scenario.store
                (mkOptions "ue-9" "amf-1" "N1" "request" false None) 3 constructed
                ltac:(left; vm_compute; reflexivity)) as H.
  cbv zeta in H. destruct H as (H1 & H2 & _). split; [exact H1|exact H2].
Defined.

(** C10 at the scenario after the links were deleted. *)
Lemma releasePDUSession_local_cleanup_witness :
  releasePDUSession (Scenario.failingAt N1ReleaseRequest)
    (Scenario.unlinked (fst (establishPDUSession Scenario.calm Scenario.world "ue-1")))
    "ue-1"
  = (cleanupSession
       (Scenario.unlinked (fst (establishPDUSession Scenario.calm Scenario.world "ue-1")))
       "ue-1", true).
Proof.
  pose proof (releasePDUSession_local_cleanup
                (Scenario.failingAt N1ReleaseRequest)
                (Scenario.unlinked (fst (establishPDUSession Scenario.calm Scenario.world "ue-1")))
                "ue-1"
                "UE is not connected to AMF (directly or via gNB)"
                ltac:(vm_compute; reflexivity) ltac:(vm_compute; reflexivity)) as H.
  cbv zeta in H. destruct H as (H & _).
  destruct (H (default Scenario.ue1
                 (getNFById (dataStore (fst (establishPDUSession Scenario.calm
                                               Scenario.world "ue-1"))) "ue-1"))
              ltac:(vm_compute; reflexivity)) as (H1 & _).
  exact H1.
Defined.

(** C3 at the scenario's gateway and first terminal. *)
Lemma allocateUEIP_first_free_witness :
  snd (allocateUEIP Scenario.store Scenario.upf1 Scenario.ue1 1700000000000) = "10.0.0.2"
  /\ startIP Scenario.pool0 = 2
  /\ ~ mapped (default [] (assignedIPs Scenario.pool0)) "10.0.0.2".
Proof.
  destruct allocateUEIP_first_free as (Hscan & _ & Hstart & Hpool & _).
  pose proof (Hpool Scenario.store Scenario.upf1 Scenario.ue1 1700000000000 Scenario.pool0
                ltac:(reflexivity)) as H.
  pose proof (Hstart Scenario.pool0 2 ltac:(reflexivity) ltac:(discriminate)) as H2.
  pose proof (Hscan Scenario.store Scenario.upf1 Scenario.ue1 1700000000000 Scenario.pool0
                ltac:(reflexivity) ltac:(vm_compute; discriminate)) as H3.
  cbv zeta in H3.
  destruct (allocateUEIP Scenario.store Scenario.upf1 Scenario.ue1 1700000000000)
    as [[ds' upf'] ip].
  destruct H as [H _]. split; [exact H|]. split; [exact H2|].
  destruct H3 as [(k & _ & _ & Hfree & _ & Hip & _)|_].
  - assert (E : candidateIP k = "10.0.0.2") by (rewrite <- Hip; exact H).
    rewrite <- E. exact Hfree.
  - intros (a & Ha & _). cbn in Ha. apply elem_of_nil in Ha. exact Ha.
Defined.

(** C5 at the scenario: the terminal and the mobility anchor, through the
    radio unit. *)
Lemma areNFsConnected_rules_witness :
  areNFsConnected Scenario.store "ue-1" "amf-1" = true.
Proof.
  destruct (areNFsConnected_rules Scenario.store "ue-1" "amf-1") as (_ & _ & H & _).
  apply (H ltac:(vm_compute; reflexivity)).
  right. right. exists (mkConnection "ue-1" "gnb-1").
  split; [left|]. split; [left; reflexivity|]. split; vm_compute; reflexivity.
Defined.




(** * Further properties *)

(** ** Subnets *)

Lemma split_dot_length s : length (split_dot s) = S (dots s).
Proof.
  induction s as [|c s IH]; [reflexivity|].
  cbn [split_dot dots]. destruct (Ascii.eqb c ".").
  - cbn. rewrite IH. reflexivity.
  - destruct (split_dot s) as [|p ps]; [discriminate IH|]. cbn in *. exact IH.
Qed.

Lemma split_dot_part a r :
  dots a = 0%nat -> split_dot (a +:+ String "." r) = a :: split_dot r.
Proof.
  induction a as [|c a IH]; intros Ha; [reflexivity|].
  cbn [dots] in Ha.
  change (String c a +:+ String "." r) with (String c (a +:+ String "." r)).
  change (split_dot (String c (a +:+ String "." r)))
    with (if Ascii.eqb c "." then EmptyString :: split_dot (a +:+ String "." r)
          else match split_dot (a +:+ String "." r) with
               | p :: ps => String c p :: ps
               | [] => [String c EmptyString]
               end).
  destruct (Ascii.eqb c "."); [discriminate Ha|].
  rewrite IH by exact Ha. reflexivity.
Qed.

Lemma split_dot_last a : dots a = 0%nat -> split_dot a = [a].
Proof.
  induction a as [|c a IH]; intros Ha; [reflexivity|].
  cbn [dots] in Ha. cbn [split_dot].
  destruct (Ascii.eqb c "."); [discriminate Ha|]. rewrite IH by exact Ha. reflexivity.
Qed.

(** X1.  [getNetworkFromIP] returns the first three parts of an address of
    four dot-separated parts, whatever the parts are, and the empty string
    for a missing address and for any string that has not exactly three
    dots; so two addresses that differ in the last part only are in the same
    network. *)
Theorem getNetworkFromIP_three_parts :
  (forall a b c d,
      dots a = 0%nat -> dots b = 0%nat -> dots c = 0%nat -> dots d = 0%nat ->
      getNetworkFromIP (Some (a +:+ "." +:+ b +:+ "." +:+ c +:+ "." +:+ d))
      = a +:+ "." +:+ b +:+ "." +:+ c)
  /\ (forall s, dots s <> 3%nat -> getNetworkFromIP (Some s) = "")
  /\ getNetworkFromIP None = "".
Proof.
  split; [|split; [|reflexivity]].
  - intros a b c d Ha Hb Hc Hd. unfold getNetworkFromIP.
    assert (Hne : String.eqb (a +:+ "." +:+ b +:+ "." +:+ c +:+ "." +:+ d) "" = false)
      by (destruct a; reflexivity).
    rewrite Hne.
    change (a +:+ "." +:+ b +:+ "." +:+ c +:+ "." +:+ d)
      with (a +:+ String "." (b +:+ String "." (c +:+ String "." d))).
    rewrite (split_dot_part a _ Ha), (split_dot_part b _ Hb), (split_dot_part c _ Hc),
      (split_dot_last d Hd).
    reflexivity.
  - intros s Hs. unfold getNetworkFromIP.
    destruct (String.eqb s ""); [reflexivity|].
    pose proof (split_dot_length s) as Hl.
    destruct (split_dot s) as [|p0 [|p1 [|p2 [|p3 [|p4 ps]]]]]; try reflexivity.
    cbn in Hl. exfalso. apply Hs. lia.
Qed.

(** ** Validation, continued *)

Lemma stableInSubnet_true t net nf :
  stableInSubnet t net nf = true ->
  nf_type nf = t /\ status nf = "stable" /\ getNetworkFromIP (ipAddress (config nf)) = net.
Proof.
  unfold stableInSubnet. intros H.
  apply andb_true_iff in H as [H H3]. apply andb_true_iff in H as [H1 H2].
  apply String.eqb_eq in H1, H2, H3. auto.
Qed.

(** X2.  The nodes a valid verdict names are nodes of the store of the
    types asked for: the terminal is the node the identifier names and has
    credentials; the mobility anchor, the session anchor and the gateway are
    stable and in the terminal's subnet; the anchor is reachable from the
    terminal and the gateway has a pool interface.  The four are different
    nodes. *)
Theorem validatePrerequisites_valid_nodes (ds : DataStore) (ueId : string) (found : NFs) :
  validatePrerequisites ds ueId = Valid found ->
  getNFById ds ueId = Some (ue found)
  /\ nf_id (ue found) = ueId
  /\ nf_type (ue found) = "UE"
  /\ truthy (subscriberImsi (config (ue found))) = true
  /\ (amf found ∈ nfs ds /\ nf_type (amf found) = "AMF" /\ status (amf found) = "stable"
      /\ subnetOf (amf found) = subnetOf (ue found))
  /\ (smf found ∈ nfs ds /\ nf_type (smf found) = "SMF" /\ status (smf found) = "stable"
      /\ subnetOf (smf found) = subnetOf (ue found))
  /\ (upf found ∈ nfs ds /\ nf_type (upf found) = "UPF" /\ status (upf found) = "stable"
      /\ subnetOf (upf found) = subnetOf (ue found))
  /\ areNFsConnected ds ueId (nf_id (amf found)) = true
  /\ tun0Interface (config (upf found)) <> None
  /\ NoDup [ue found; amf found; smf found; upf found].
Proof.
  intros Hval. pose proof (validatePrerequisites_sound ds ueId) as V. rewrite Hval in V.
  inversion V as [| | | | | | |ue0 amf0 smf0 upf0 [Hue Hty] Himsi Hamf Hconn Hsmf Hupf Htun].
  subst. cbn [ue amf smf upf].
  pose proof (getNFById_id _ _ _ Hue) as Hid.
  unfold firstStable, getAllNFs in *.
  apply find_elem in Hamf as [Ha1 Ha2]. apply stableInSubnet_true in Ha2 as (Ha2 & Ha3 & Ha4).
  apply find_elem in Hsmf as [Hs1 Hs2]. apply stableInSubnet_true in Hs2 as (Hs2 & Hs3 & Hs4).
  apply find_elem in Hupf as [Hu1 Hu2]. apply stableInSubnet_true in Hu2 as (Hu2 & Hu3 & Hu4).
  rewrite Hid in Hconn.
  repeat split; try assumption.
  repeat (constructor; [rewrite ?elem_of_cons, elem_of_nil; intros H;
                        repeat destruct H as [H|H]; try contradiction; subst;
                        congruence|]).
  constructor.
Qed.

Lemma validatePrerequisites_valid_nodes_witness :
  areNFsConnected Scenario.store "ue-1" (nf_id Scenario.amf1) = true.
Proof.
  pose proof (validatePrerequisites_valid_nodes Scenario.store "ue-1"
                (mkNFs Scenario.ue1 Scenario.amf1 Scenario.smf1 Scenario.upf1)
                ltac:(vm_compute; reflexivity)) as H.
  destruct H as (_ & _ & _ & _ & _ & _ & _ & H & _). exact H.
Defined.

(** ** Reachability, continued *)

Lemma bool_eq_iff (b1 b2 : bool) : (b1 = true <-> b2 = true) -> b1 = b2.
Proof.
  destruct b1, b2; intros [H1 H2]; try reflexivity.
  - symmetry. apply H1. reflexivity.
  - apply H2. reflexivity.
Qed.

Lemma hasDirectConnection_sym ds a b :
  hasDirectConnection ds a b = hasDirectConnection ds b a.
Proof.
  apply bool_eq_iff. rewrite !hasDirectConnection_linkBetween. unfold linkBetween.
  split; intros (c & Hc & H1 & H2); exists c; auto.
Qed.

Lemma shareBus_sym ds a b : shareBus ds a b = shareBus ds b a.
Proof.
  apply bool_eq_iff. rewrite !shareBus_commonBus. unfold commonBus.
  split; intros (bc1 & bc2 & H1 & H2 & Ha & Hb & He); exists bc2, bc1; auto 10.
Qed.

(** X3.  Between two nodes neither of which is a terminal (nodes that do
    not exist included) the answer of [areNFsConnected] does not depend on
    the order of its arguments; and such a node is reported connected to
    itself exactly when some link ends at it or it is attached to a bus. *)
Theorem areNFsConnected_symmetric_off_terminals (ds : DataStore) (a b : string) :
  hasType (getNFById ds a) "UE" = false ->
  hasType (getNFById ds b) "UE" = false ->
  areNFsConnected ds a b = areNFsConnected ds b a
  /\ (areNFsConnected ds a a = true
      <-> (exists c, c ∈ connections ds /\ (sourceId c = a \/ targetId c = a))
          \/ (exists bc, bc ∈ busConnections ds /\ nfId bc = a)).
Proof.
  intros Ha Hb. split.
  - rewrite (areNFsConnected_nonTerminal ds a b Ha), (areNFsConnected_nonTerminal ds b a Hb).
    unfold fromNonTerminal. rewrite Ha, Hb, !andb_false_l, !orb_false_r.
    rewrite hasDirectConnection_sym, shareBus_sym. reflexivity.
  - rewrite (areNFsConnected_nonTerminal ds a a Ha). unfold fromNonTerminal.
    rewrite Ha, andb_false_l, orb_false_r, orb_true_iff.
    rewrite hasDirectConnection_linkBetween, shareBus_commonBus.
    unfold linkBetween, commonBus. split.
    + intros [(c & Hc & H1 & _)|(bc1 & _ & H1 & _ & H2 & _)]; [left|right]; eauto.
    + intros [(c & Hc & H1)|(bc & Hbc & H1)]; [left|right]; eauto 10.
Qed.

Lemma areNFsConnected_symmetric_off_terminals_witness :
  areNFsConnected Scenario.store "gnb-1" "amf-1"
  = areNFsConnected Scenario.store "amf-1" "gnb-1".
Proof.
  destruct (areNFsConnected_symmetric_off_terminals Scenario.store "gnb-1" "amf-1"
              ltac:(vm_compute; reflexivity) ltac:(vm_compute; reflexivity)) as [H _].
  exact H.
Defined.

Lemma existsb_mono {A : Type} (f g : A -> bool) (l l' : list A) :
  (forall x, x ∈ l -> f x = true -> x ∈ l' /\ g x = true) ->
  existsb f l = true -> existsb g l' = true.
Proof.
  intros H Hex. apply existsb_elem in Hex as (x & Hx & Hf).
  apply existsb_elem. exists x. apply H; assumption.
Qed.

Section MoreLinks.

Variables ds ds' : DataStore.
Hypothesis Hext : extends ds ds'.

Lemma extends_getNFById id : getNFById ds' id = getNFById ds id.
Proof. unfold getNFById. destruct Hext as [-> _]. reflexivity. Qed.

Lemma extends_connections a c :
  c ∈ getConnectionsForNF ds a -> c ∈ getConnectionsForNF ds' a.
Proof.
  unfold getConnectionsForNF. rewrite !list_elem_of_filter. intros [H1 H2].
  split; [exact H1|]. destruct Hext as (_ & H & _). apply H. exact H2.
Qed.

Lemma extends_busConnections a bc :
  bc ∈ getBusConnectionsForNF ds a -> bc ∈ getBusConnectionsForNF ds' a.
Proof.
  unfold getBusConnectionsForNF. rewrite !list_elem_of_filter. intros [H1 H2].
  split; [exact H1|]. destruct Hext as (_ & _ & H). apply H. exact H2.
Qed.

Lemma extends_direct a b :
  hasDirectConnection ds a b = true -> hasDirectConnection ds' a b = true.
Proof.
  unfold hasDirectConnection. apply existsb_mono.
  intros c Hc Hf. split; [apply extends_connections; exact Hc|exact Hf].
Qed.

Lemma extends_bus a b : shareBus ds a b = true -> shareBus ds' a b = true.
Proof.
  unfold shareBus. apply existsb_mono.
  intros bc Hbc Hf. split; [apply extends_busConnections; exact Hbc|].
  revert Hf. apply existsb_mono.
  intros bc2 Hbc2 Hf. split; [apply extends_busConnections; exact Hbc2|exact Hf].
Qed.

Lemma extends_fromNonTerminal a b :
  fromNonTerminal ds a b = true -> fromNonTerminal ds' a b = true.
Proof.
  unfold fromNonTerminal. rewrite !orb_true_iff, !andb_true_iff.
  intros [[H|H]|[Hb H]].
  - left. left. apply extends_direct. exact H.
  - left. right. apply extends_bus. exact H.
  - right. rewrite extends_getNFById. split; [exact Hb|].
    revert H. apply existsb_mono.
    intros c Hc Hf. split; [apply extends_connections; exact Hc|].
    rewrite extends_getNFById. apply andb_true_iff in Hf as [Hg Hf].
    apply andb_true_iff. split; [exact Hg|].
    apply orb_true_iff in Hf as [Hf|Hf]; apply orb_true_iff;
      [left; apply extends_direct|right; apply extends_bus]; exact Hf.
Qed.

Lemma extends_fromTerminal a b :
  fromTerminal ds a b = true -> fromTerminal ds' a b = true.
Proof.
  unfold fromTerminal. rewrite !orb_true_iff.
  intros [[H|H]|H].
  - left. left. apply extends_direct. exact H.
  - left. right. apply extends_bus. exact H.
  - right. revert H. apply existsb_mono.
    intros c Hc Hf. split; [apply extends_connections; exact Hc|].
    rewrite extends_getNFById. apply andb_true_iff in Hf as [Hg Hf].
    apply andb_true_iff. split; [exact Hg|]. apply extends_fromNonTerminal. exact Hf.
Qed.

End MoreLinks.

(** X4.  Adding links or bus attachments to a store, its nodes unchanged,
    never disconnects: two nodes [areNFsConnected] reports connected are
    still reported connected; and a terminal whose prerequisites were valid
    keeps valid prerequisites, with the same four nodes. *)
Theorem areNFsConnected_monotone (ds ds' : DataStore) (a b : string) :
  extends ds ds' ->
  (areNFsConnected ds a b = true -> areNFsConnected ds' a b = true)
  /\ (forall ueId found,
         validatePrerequisites ds ueId = Valid found ->
         validatePrerequisites ds' ueId = Valid found).
Proof.
  intros Hext.
  assert (Hconn : forall a b, areNFsConnected ds a b = true -> areNFsConnected ds' a b = true).
  { clear a b. intros a b.
    destruct (hasType (getNFById ds a) "UE") eqn:Ha.
    - rewrite (areNFsConnected_terminal ds a b Ha).
      rewrite (areNFsConnected_terminal ds' a b);
        [apply extends_fromTerminal; exact Hext|].
      rewrite (extends_getNFById ds ds' Hext). exact Ha.
    - rewrite (areNFsConnected_nonTerminal ds a b Ha).
      rewrite (areNFsConnected_nonTerminal ds' a b);
        [apply extends_fromNonTerminal; exact Hext|].
      rewrite (extends_getNFById ds ds' Hext). exact Ha. }
  split; [apply Hconn|].
  intros ueId found Hval.
  pose proof (validatePrerequisites_sound ds ueId) as V. rewrite Hval in V.
  inversion V as [| | | | | | |ue0 amf0 smf0 upf0 [Hue Hty] Himsi Hamf Hc Hsmf Hupf Htun].
  subst. unfold firstStable, getAllNFs in *.
  unfold validatePrerequisites. rewrite (extends_getNFById ds ds' Hext), Hue.
  apply String.eqb_eq in Hty. rewrite Hty. cbn [negb]. rewrite Himsi. cbn [negb].
  unfold getAllNFs. pose proof Hext as (Hn & _). rewrite Hn.
  unfold subnetOf in *. rewrite Hamf. rewrite (Hconn _ _ Hc). cbn [negb].
  rewrite Hsmf, Hupf. destruct (tun0Interface (config upf0)); [reflexivity|contradiction].
Qed.

Lemma areNFsConnected_monotone_witness :
  areNFsConnected
    (mkDataStore (nfs Scenario.store)
                 (mkConnection "smf-1" "amf-1" :: connections Scenario.store) [] [])
    "ue-1" "amf-1" = true.
Proof.
  destruct (areNFsConnected_monotone Scenario.store
              (mkDataStore (nfs Scenario.store)
                           (mkConnection "smf-1" "amf-1" :: connections Scenario.store) [] [])
              "ue-1" "amf-1") as [H _].
  - split; [reflexivity|]. split.
    + intros c Hc. right. exact Hc.
    + intros bc Hbc. exact Hbc.
  - apply H. vm_compute. reflexivity.
Defined.

(** ** Establishment and release, continued *)

Lemma sessions_modify_other w u v f :
  v <> u -> sessions (modifySession u f w) !! v = sessions w !! v.
Proof. intros H. cbn. apply lookup_alter_ne. congruence. Qed.

Lemma getSession_other w u v :
  v <> u -> sessions (fst (getSession w u)) !! v = sessions w !! v.
Proof.
  intros H. unfold getSession. destruct (sessions w !! u); cbn; [reflexivity|].
  apply lookup_insert_ne. congruence.
Qed.

Lemma sessionOf_known w u : getSession (fst (getSession w u)) u = getSession w u.
Proof.
  pose proof (getSession_lookup w u) as H.
  rewrite (getSession_known _ _ _ H). destruct (getSession w u); reflexivity.
Qed.

Lemma not_idle_known w u :
  state (sessionOf w u) <> IDLE -> getSession w u = (w, sessionOf w u).
Proof.
  unfold sessionOf, getSession. destruct (sessions w !! u); cbn; [reflexivity|].
  intros H. exfalso. apply H. reflexivity.
Qed.

(** Every run of establishment that passes the guards: the answer, the
    state it leaves, and on success the world it leaves. *)
Lemma establishPDUSession_run env w u found :
  state (sessionOf w u) <> ACTIVE ->
  state (sessionOf w u) <> ESTABLISHING ->
  validatePrerequisites (dataStore w) u = Valid found ->
  let s := sessionOf w u in
  let w' := fst (establishPDUSession env w u) in
  snd (establishPDUSession env w u) = negb (raises env establishmentMessages)
  /\ state (sessionOf w' u) = (if raises env establishmentMessages then IDLE else ACTIVE)
  /\ sessions w' !! u = Some (sessionOf w' u)
  /\ (forall v, v <> u -> sessions w' !! v = sessions w !! v)
  /\ (raises env establishmentMessages = false ->
      let alloc := allocateUEIP (dataStore w) (upf found) (ue found) (now env) in
      let sC := setAllocation (snd alloc)
                  ("gtp-" +:+ string_of_Z (1000 + randomTunnel env))
                  (nf_id (snd (fst alloc)))
                  (setPduSessionId (randomSessionId env + 1) (setState ESTABLISHING s)) in
      dataStore w'
      = updateNF (fst (fst alloc)) u
          (set_config (ue found) (establishedConfig env (ue found) (snd (fst alloc)) sC))
      /\ sessionOf w' u = setActive (now env) sC)
  /\ (raises env establishmentMessages = true ->
      dataStore w' = dataStore w
      \/ dataStore w'
         = fst (fst (allocateUEIP (dataStore w) (upf found) (ue found) (now env)))).
Proof.
  intros Hna Hne Hval s w'.
  pose proof (getSession_lookup w u) as Hs0. fold (sessionOf w u) in Hs0. fold s in Hs0.
  pose proof (getSession_store w u) as Hds0.
  pose proof (getSession_other w u) as Ho0.
  subst w'. rewrite (establishPDUSession_entered env w u found Hna Hne Hval).
  cbv zeta. rewrite establishSteps_outcome. cbv zeta.
  rewrite raises_establishment.
  set (w0 := fst (getSession w u)) in *.
  set (wA := modifySession u (setPduSessionId (randomSessionId env + 1))
               (modifySession u (setState ESTABLISHING) w0)).
  assert (HsA : sessions wA !! u
                = Some (setPduSessionId (randomSessionId env + 1) (setState ESTABLISHING s))).
  { subst wA. apply sessions_modify, sessions_modify. exact Hs0. }
  assert (HoA : forall v, v <> u -> sessions wA !! v = sessions w !! v).
  { intros v Hv. subst wA. rewrite !sessions_modify_other by exact Hv. apply Ho0, Hv. }
  assert (HdA : dataStore wA = dataStore w) by exact Hds0.
  destruct (raises env [N1EstablishmentRequest; NsmfPDUSessionCreate;
                        N4SessionEstablishmentRequest]) eqn:R1.
  { cbn [fst snd orb negb].
    pose proof (sessions_modify _ _ (setState IDLE) _ HsA) as Hs'.
    rewrite (sessionOf_lookup _ u _ Hs').
    split; [reflexivity|]. split; [reflexivity|]. split; [exact Hs'|]. split; [|split].
    - intros v Hv. rewrite sessions_modify_other by exact Hv. apply HoA, Hv.
    - discriminate.
    - intros _. left. exact HdA. }
  rewrite HdA.
  destruct (allocateUEIP (dataStore w) (upf found) (ue found) (now env)) as [[ds' upf'] ip].
  cbn [fst snd orb].
  destruct (throwsAt env N4SessionEstablishmentResponse) eqn:R2.
  { cbn [fst snd orb negb].
    assert (Hs' : sessions (modifySession u (setState IDLE) (setStore wA ds')) !! u
                  = Some (setState IDLE
                            (setPduSessionId (randomSessionId env + 1)
                               (setState ESTABLISHING s)))).
    { apply sessions_modify. exact HsA. }
    rewrite (sessionOf_lookup _ u _ Hs').
    split; [reflexivity|]. split; [reflexivity|]. split; [exact Hs'|]. split; [|split].
    - intros v Hv. rewrite sessions_modify_other by exact Hv. apply HoA, Hv.
    - discriminate.
    - intros _. right. reflexivity. }
  cbn [orb].
  set (tunnel := "gtp-" +:+ string_of_Z (1000 + randomTunnel env)).
  set (sA := setPduSessionId (randomSessionId env + 1) (setState ESTABLISHING s)) in *.
  set (wC := modifySession u (setAllocation ip tunnel (nf_id upf')) (setStore wA ds')).
  assert (HsC : sessions wC !! u = Some (setAllocation ip tunnel (nf_id upf') sA)).
  { subst wC. apply sessions_modify. exact HsA. }
  assert (HoC : forall v, v <> u -> sessions wC !! v = sessions w !! v).
  { intros v Hv. subst wC. rewrite sessions_modify_other by exact Hv. apply HoA, Hv. }
  destruct (raises env [PDUSessionAccept; N1SessionAccept]) eqn:R3.
  { cbn [fst snd negb].
    pose proof (sessions_modify _ _ (setState IDLE) _ HsC) as Hs'.
    rewrite (sessionOf_lookup _ u _ Hs').
    split; [reflexivity|]. split; [reflexivity|]. split; [exact Hs'|]. split; [|split].
    - intros v Hv. rewrite sessions_modify_other by exact Hv. apply HoC, Hv.
    - discriminate.
    - intros _. right. reflexivity. }
  cbn [fst snd negb].
  assert (Hs' : sessions (modifySession u (setActive (now env))
                            (commitTerminal env u (ue found) upf' wC)) !! u
                = Some (setActive (now env) (setAllocation ip tunnel (nf_id upf') sA))).
  { apply sessions_modify. exact HsC. }
  rewrite (sessionOf_lookup _ u _ Hs').
  split; [reflexivity|]. split; [reflexivity|]. split; [exact Hs'|]. split; [|split].
  - intros v Hv. rewrite sessions_modify_other by exact Hv. apply HoC, Hv.
  - intros _. split; [|reflexivity].
    unfold commitTerminal. rewrite (getSession_known _ _ _ HsC). reflexivity.
  - discriminate.
Qed.

Lemma establishPDUSession_guarded env w u :
  (state (sessionOf w u) = ACTIVE ->
   establishPDUSession env w u = (fst (getSession w u), true))
  /\ (state (sessionOf w u) = ESTABLISHING ->
      establishPDUSession env w u = (fst (getSession w u), false))
  /\ (forall reason, state (sessionOf w u) <> ACTIVE ->
                     validatePrerequisites (dataStore w) u = Invalid reason ->
                     establishPDUSession env w u = (fst (getSession w u), false)).
Proof.
  unfold establishPDUSession, sessionOf.
  pose proof (getSession_store w u) as Hds.
  destruct (getSession w u) as [w0 s0]. cbn [fst snd] in *.
  split; [|split].
  - intros ->. reflexivity.
  - intros ->. reflexivity.
  - intros reason Hna Hval. rewrite Hds, Hval. destruct (state s0); try reflexivity.
    contradiction.
Qed.

(** X5.  A call of [establishPDUSession] the guards turn away changes
    nothing: on an ACTIVE session it answers true, on an ESTABLISHING one
    or on invalid prerequisites false, and the store, the session and the
    other sessions are as before.  So establishment is idempotent: after a
    call that answered true, a further call answers true and leaves the
    world as it is. *)
Theorem establishPDUSession_idempotent (env env' : Env) (w : World) (ueId : string) :
  let w1 := fst (establishPDUSession env w ueId) in
  (state (sessionOf w ueId) = ACTIVE ->
   establishPDUSession env w ueId = (w, true))
  /\ (state (sessionOf w ueId) = ESTABLISHING ->
      establishPDUSession env w ueId = (w, false))
  /\ (forall reason,
         state (sessionOf w ueId) <> ACTIVE ->
         validatePrerequisites (dataStore w) ueId = Invalid reason ->
         snd (establishPDUSession env w ueId) = false
         /\ dataStore w1 = dataStore w
         /\ sessionOf w1 ueId = sessionOf w ueId
         /\ (forall v, v <> ueId -> sessions w1 !! v = sessions w !! v))
  /\ (snd (establishPDUSession env w ueId) = true ->
      establishPDUSession env' w1 ueId = (w1, true)).
Proof.
  intros w1. destruct (establishPDUSession_guarded env w ueId) as (HA & HE & HI).
  split; [|split; [|split]].
  - intros Hs. rewrite (HA Hs), not_idle_known; [reflexivity|]. rewrite Hs. discriminate.
  - intros Hs. rewrite (HE Hs), not_idle_known; [reflexivity|]. rewrite Hs. discriminate.
  - intros reason Hna Hval. subst w1. rewrite (HI reason Hna Hval). cbn [fst snd].
    split; [reflexivity|]. split; [apply getSession_store|]. split.
    + unfold sessionOf. rewrite sessionOf_known. reflexivity.
    + intros v Hv. apply getSession_other. exact Hv.
  - intros Htrue.
    assert (Hact : state (sessionOf w1 ueId) = ACTIVE /\ sessions w1 !! ueId = Some (sessionOf w1 ueId)).
    { subst w1. destruct (state (sessionOf w ueId)) eqn:Hs.
      3:{ rewrite (HA eq_refl). cbn [fst]. unfold sessionOf at 1 2. rewrite sessionOf_known.
          split; [exact Hs|apply getSession_lookup]. }
      2:{ rewrite (HE eq_refl) in Htrue. discriminate. }
      all: destruct (validatePrerequisites (dataStore w) ueId) as [reason|found] eqn:Hval;
        [rewrite (HI reason ltac:(discriminate) eq_refl) in Htrue; discriminate|];
        destruct (establishPDUSession_run env w ueId found
                    ltac:(rewrite Hs; discriminate) ltac:(rewrite Hs; discriminate) Hval)
          as (Hr & Hst & Hk & _);
        rewrite Htrue in Hr; destruct (raises env establishmentMessages); [discriminate|];
        split; assumption. }
    destruct Hact as [Hact Hk].
    destruct (establishPDUSession_guarded env' w1 ueId) as (HA' & _).
    rewrite (HA' Hact), (getSession_known _ _ _ Hk). reflexivity.
Qed.

Lemma releasePDUSession_guarded env w u :
  (state (sessionOf w u) <> ACTIVE ->
   releasePDUSession env w u = (fst (getSession w u), false))
  /\ (getNFById (dataStore w) u = None ->
      releasePDUSession env w u = (fst (getSession w u), false)).
Proof.
  unfold releasePDUSession, sessionOf.
  pose proof (getSession_store w u) as Hds.
  destruct (getSession w u) as [w0 s0]. cbn [fst snd] in *.
  split.
  - intros Hna. destruct (state s0); try reflexivity. contradiction.
  - intros Hnone. rewrite Hds, Hnone. destruct (state s0); reflexivity.
Qed.

(** X6.  [releasePDUSession] on a session that is not ACTIVE, or for a
    terminal that is not in the store, answers false and changes neither
    the store nor the session nor any other session.  A release is never
    done twice: whatever a first call did, a second call right after it
    answers false and leaves the world as it is. *)
Theorem releasePDUSession_once (env env' : Env) (w : World) (ueId : string) :
  let w1 := fst (releasePDUSession env w ueId) in
  (state (sessionOf w ueId) <> ACTIVE \/ getNFById (dataStore w) ueId = None ->
   snd (releasePDUSession env w ueId) = false
   /\ dataStore w1 = dataStore w
   /\ sessionOf w1 ueId = sessionOf w ueId
   /\ (forall v, v <> ueId -> sessions w1 !! v = sessions w !! v))
  /\ releasePDUSession env' w1 ueId = (w1, false).
Proof.
  intros w1. destruct (releasePDUSession_guarded env w ueId) as (HN & HM).
  assert (Hrej : state (sessionOf w ueId) <> ACTIVE \/ getNFById (dataStore w) ueId = None ->
                 releasePDUSession env w ueId = (fst (getSession w ueId), false)).
  { intros [H|H]; [apply HN|apply HM]; exact H. }
  split.
  - intros H. subst w1. rewrite (Hrej H). cbn [fst snd].
    split; [reflexivity|]. split; [apply getSession_store|]. split.
    + unfold sessionOf. rewrite sessionOf_known. reflexivity.
    + intros v Hv. apply getSession_other. exact Hv.
  - destruct (releasePDUSession_guarded env' w1 ueId) as (HN' & HM').
    assert (Hk : sessions w1 !! ueId = Some (sessionOf w1 ueId)
                 /\ (state (sessionOf w1 ueId) <> ACTIVE
                     \/ getNFById (dataStore w1) ueId = None)).
    { subst w1.
      assert (Hd : state (sessionOf w ueId) = ACTIVE \/ state (sessionOf w ueId) <> ACTIVE)
        by (destruct (state (sessionOf w ueId)); auto; right; discriminate).
      destruct Hd as [Hact|Hna].
      - destruct (getNFById (dataStore w) ueId) as [ue|] eqn:Hue.
        + destruct (releasePDUSession_store env w ueId ue Hact Hue) as [_ Hs].
          split.
          * rewrite (releasePDUSession_active env w ueId ue Hact Hue).
            destruct (validatePrerequisites (dataStore w) ueId); cbn [fst];
              rewrite cleanupSession_session; unfold sessionOf at 2;
              rewrite (getSession_known _ _ _ (cleanupSession_session _ _)); reflexivity.
          * left. rewrite Hs. discriminate.
        + rewrite (HM eq_refl). cbn [fst]. split.
          * unfold sessionOf. rewrite sessionOf_known. apply getSession_lookup.
          * right. rewrite getSession_store. exact Hue.
      - rewrite (HN Hna). cbn [fst]. split.
        + unfold sessionOf. rewrite sessionOf_known. apply getSession_lookup.
        + left. unfold sessionOf. rewrite sessionOf_known. exact Hna. }
    destruct Hk as [Hk [Hna|Hnone]].
    + rewrite (HN' Hna), (getSession_known _ _ _ Hk). reflexivity.
    + rewrite (HM' Hnone), (getSession_known _ _ _ Hk). reflexivity.
Qed.

(** X7.  What the answers say about the session.  [establishPDUSession]
    answers true exactly when it leaves the session ACTIVE, and it leaves a
    session ESTABLISHING only if it found it so.  A [releasePDUSession] that
    answers true leaves the session RELEASED; an ACTIVE session of a
    terminal that is in the store is RELEASED after the call whatever the
    answer, and a session is left RELEASING only if it was found so. *)
Theorem session_state_after_call (env : Env) (w : World) (ueId : string) :
  let w1 := fst (establishPDUSession env w ueId) in
  let w2 := fst (releasePDUSession env w ueId) in
  (snd (establishPDUSession env w ueId) = true <-> state (sessionOf w1 ueId) = ACTIVE)
  /\ (state (sessionOf w1 ueId) = ESTABLISHING -> state (sessionOf w ueId) = ESTABLISHING)
  /\ (snd (releasePDUSession env w ueId) = true -> state (sessionOf w2 ueId) = RELEASED)
  /\ (state (sessionOf w ueId) = ACTIVE -> getNFById (dataStore w) ueId <> None ->
      state (sessionOf w2 ueId) = RELEASED)
  /\ (state (sessionOf w2 ueId) = RELEASING -> state (sessionOf w ueId) = RELEASING).
Proof.
  intros w1 w2.
  assert (He : (snd (establishPDUSession env w ueId) = true
                <-> state (sessionOf w1 ueId) = ACTIVE)
               /\ (state (sessionOf w1 ueId) = ESTABLISHING
                   -> state (sessionOf w ueId) = ESTABLISHING)).
  { subst w1. destruct (establishPDUSession_guarded env w ueId) as (HA & HE & HI).
    assert (Hsame : sessionOf (fst (getSession w ueId)) ueId = sessionOf w ueId)
      by (unfold sessionOf; rewrite sessionOf_known; reflexivity).
    destruct (state (sessionOf w ueId)) eqn:Hs.
    3:{ rewrite (HA eq_refl). cbn [fst snd]. rewrite Hsame, Hs. split; [tauto|discriminate]. }
    2:{ rewrite (HE eq_refl). cbn [fst snd]. rewrite Hsame, Hs.
        split; [split; discriminate|reflexivity]. }
    all: destruct (validatePrerequisites (dataStore w) ueId) as [reason|found] eqn:Hval;
      [rewrite (HI reason ltac:(discriminate) eq_refl); cbn [fst snd]; rewrite Hsame, Hs;
       split; [split; discriminate|discriminate]|];
      destruct (establishPDUSession_run env w ueId found
                  ltac:(rewrite Hs; discriminate) ltac:(rewrite Hs; discriminate) Hval)
        as (Hr & Hst & _);
      rewrite Hr, Hst; destruct (raises env establishmentMessages); cbn [negb];
      (split; [split; (reflexivity || discriminate)|discriminate]). }
  destruct He as [He1 He2]. split; [exact He1|]. split; [exact He2|].
  subst w2. destruct (releasePDUSession_guarded env w ueId) as (HN & HM).
  assert (Hsame : sessionOf (fst (getSession w ueId)) ueId = sessionOf w ueId)
    by (unfold sessionOf; rewrite sessionOf_known; reflexivity).
  assert (Hd : state (sessionOf w ueId) = ACTIVE \/ state (sessionOf w ueId) <> ACTIVE)
    by (destruct (state (sessionOf w ueId)); auto; right; discriminate).
  destruct Hd as [Hact|Hna].
  - destruct (getNFById (dataStore w) ueId) as [ue|] eqn:Hue.
    + destruct (releasePDUSession_store env w ueId ue Hact Hue) as [_ Hs].
      rewrite Hs. cbn [resetSession state].
      split; [reflexivity|]. split; [reflexivity|]. discriminate.
    + rewrite (HM eq_refl). cbn [fst snd]. rewrite Hsame, Hact.
      split; [discriminate|]. split; [intros _ H; contradiction H; reflexivity|discriminate].
  - rewrite (HN Hna). cbn [fst snd]. rewrite Hsame.
    split; [discriminate|]. split; [intros H; contradiction|]. tauto.
Qed.

Lemma allocate_cases tun0 ue at_ :
  (exists k, startIP tun0 <= k <= 14
             /\ isAssigned tun0 (candidateIP k) = false
             /\ allocate tun0 ue at_ = (recordAllocation tun0 ue k at_, candidateIP k))
  \/ allocate tun0 ue at_ = (tun0, "10.0.0.2").
Proof.
  unfold allocate.
  destruct (allocate_scan tun0 ue at_) as [(k & Hk & Hf & _ & ->)|[_ ->]]; [left|right].
  - exists k. auto.
  - reflexivity.
Qed.

Lemma allocate_gatewayIP tun0 ue at_ :
  gatewayIP (fst (allocate tun0 ue at_)) = gatewayIP tun0.
Proof.
  destruct (allocate_cases tun0 ue at_) as [(k & _ & _ & ->)| ->]; reflexivity.
Qed.

Lemma allocate_address tun0 ue at_ :
  snd (allocate tun0 ue at_) = "10.0.0.2"
  \/ exists k, startIP tun0 <= k <= 14 /\ snd (allocate tun0 ue at_) = candidateIP k.
Proof.
  destruct (allocate_cases tun0 ue at_) as [(k & Hk & _ & ->)| ->]; [right|left].
  - exists k. auto.
  - reflexivity.
Qed.

Lemma allocate_address_nonempty tun0 ue at_ : snd (allocate tun0 ue at_) <> "".
Proof.
  destruct (allocate_address tun0 ue at_) as [->|(k & _ & ->)]; [discriminate|].
  apply candidateIP_nonempty.
Qed.

Lemma allocateUEIP_lookup ds upf ue at_ u x :
  getNFById ds u = Some x ->
  exists y, getNFById (fst (fst (allocateUEIP ds upf ue at_))) u = Some y.
Proof.
  intros Hx. pose proof (allocateUEIP_store ds upf ue at_) as H.
  destruct (allocateUEIP ds upf ue at_) as [[ds' upf'] ip]. cbn [fst].
  destruct H as [Hid [->| ->]]; [eauto|].
  destruct (String.eqb_spec u (nf_id upf)) as [->|Hne].
  - exists upf'. apply (getNFById_updateNF_same _ _ _ x Hx Hid).
  - exists x. rewrite getNFById_updateNF_other; [exact Hx|exact Hid|exact Hne].
Qed.

(** X8.  What a completed establishment commits.  The terminal's node
    carries a session record and a tunnel interface and is marked ACTIVE;
    the record, the interface (address and destination) and the manager's
    session hold one and the same address, which is the fallback 10.0.0.2
    or an address 10.0.0.k of the pool with k from the counter to 14; the
    interface's gateway is the pool's gateway address, or 10.0.0.1 when the
    pool has none; the session is ACTIVE, stamped with the clock, and names
    the gateway validation chose.  The terminal's own address and
    credentials are as before. *)
Theorem establishPDUSession_commit (env : Env) (w : World) (ueId : string) (found : NFs) :
  state (sessionOf w ueId) <> ACTIVE ->
  state (sessionOf w ueId) <> ESTABLISHING ->
  validatePrerequisites (dataStore w) ueId = Valid found ->
  raises env establishmentMessages = false ->
  let w1 := fst (establishPDUSession env w ueId) in
  let s1 := sessionOf w1 ueId in
  exists ue1 ps tun tun0 ip,
    getNFById (dataStore w1) ueId = Some ue1
    /\ config ue1
       = mkConfig (ipAddress (config (ue found))) (subscriberImsi (config (ue found)))
                  (tun0Interface (config (ue found))) (Some ps) (Some tun) (Some ACTIVE)
    /\ nf_id ue1 = ueId /\ nf_type ue1 = "UE" /\ nf_name ue1 = nf_name (ue found)
    /\ state s1 = ACTIVE /\ createdAt s1 = Some (now env)
    /\ pduSessionId s1 = Some (randomSessionId env + 1)
    /\ ps_sessionId ps = Some (randomSessionId env + 1)
    /\ upfId s1 = Some (nf_id (upf found)) /\ ps_upfId ps = nf_id (upf found)
    /\ assignedIP s1 = Some ip /\ ps_assignedIP ps = Some ip
    /\ tun_ipAddress tun = Some ip /\ tun_destination tun = Some ip
    /\ tun0Interface (config (upf found)) = Some tun0
    /\ (ip = "10.0.0.2" \/ exists k, startIP tun0 <= k <= 14 /\ ip = candidateIP k)
    /\ tun_gateway tun
       = (if truthy (gatewayIP tun0) then default "10.0.0.1" (gatewayIP tun0) else "10.0.0.1")
    /\ tun_netmask tun = "255.255.255.0" /\ tun_mtu tun = 1500.
Proof.
  intros Hna Hne Hval Hcalm w1 s1.
  destruct (valid_nodes _ _ _ Hval) as (Hue & Hty & _ & _ & Htun).
  pose proof (getNFById_id _ _ _ Hue) as Hid.
  destruct (tun0Interface (config (upf found))) as [tun0|] eqn:Etun; [|contradiction].
  destruct (establishPDUSession_run env w ueId found Hna Hne Hval)
    as (_ & _ & _ & _ & Hok & _).
  destruct (Hok Hcalm) as [Hds Hs]. clear Hok.
  pose proof (allocateUEIP_allocate (dataStore w) (upf found) (ue found) (now env) tun0 Etun)
    as Hal.
  destruct (allocateUEIP_lookup (dataStore w) (upf found) (ue found) (now env) ueId _ Hue)
    as [y Hy].
  destruct (allocateUEIP (dataStore w) (upf found) (ue found) (now env)) as [[ds' upf'] ip].
  cbn [fst snd] in *. destruct Hal as (Hip & Hpool & Hgw & _).
  subst s1 w1. rewrite Hs, Hds.
  eexists _, _, _, tun0, ip.
  split; [apply (getNFById_updateNF_same _ _ _ y Hy); exact Hid|].
  split; [reflexivity|].
  repeat (split; [first [reflexivity|assumption|cbn; congruence]|]).
  split; [rewrite Hip; apply allocate_address|].
  split; [|split; reflexivity].
  cbn. rewrite Hpool, allocate_gatewayIP. reflexivity.
Qed.

Lemma establishPDUSession_commit_witness :
  exists ue1,
    getNFById (dataStore (fst (establishPDUSession Scenario.calm Scenario.world "ue-1"))) "ue-1"
    = Some ue1
    /\ pduSessionState (config ue1) = Some ACTIVE.
Proof.
  destruct (establishPDUSession_commit
              Scenario.calm Scenario.world "ue-1"
              (mkNFs Scenario.ue1 Scenario.amf1 Scenario.smf1 Scenario.upf1)
              ltac:(vm_compute; discriminate) ltac:(vm_compute; discriminate)
              ltac:(vm_compute; reflexivity) ltac:(vm_compute; reflexivity))
    as (ue1 & ps & tun & tun0 & ip & H1 & H2 & _).
  exists ue1. split; [exact H1|]. rewrite H2. reflexivity.
Defined.

(** ** The local cleanup, continued *)

Lemma cleanedStore_split ds u s :
  cleanedStore ds u s
  = match getNFById (withoutPoolEntries ds u s) u with
    | Some ue => updateNF (withoutPoolEntries ds u s) u
                          (set_config ue (releasedConfig (config ue)))
    | None => withoutPoolEntries ds u s
    end.
Proof. reflexivity. Qed.

(** The first half of the cleanup is the store itself or the store with
    the gateway of the session replaced by itself with a filtered pool. *)
Lemma withoutPoolEntries_cases ds u s :
  withoutPoolEntries ds u s = ds
  \/ exists upf tun0 l,
       getNFById ds (default "" (upfId s)) = Some upf
       /\ tun0Interface (config upf) = Some tun0
       /\ assignedIPs tun0 = Some l
       /\ withoutPoolEntries ds u s
          = updateNF ds (default "" (upfId s))
              (set_config upf (set_tun0 (config upf) (Some (withoutEntriesOf u tun0 l)))).
Proof.
  unfold withoutPoolEntries.
  destruct (truthy (upfId s) && truthy (assignedIP s)); [|left; reflexivity].
  destruct (getNFById ds (default "" (upfId s))) as [upf|] eqn:Hupf; [|left; reflexivity].
  destruct (tun0Interface (config upf)) as [tun0|] eqn:Htun; [|left; reflexivity].
  destruct (assignedIPs tun0) as [l|] eqn:Hl; [|left; reflexivity].
  right. exists upf, tun0, l. auto.
Qed.

Lemma replaceNF_ids id nf l : nf_id nf = id -> map nf_id (replaceNF id nf l) = map nf_id l.
Proof.
  intros Hid. induction l as [|x l IH]; [reflexivity|]. cbn.
  destruct (String.eqb_spec (nf_id x) id) as [E|E]; cbn; [congruence|].
  rewrite IH. reflexivity.
Qed.

Lemma replaceNF_unchanged id nf l :
  find (fun x => String.eqb (nf_id x) id) l = Some nf -> replaceNF id nf l = l.
Proof.
  induction l as [|x l IH]; [reflexivity|]. cbn.
  destruct (String.eqb (nf_id x) id); [congruence|].
  intros H. rewrite (IH H). reflexivity.
Qed.

Lemma updateNF_unchanged ds id nf : getNFById ds id = Some nf -> updateNF ds id nf = ds.
Proof.
  intros H. unfold updateNF. rewrite (replaceNF_unchanged _ _ _ H). destruct ds; reflexivity.
Qed.

Lemma replaceNF_elem id nf l x : x ∈ replaceNF id nf l -> x = nf \/ x ∈ l.
Proof.
  induction l as [|y l IH]; cbn; [auto|].
  destruct (String.eqb (nf_id y) id).
  - rewrite !elem_of_cons. tauto.
  - rewrite !elem_of_cons. intros [->|H]; [auto|]. destruct (IH H); auto.
Qed.

Lemma withoutPoolEntries_other ds u s id :
  id <> default "" (upfId s) ->
  getNFById (withoutPoolEntries ds u s) id = getNFById ds id.
Proof.
  intros Hne.
  destruct (withoutPoolEntries_cases ds u s) as [->|(upf & tun0 & l & Hupf & _ & _ & ->)];
    [reflexivity|].
  apply getNFById_updateNF_other; [|exact Hne].
  apply (getNFById_id _ _ _ Hupf).
Qed.

Lemma cleanedStore_terminal_exact ds u s ue :
  getNFById ds u = Some ue -> default "" (upfId s) <> u ->
  getNFById (cleanedStore ds u s) u = Some (set_config ue (releasedConfig (config ue))).
Proof.
  intros Hue Hne. rewrite cleanedStore_split.
  rewrite (withoutPoolEntries_other ds u s u) by congruence. rewrite Hue.
  apply (getNFById_updateNF_same _ _ _ ue).
  - rewrite withoutPoolEntries_other by congruence. exact Hue.
  - apply (getNFById_id _ _ _ Hue).
Qed.

Lemma cleanedStore_other ds u s id :
  id <> u -> id <> default "" (upfId s) ->
  getNFById (cleanedStore ds u s) id = getNFById ds id.
Proof.
  intros Hu Hk. rewrite cleanedStore_split.
  destruct (getNFById (withoutPoolEntries ds u s) u) as [ue|] eqn:Hue.
  - rewrite getNFById_updateNF_other; [apply withoutPoolEntries_other; exact Hk| |exact Hu].
    apply (getNFById_id _ _ _ Hue).
  - apply withoutPoolEntries_other. exact Hk.
Qed.

Lemma cleanedStore_links ds u s :
  connections (cleanedStore ds u s) = connections ds
  /\ busConnections (cleanedStore ds u s) = busConnections ds
  /\ buses (cleanedStore ds u s) = buses ds
  /\ map nf_id (nfs (cleanedStore ds u s)) = map nf_id (nfs ds).
Proof.
  rewrite cleanedStore_split.
  assert (H1 : connections (withoutPoolEntries ds u s) = connections ds
               /\ busConnections (withoutPoolEntries ds u s) = busConnections ds
               /\ buses (withoutPoolEntries ds u s) = buses ds
               /\ map nf_id (nfs (withoutPoolEntries ds u s)) = map nf_id (nfs ds)).
  { destruct (withoutPoolEntries_cases ds u s) as [->|(upf & tun0 & l & Hupf & _ & _ & ->)];
      [auto|].
    cbn. repeat split. apply replaceNF_ids. apply (getNFById_id _ _ _ Hupf). }
  destruct (getNFById (withoutPoolEntries ds u s) u) as [ue|] eqn:Hue; [|exact H1].
  cbn. destruct H1 as (-> & -> & -> & <-). repeat split.
  apply replaceNF_ids. apply (getNFById_id _ _ _ Hue).
Qed.

Lemma cleanedStore_pool_other ds u s key :
  key <> default "" (upfId s) -> poolOf (cleanedStore ds u s) key = poolOf ds key.
Proof.
  intros Hk. rewrite cleanedStore_split, poolOf_release_terminal.
  unfold poolOf. rewrite withoutPoolEntries_other by exact Hk. reflexivity.
Qed.

(** The cleanup takes entries out of pools, and only entries of the
    terminal. *)
Lemma cleanedStore_entries_kept ds u s key a :
  (a ∈ entriesOf (cleanedStore ds u s) key -> a ∈ entriesOf ds key)
  /\ (a ∈ entriesOf ds key -> a_ueId a <> u -> a ∈ entriesOf (cleanedStore ds u s) key).
Proof.
  destruct (String.eqb_spec key (default "" (upfId s))) as [->|Hk].
  2:{ unfold entriesOf. rewrite cleanedStore_pool_other by exact Hk. tauto. }
  unfold entriesOf. rewrite cleanedStore_split, poolOf_release_terminal.
  destruct (withoutPoolEntries_cases ds u s) as [->|(upf & tun0 & l & Hupf & Htun & Hl & ->)];
    [tauto|].
  rewrite (poolOf_updateNF_same _ _ _ upf Hupf) by apply (getNFById_id _ _ _ Hupf).
  unfold poolOf. rewrite Hupf, Htun. cbn. rewrite Hl. cbn.
  rewrite list_elem_of_filter. tauto.
Qed.

Lemma cleanedStore_idempotent ds u s s' :
  cleanedStore (cleanedStore ds u s) u (resetSession s') = cleanedStore ds u s.
Proof.
  rewrite (cleanedStore_split (cleanedStore ds u s)).
  change (withoutPoolEntries (cleanedStore ds u s) u (resetSession s'))
    with (cleanedStore ds u s).
  destruct (getNFById (cleanedStore ds u s) u) as [ue'|] eqn:Hue'; [|reflexivity].
  rewrite cleanedStore_split in Hue' |- *.
  destruct (getNFById (withoutPoolEntries ds u s) u) as [ue|] eqn:Hue.
  - rewrite (getNFById_updateNF_same _ _ _ ue Hue) in Hue' by apply (getNFById_id _ _ _ Hue).
    injection Hue' as <-.
    apply updateNF_unchanged.
    apply (getNFById_updateNF_same _ _ _ ue Hue). apply (getNFById_id _ _ _ Hue).
  - congruence.
Qed.

Lemma World_eq (a b : World) : dataStore a = dataStore b -> sessions a = sessions b -> a = b.
Proof. destruct a, b. cbn. intros -> ->. reflexivity. Qed.

Lemma cleanupSession_sessions w u :
  sessions (cleanupSession w u) = alter resetSession u (sessions (fst (getSession w u))).
Proof. unfold cleanupSession. destruct (getSession w u). reflexivity. Qed.

(** X10.  The local cleanup is idempotent: a second [cleanupSession] for
    the same terminal leaves the world, store and sessions, exactly as the
    first left it.  The first leaves the session RELEASED with every field
    cleared and touches no other session, no link and no bus, and no node
    is added, removed or renamed. *)
Theorem cleanupSession_idempotent (w : World) (ueId : string) :
  let w1 := cleanupSession w ueId in
  cleanupSession w1 ueId = w1
  /\ sessionOf w1 ueId = mkSession (s_ueId (sessionOf w ueId)) RELEASED None None None None None
  /\ (forall v, v <> ueId -> sessions w1 !! v = sessions w !! v)
  /\ connections (dataStore w1) = connections (dataStore w)
  /\ busConnections (dataStore w1) = busConnections (dataStore w)
  /\ buses (dataStore w1) = buses (dataStore w)
  /\ map nf_id (nfs (dataStore w1)) = map nf_id (nfs (dataStore w)).
Proof.
  intros w1. subst w1. split; [|split; [|split]].
  - apply World_eq.
    + rewrite !cleanupSession_store, sessionOf_cleanup. apply cleanedStore_idempotent.
    + rewrite (cleanupSession_sessions (cleanupSession w ueId)).
      rewrite (getSession_known _ _ _ (cleanupSession_session w ueId)). cbn [fst].
      rewrite cleanupSession_sessions.
      apply map_eq. intros i. destruct (decide (i = ueId)) as [->|Hi].
      * rewrite !lookup_alter_eq. destruct (sessions (fst (getSession w ueId)) !! ueId);
          reflexivity.
      * rewrite !lookup_alter_ne by congruence. reflexivity.
  - apply sessionOf_cleanup.
  - intros v Hv. apply cleanupSession_other_session. exact Hv.
  - rewrite cleanupSession_store. apply cleanedStore_links.
Qed.

Lemma releasePDUSession_others env w u v :
  v <> u -> sessions (fst (releasePDUSession env w u)) !! v = sessions w !! v.
Proof.
  intros Hv. destruct (releasePDUSession_guarded env w u) as (HN & HM).
  assert (Hd : state (sessionOf w u) = ACTIVE \/ state (sessionOf w u) <> ACTIVE)
    by (destruct (state (sessionOf w u)); auto; right; discriminate).
  destruct Hd as [Hact|Hna]; [|rewrite (HN Hna); apply getSession_other, Hv].
  destruct (getNFById (dataStore w) u) as [ue|] eqn:Hue;
    [|rewrite (HM eq_refl); apply getSession_other, Hv].
  rewrite (releasePDUSession_active env w u ue Hact Hue).
  destruct (validatePrerequisites (dataStore w) u); cbn [fst];
    rewrite cleanupSession_other_session by exact Hv; [reflexivity|].
  apply sessions_modify_other, Hv.
Qed.

Lemma filter_all_kept {A : Type} (P : A -> Prop) `{forall x, Decision (P x)} (l : list A) :
  (forall x, x ∈ l -> P x) -> filter P l = l.
Proof.
  induction l as [|x l IH]; [reflexivity|]. intros Hall.
  rewrite filter_cons. destruct (decide (P x)) as [_|Hn].
  - rewrite IH; [reflexivity|]. intros y Hy. apply Hall. right. exact Hy.
  - exfalso. apply Hn, Hall. left.
Qed.

(** X9.  Establishment followed by release is a round trip but for the
    marks it leaves.  When the terminal holds no entry of the gateway's pool
    beforehand and establishment completes, then after a release (however
    its messages go) the mapping of the pool is the one before
    establishment; the terminal's node is the node before establishment
    with the session record and tunnel interface absent and the state mark
    RELEASED; every node other than the terminal and the gateway, every
    link, bus and bus attachment is as before; the session is RELEASED with
    all fields cleared, and the other sessions are untouched. *)
Theorem establish_release_round_trip
        (env env' : Env) (w : World) (ueId : string) (found : NFs) (tun0 : Tun0Interface) :
  wellFormed (dataStore w) ->
  state (sessionOf w ueId) <> ACTIVE ->
  state (sessionOf w ueId) <> ESTABLISHING ->
  validatePrerequisites (dataStore w) ueId = Valid found ->
  raises env establishmentMessages = false ->
  tun0Interface (config (upf found)) = Some tun0 ->
  (forall a, a ∈ default [] (assignedIPs tun0) -> a_ueId a <> ueId) ->
  let gw := nf_id (upf found) in
  let w1 := fst (establishPDUSession env w ueId) in
  let w2 := fst (releasePDUSession env' w1 ueId) in
  getNFById (dataStore w2) ueId
  = Some (set_config (ue found) (releasedConfig (config (ue found))))
  /\ entriesOf (dataStore w2) gw = entriesOf (dataStore w) gw
  /\ (forall id, id <> ueId -> id <> gw ->
                 getNFById (dataStore w2) id = getNFById (dataStore w) id)
  /\ connections (dataStore w2) = connections (dataStore w)
  /\ busConnections (dataStore w2) = busConnections (dataStore w)
  /\ buses (dataStore w2) = buses (dataStore w)
  /\ map nf_id (nfs (dataStore w2)) = map nf_id (nfs (dataStore w))
  /\ sessionOf w2 ueId
     = mkSession (s_ueId (sessionOf w ueId)) RELEASED None None None None None
  /\ (forall v, v <> ueId -> sessions w2 !! v = sessions w !! v).
Proof.
  intros Hwf Hna Hne Hval Hcalm Htun Hnone gw w1 w2.
  destruct (valid_nodes _ _ _ Hval) as (Hue & _ & Hin & _).
  pose proof (valid_gateway_not_terminal _ _ _ Hwf Hval) as Hgw. fold gw in Hgw.
  pose proof (wellFormed_lookup _ _ Hwf Hin) as Hupf. fold gw in Hupf.
  pose proof (getNFById_id _ _ _ Hue) as Hueid.
  assert (Hgwne : gw <> "") by (destruct Hwf as [_ Hwf]; apply Hwf; exact Hin).
  destruct (establishPDUSession_run env w ueId found Hna Hne Hval)
    as (_ & Hst & _ & Ho & Hok & _).
  rewrite Hcalm in Hst. destruct (Hok Hcalm) as [Hds Hs]. clear Hok.
  fold w1 in Hst, Ho, Hds, Hs.
  pose proof (allocateUEIP_allocate (dataStore w) (upf found) (ue found) (now env) tun0 Htun)
    as Hal.
  destruct (allocateUEIP (dataStore w) (upf found) (ue found) (now env)) as [[ds' upf'] ip].
  cbn [fst snd] in *. destruct Hal as (Hip & Hpool & Hid & Hcase). fold gw in Hid, Hcase.
  set (s1 := sessionOf w1 ueId) in *.
  set (ue1 := set_config (ue found) _) in Hds.
  assert (Hy : getNFById ds' ueId = Some (ue found)).
  { destruct Hcase as [[-> _]| ->]; [exact Hue|].
    rewrite getNFById_updateNF_other; [exact Hue|exact Hid|congruence]. }
  assert (Hue1 : getNFById (dataStore w1) ueId = Some ue1).
  { rewrite Hds. apply (getNFById_updateNF_same _ _ _ _ Hy). exact Hueid. }
  assert (Hpool1 : poolOf (dataStore w1) gw = Some (fst (allocate tun0 (ue found) (now env)))).
  { rewrite Hds. unfold poolOf.
    rewrite getNFById_updateNF_other; [|exact Hueid|exact Hgw].
    destruct Hcase as [[-> ->]| ->].
    - rewrite Hupf. exact Hpool.
    - rewrite (getNFById_updateNF_same _ _ _ _ Hupf Hid). exact Hpool. }
  assert (Hother1 : forall id, id <> ueId -> id <> gw ->
                               getNFById (dataStore w1) id = getNFById (dataStore w) id).
  { intros id H1 H2. rewrite Hds.
    rewrite getNFById_updateNF_other; [|exact Hueid|exact H1].
    destruct Hcase as [[-> _]| ->]; [reflexivity|].
    apply getNFById_updateNF_other; [exact Hid|exact H2]. }
  assert (Hlinks1 : connections (dataStore w1) = connections (dataStore w)
                    /\ busConnections (dataStore w1) = busConnections (dataStore w)
                    /\ buses (dataStore w1) = buses (dataStore w)
                    /\ map nf_id (nfs (dataStore w1)) = map nf_id (nfs (dataStore w))).
  { rewrite Hds. cbn. rewrite (replaceNF_ids ueId ue1 _ Hueid).
    destruct Hcase as [[-> _]| ->]; [auto|].
    cbn. rewrite (replaceNF_ids _ _ _ Hid). auto. }
  assert (Hkey : upfId s1 = Some gw) by (rewrite Hs; cbn; congruence).
  assert (Hips : assignedIP s1 = Some ip) by (rewrite Hs; reflexivity).
  destruct (releasePDUSession_store env' w1 ueId ue1 Hst Hue1) as [Hds2 Hs2].
  fold w2 in Hds2, Hs2. fold s1 in Hds2, Hs2.
  split; [|split; [|split; [|split; [|split; [|split; [|split; [|split]]]]]]].
  - rewrite Hds2.
    rewrite (cleanedStore_terminal_exact _ _ _ ue1 Hue1) by (rewrite Hkey; exact Hgw).
    reflexivity.
  - rewrite Hds2.
    rewrite (cleanedStore_entries _ ueId s1 gw ip Hkey Hips Hgwne)
      by (rewrite Hip; apply allocate_address_nonempty).
    unfold entriesOf at 1. rewrite Hpool1.
    unfold entriesOf, poolOf. rewrite Hupf, Htun.
    destruct (allocate_cases tun0 (ue found) (now env)) as [(k & _ & _ & ->)| ->];
      cbn [fst recordAllocation assignedIPs from_option id].
    + rewrite filter_app, (filter_all_kept _ _ Hnone).
      rewrite filter_cons. cbn [a_ueId].
      destruct (decide (nf_id (ue found) <> ueId)) as [Hx|_]; [contradiction|].
      rewrite filter_nil, app_nil_r. reflexivity.
    + apply filter_all_kept. exact Hnone.
  - intros id H1 H2. rewrite Hds2.
    rewrite cleanedStore_other; [apply Hother1; assumption|exact H1|].
    rewrite Hkey. exact H2.
  - rewrite Hds2. destruct (cleanedStore_links (dataStore w1) ueId s1) as (-> & _).
    apply Hlinks1.
  - rewrite Hds2. destruct (cleanedStore_links (dataStore w1) ueId s1) as (_ & -> & _).
    apply Hlinks1.
  - rewrite Hds2. destruct (cleanedStore_links (dataStore w1) ueId s1) as (_ & _ & -> & _).
    apply Hlinks1.
  - rewrite Hds2. destruct (cleanedStore_links (dataStore w1) ueId s1) as (_ & _ & _ & ->).
    apply Hlinks1.
  - rewrite Hs2. subst s1. rewrite Hs. reflexivity.
  - intros v Hv. subst w2. rewrite releasePDUSession_others by exact Hv. apply Ho, Hv.
Qed.

Lemma establish_release_round_trip_witness :
  entriesOf
    (dataStore
       (fst (releasePDUSession (Scenario.failingAt ReleaseConfirmation)
               (fst (establishPDUSession Scenario.calm Scenario.world "ue-1")) "ue-1")))
    (nf_id Scenario.upf1)
  = entriesOf (dataStore Scenario.world) (nf_id Scenario.upf1).
Proof.
  pose proof (establish_release_round_trip
                Scenario.calm (Scenario.failingAt ReleaseConfirmation) Scenario.world "ue-1"
                (mkNFs Scenario.ue1 Scenario.amf1 Scenario.smf1 Scenario.upf1)
                Scenario.pool0
                scenario_wellFormed
                ltac:(vm_compute; discriminate) ltac:(vm_compute; discriminate)
                ltac:(vm_compute; reflexivity) ltac:(vm_compute; reflexivity)
                ltac:(reflexivity)
                ltac:(intros a Ha; cbn in Ha; apply elem_of_nil in Ha; contradiction)) as H.
  cbv zeta in H. destruct H as (_ & H & _). exact H.
Defined.

Lemma releasePDUSession_store_cases env w u :
  dataStore (fst (releasePDUSession env w u)) = dataStore w
  \/ dataStore (fst (releasePDUSession env w u))
     = cleanedStore (dataStore w) u (sessionOf w u).
Proof.
  destruct (releasePDUSession_guarded env w u) as (HN & HM).
  assert (Hd : state (sessionOf w u) = ACTIVE \/ state (sessionOf w u) <> ACTIVE)
    by (destruct (state (sessionOf w u)); auto; right; discriminate).
  destruct Hd as [Hact|Hna]; [|left; rewrite (HN Hna); apply getSession_store].
  destruct (getNFById (dataStore w) u) as [ue|] eqn:Hue;
    [|left; rewrite (HM eq_refl); apply getSession_store].
  right. apply (releasePDUSession_store env w u ue Hact Hue).
Qed.

(** X11.  A release, whichever way it goes, is confined to its terminal:
    the sessions of the other terminals are untouched; pools lose entries
    only, and only entries of the terminal released; pools other than the
    one of the session's gateway, and nodes other than the terminal and
    that gateway, are as before; no link, bus or bus attachment changes and
    no node is added, removed or renamed. *)
Theorem releasePDUSession_confined (env : Env) (w : World) (ueId : string) :
  let w1 := fst (releasePDUSession env w ueId) in
  let gw := default "" (upfId (sessionOf w ueId)) in
  (forall v, v <> ueId -> sessions w1 !! v = sessions w !! v)
  /\ (forall key a, a ∈ entriesOf (dataStore w1) key -> a ∈ entriesOf (dataStore w) key)
  /\ (forall key a, a ∈ entriesOf (dataStore w) key -> a_ueId a <> ueId ->
                    a ∈ entriesOf (dataStore w1) key)
  /\ (forall key, key <> gw -> poolOf (dataStore w1) key = poolOf (dataStore w) key)
  /\ (forall id, id <> ueId -> id <> gw ->
                 getNFById (dataStore w1) id = getNFById (dataStore w) id)
  /\ connections (dataStore w1) = connections (dataStore w)
  /\ busConnections (dataStore w1) = busConnections (dataStore w)
  /\ buses (dataStore w1) = buses (dataStore w)
  /\ map nf_id (nfs (dataStore w1)) = map nf_id (nfs (dataStore w)).
Proof.
  intros w1 gw. split; [intros v Hv; apply releasePDUSession_others, Hv|].
  subst w1. destruct (releasePDUSession_store_cases env w ueId) as [-> | ->].
  { repeat split; auto. }
  split; [intros key a; apply cleanedStore_entries_kept|].
  split; [intros key a; apply cleanedStore_entries_kept|].
  split; [intros key Hk; apply cleanedStore_pool_other, Hk|].
  split; [intros id H1 H2; apply cleanedStore_other; assumption|].
  apply cleanedStore_links.
Qed.

(** ** The pool's invariant *)

Lemma mappedIPs_isAssigned tun0 ip : isAssigned tun0 ip = true <-> ip ∈ mappedIPs tun0.
Proof.
  rewrite isAssigned_mapped. unfold mapped, mappedIPs.
  change (map a_ip (default [] (assignedIPs tun0)))
    with (a_ip <$> default [] (assignedIPs tun0)).
  rewrite list_elem_of_fmap. split.
  - intros (a & Ha & He). exists a. auto.
  - intros (a & He & Ha). exists a. auto.
Qed.

Lemma startIP_recorded tun0 ue k at_ : k < startIP (recordAllocation tun0 ue k at_).
Proof.
  unfold startIP. cbn. destruct (Z.eqb_spec (k + 1) 0); lia.
Qed.

Lemma poolConsistent_counter_free tun0 :
  poolConsistent tun0 -> isAssigned tun0 (candidateIP (startIP tun0)) = false.
Proof.
  intros [_ Hb]. destruct (isAssigned tun0 (candidateIP (startIP tun0))) eqn:E; [|reflexivity].
  apply mappedIPs_isAssigned in E. destruct (Hb _ E) as (j & Hj & He).
  apply candidateIP_inj in He. lia.
Qed.

Lemma poolConsistent_recorded tun0 ue k at_ :
  poolConsistent tun0 -> startIP tun0 <= k -> isAssigned tun0 (candidateIP k) = false ->
  poolConsistent (recordAllocation tun0 ue k at_).
Proof.
  intros [Hnd Hb] Hk Hfree.
  assert (Hm : mappedIPs (recordAllocation tun0 ue k at_) = mappedIPs tun0 ++ [candidateIP k]).
  { unfold mappedIPs. cbn. rewrite map_app. reflexivity. }
  pose proof (startIP_recorded tun0 ue k at_) as Hs.
  split.
  - rewrite Hm. apply NoDup_app. split; [exact Hnd|]. split; [|apply NoDup_singleton].
    intros ip Hin Hin'. apply list_elem_of_singleton in Hin'. subst ip.
    apply mappedIPs_isAssigned in Hin. congruence.
  - intros ip Hin. rewrite Hm in Hin. apply elem_of_app in Hin as [Hin|Hin].
    + destruct (Hb _ Hin) as (j & Hj & ->). exists j. split; [lia|reflexivity].
    + apply list_elem_of_singleton in Hin. subst ip. exists k. split; [lia|reflexivity].
Qed.

Lemma allocate_consistent tun0 ue at_ :
  poolConsistent tun0 -> poolConsistent (fst (allocate tun0 ue at_)).
Proof.
  intros Hc. destruct (allocate_cases tun0 ue at_) as [(k & Hk & Hf & ->)| ->]; [|exact Hc].
  apply poolConsistent_recorded; [exact Hc|lia|exact Hf].
Qed.

Lemma allocate_at_counter tun0 ue at_ :
  poolConsistent tun0 -> startIP tun0 <= 14 ->
  allocate tun0 ue at_
  = (recordAllocation tun0 ue (startIP tun0) at_, candidateIP (startIP tun0)).
Proof.
  intros Hc Hle. unfold allocate.
  rewrite (scanPool_first_free tun0 ue at_ (startIP tun0)); [reflexivity|lia| |intros j Hj; lia].
  apply poolConsistent_counter_free, Hc.
Qed.

Lemma map_filter_NoDup {A B : Type} (f : A -> B) (P : A -> Prop) `{forall x, Decision (P x)}
      (l : list A) :
  NoDup (map f l) -> NoDup (map f (filter P l)).
Proof.
  induction l as [|x l IH]; [intros _; constructor|].
  cbn [map]. rewrite NoDup_cons. intros [Hx Hl]. rewrite filter_cons.
  destruct (decide (P x)); [|apply IH, Hl].
  cbn [map]. apply NoDup_cons. split; [|apply IH, Hl].
  intros Hin. apply Hx.
  change (map f (filter P l)) with (f <$> filter P l) in Hin.
  change (map f l) with (f <$> l).
  apply list_elem_of_fmap in Hin as (y & -> & Hy). apply list_elem_of_fmap.
  exists y. split; [reflexivity|]. apply list_elem_of_filter in Hy. tauto.
Qed.

Lemma withoutEntriesOf_consistent u tun0 l :
  poolConsistent tun0 -> assignedIPs tun0 = Some l -> poolConsistent (withoutEntriesOf u tun0 l).
Proof.
  intros [Hnd Hb] Hl. unfold poolConsistent, mappedIPs in *. rewrite Hl in Hnd, Hb.
  cbn in *. split.
  - apply map_filter_NoDup. exact Hnd.
  - intros ip Hin.
    change (map a_ip (filter (fun a => a_ueId a <> u) l))
      with (a_ip <$> filter (fun a => a_ueId a <> u) l) in Hin.
    apply list_elem_of_fmap in Hin as (y & -> & Hy). apply list_elem_of_filter in Hy as [_ Hy].
    destruct (Hb (a_ip y)) as (j & Hj & He).
    + change (map a_ip l) with (a_ip <$> l). apply list_elem_of_fmap. exists y. auto.
    + exists j. split; [exact Hj|exact He].
Qed.

Lemma allocateMany_consistent reqs : forall tun0,
  poolConsistent tun0 -> poolConsistent (fst (allocateMany tun0 reqs)).
Proof.
  induction reqs as [|[ue at_] reqs IH]; intros tun0 Hc; [exact Hc|].
  cbn [allocateMany].
  pose proof (allocate_consistent tun0 ue at_ Hc) as Hc'.
  destruct (allocate tun0 ue at_) as [tun0' ip]. cbn [fst] in Hc'.
  specialize (IH tun0' Hc'). destruct (allocateMany tun0' reqs) as [tun0'' ips].
  exact IH.
Qed.

(** X12.  The invariant of a pool: no address is mapped twice and every
    mapped address is 10.0.0.j for a j below the counter.  Allocation and
    the removal of a terminal's entries keep it.  Under it the scan never
    has to skip: while the counter is at most 14 the address handed out is
    10.0.0.<counter>, it was not mapped, it is appended to the mapping and
    the counter goes up by one; past 14 the answer is 10.0.0.2 and the pool
    is left as it is. *)
Theorem allocate_keeps_pool_consistent (tun0 : Tun0Interface) (ue : NF) (at_ : Z) :
  poolConsistent tun0 ->
  let tun0' := fst (allocate tun0 ue at_) in
  let ip := snd (allocate tun0 ue at_) in
  poolConsistent tun0'
  /\ (startIP tun0 <= 14 ->
      ip = candidateIP (startIP tun0)
      /\ ~ ip ∈ mappedIPs tun0
      /\ mappedIPs tun0' = mappedIPs tun0 ++ [ip]
      /\ nextAvailableIP tun0' = Some (startIP tun0 + 1))
  /\ (14 < startIP tun0 -> ip = "10.0.0.2" /\ tun0' = tun0)
  /\ (forall u l, assignedIPs tun0 = Some l -> poolConsistent (withoutEntriesOf u tun0 l))
  /\ (forall reqs, poolConsistent (fst (allocateMany tun0 reqs))).
Proof.
  intros Hc tun0' ip. subst tun0' ip.
  split; [apply allocate_consistent, Hc|]. split; [|split; [|split]].
  - intros Hle. rewrite (allocate_at_counter tun0 ue at_ Hc Hle). cbn [fst snd].
    split; [reflexivity|]. split; [|split].
    + intros Hin. apply mappedIPs_isAssigned in Hin.
      rewrite (poolConsistent_counter_free tun0 Hc) in Hin. discriminate.
    + unfold mappedIPs. cbn. rewrite map_app. reflexivity.
    + reflexivity.
  - intros Hgt. destruct (allocate_cases tun0 ue at_) as [(k & Hk & _)| ->]; [lia|].
    split; reflexivity.
  - intros u l Hl. apply withoutEntriesOf_consistent; assumption.
  - intros reqs. apply allocateMany_consistent, Hc.
Qed.

Lemma pool0_consistent : poolConsistent Scenario.pool0.
Proof.
  split.
  - vm_compute. constructor.
  - intros ip Hin. vm_compute in Hin. apply elem_of_nil in Hin. contradiction.
Qed.

Lemma allocate_keeps_pool_consistent_witness :
  snd (allocate Scenario.pool0 Scenario.ue1 0) = candidateIP (startIP Scenario.pool0).
Proof.
  pose proof (allocate_keeps_pool_consistent Scenario.pool0 Scenario.ue1 0 pool0_consistent)
    as H.
  cbv zeta in H. destruct H as (_ & H & _).
  destruct (H ltac:(vm_compute; discriminate)) as (H1 & _). exact H1.
Defined.

(** ** Invariants of the store over the calls of the manager *)

Lemma establishPDUSession_store_cases env w u :
  dataStore (fst (establishPDUSession env w u)) = dataStore w
  \/ exists found,
       validatePrerequisites (dataStore w) u = Valid found
       /\ let ds' := fst (fst (allocateUEIP (dataStore w) (upf found) (ue found) (now env))) in
          dataStore (fst (establishPDUSession env w u)) = ds'
          \/ exists c, tun0Interface c = tun0Interface (config (ue found))
                       /\ dataStore (fst (establishPDUSession env w u))
                          = updateNF ds' u (set_config (ue found) c).
Proof.
  destruct (establishPDUSession_guarded env w u) as (HA & HE & HI).
  assert (Hd : state (sessionOf w u) = ACTIVE \/ state (sessionOf w u) = ESTABLISHING
               \/ (state (sessionOf w u) <> ACTIVE /\ state (sessionOf w u) <> ESTABLISHING)).
  { destruct (state (sessionOf w u)); auto; right; right; split; discriminate. }
  destruct Hd as [Hs|[Hs|[Hna Hne]]].
  - left. rewrite (HA Hs). apply getSession_store.
  - left. rewrite (HE Hs). apply getSession_store.
  - destruct (validatePrerequisites (dataStore w) u) as [reason|found] eqn:Hval.
    + left. rewrite (HI reason Hna eq_refl). apply getSession_store.
    + destruct (establishPDUSession_run env w u found Hna Hne Hval)
        as (_ & _ & _ & _ & Hok & Hfail).
      destruct (raises env establishmentMessages).
      * destruct (Hfail eq_refl) as [H|H]; [left; exact H|].
        right. exists found. split; [reflexivity|]. left. exact H.
      * destruct (Hok eq_refl) as [H _].
        right. exists found. split; [reflexivity|]. right.
        eexists. split; [|exact H]. reflexivity.
Qed.

Lemma storeConsistent_updateNF ds id nf :
  storeConsistent ds ->
  (forall t, tun0Interface (config nf) = Some t -> poolConsistent t) ->
  storeConsistent (updateNF ds id nf).
Proof.
  intros Hc Hnf x t Hx Ht. cbn in Hx. apply replaceNF_elem in Hx as [->|Hx].
  - apply Hnf, Ht.
  - apply (Hc x t Hx Ht).
Qed.

Lemma wellFormed_ids ds ds' :
  map nf_id (nfs ds') = map nf_id (nfs ds) -> wellFormed ds -> wellFormed ds'.
Proof.
  intros Hids [Hnd Hne]. split; [rewrite Hids; exact Hnd|].
  intros nf Hin.
  assert (Hid : nf_id nf ∈ map nf_id (nfs ds)).
  { rewrite <- Hids. change (map nf_id (nfs ds')) with (nf_id <$> nfs ds').
    apply list_elem_of_fmap. exists nf. auto. }
  change (map nf_id (nfs ds)) with (nf_id <$> nfs ds) in Hid.
  apply list_elem_of_fmap in Hid as (y & -> & Hy). apply Hne, Hy.
Qed.

Lemma allocateUEIP_ids ds upf ue at_ :
  let ds' := fst (fst (allocateUEIP ds upf ue at_)) in
  map nf_id (nfs ds') = map nf_id (nfs ds)
  /\ connections ds' = connections ds
  /\ busConnections ds' = busConnections ds
  /\ buses ds' = buses ds.
Proof.
  pose proof (allocateUEIP_store ds upf ue at_) as H.
  destruct (allocateUEIP ds upf ue at_) as [[ds' upf'] ip]. cbn [fst].
  destruct H as [Hid [->| ->]]; [auto|].
  cbn. rewrite (replaceNF_ids _ _ _ Hid). auto.
Qed.

Lemma allocateUEIP_consistent ds upf ue at_ :
  storeConsistent ds -> upf ∈ nfs ds ->
  storeConsistent (fst (fst (allocateUEIP ds upf ue at_))).
Proof.
  intros Hc Hin.
  destruct (tun0Interface (config upf)) as [tun0|] eqn:Htun.
  - pose proof (allocateUEIP_allocate ds upf ue at_ tun0 Htun) as H.
    destruct (allocateUEIP ds upf ue at_) as [[ds' upf'] ip]. cbn [fst].
    destruct H as (_ & Hpool & _ & [[-> _]| ->]); [exact Hc|].
    apply storeConsistent_updateNF; [exact Hc|].
    intros t Ht. rewrite Hpool in Ht. injection Ht as <-.
    apply allocate_consistent. apply (Hc upf tun0 Hin Htun).
  - unfold allocateUEIP. rewrite Htun. exact Hc.
Qed.

Lemma cleanedStore_consistent ds u s :
  storeConsistent ds -> storeConsistent (cleanedStore ds u s).
Proof.
  intros Hc.
  assert (H1 : storeConsistent (withoutPoolEntries ds u s)).
  { destruct (withoutPoolEntries_cases ds u s)
      as [->|(upf & tun0 & l & Hupf & Htun & Hl & ->)]; [exact Hc|].
    apply storeConsistent_updateNF; [exact Hc|].
    intros t Ht. cbn in Ht. injection Ht as <-.
    apply withoutEntriesOf_consistent; [|exact Hl].
    apply (Hc upf tun0 (getNFById_elem _ _ _ Hupf) Htun). }
  rewrite cleanedStore_split.
  destruct (getNFById (withoutPoolEntries ds u s) u) as [ue|] eqn:Hue; [|exact H1].
  apply storeConsistent_updateNF; [exact H1|].
  intros t Ht. cbn in Ht. apply (H1 ue t (getNFById_elem _ _ _ Hue) Ht).
Qed.

Lemma perform_keeps c w :
  let w' := perform c w in
  map nf_id (nfs (dataStore w')) = map nf_id (nfs (dataStore w))
  /\ connections (dataStore w') = connections (dataStore w)
  /\ busConnections (dataStore w') = busConnections (dataStore w)
  /\ buses (dataStore w') = buses (dataStore w)
  /\ (storeConsistent (dataStore w) -> storeConsistent (dataStore w')).
Proof.
  destruct c as [env u|env u]; cbn [perform]; cbv zeta.
  - destruct (establishPDUSession_store_cases env w u) as [->|(found & Hval & H)];
      [auto 10|].
    cbv zeta in H.
    destruct (valid_nodes _ _ _ Hval) as (Hue & _ & Hin & _).
    pose proof (getNFById_id _ _ _ Hue) as Hid.
    pose proof (allocateUEIP_ids (dataStore w) (upf found) (ue found) (now env)) as Hids.
    pose proof (allocateUEIP_consistent (dataStore w) (upf found) (ue found) (now env)) as Hcs.
    cbv zeta in Hids. destruct Hids as (Hi1 & Hi2 & Hi3 & Hi4).
    destruct H as [->|(c & Hc & ->)].
    + split; [exact Hi1|]. split; [exact Hi2|]. split; [exact Hi3|]. split; [exact Hi4|].
      intros Hcons. apply Hcs; assumption.
    + cbn [updateNF nfs connections busConnections buses].
      rewrite (replaceNF_ids u (set_config (ue found) c) _ Hid).
      split; [exact Hi1|]. split; [exact Hi2|]. split; [exact Hi3|]. split; [exact Hi4|].
      intros Hcons. apply storeConsistent_updateNF; [apply Hcs; assumption|].
      intros t Ht. cbn in Ht. rewrite Hc in Ht.
      apply (Hcons (ue found) t (getNFById_elem _ _ _ Hue) Ht).
  - destruct (releasePDUSession_store_cases env w u) as [-> | ->]; [auto 10|].
    destruct (cleanedStore_links (dataStore w) u (sessionOf w u)) as (H1 & H2 & H3 & H4).
    split; [exact H4|]. split; [exact H1|]. split; [exact H2|]. split; [exact H3|].
    apply cleanedStore_consistent.
Qed.

Lemma performAll_keeps cs : forall w,
  let w' := performAll cs w in
  map nf_id (nfs (dataStore w')) = map nf_id (nfs (dataStore w))
  /\ connections (dataStore w') = connections (dataStore w)
  /\ busConnections (dataStore w') = busConnections (dataStore w)
  /\ buses (dataStore w') = buses (dataStore w)
  /\ (storeConsistent (dataStore w) -> storeConsistent (dataStore w')).
Proof.
  induction cs as [|c cs IH]; intros w; cbv zeta; [cbn; auto 10|].
  change (performAll (c :: cs) w) with (performAll cs (perform c w)).
  destruct (IH (perform c w)) as (H1 & H2 & H3 & H4 & H5).
  destruct (perform_keeps c w) as (K1 & K2 & K3 & K4 & K5).
  rewrite H1, H2, H3, H4. auto 10.
Qed.

(** X13.  Invariants of the store over any sequence of calls of
    [establishPDUSession] and [releasePDUSession] made one after the other
    (each awaited before the next), whatever the terminals, the exceptions
    and the order: the store keeps its nodes' identities (no
    node is added, removed or renamed), its links, buses and bus
    attachments; node identities stay unique and non-empty; and every pool
    stays as allocation builds it, so that no pool ever maps an address
    twice. *)
Theorem performAll_keeps_invariants (cs : list Call) (w : World) :
  wellFormed (dataStore w) ->
  storeConsistent (dataStore w) ->
  let w' := performAll cs w in
  wellFormed (dataStore w')
  /\ storeConsistent (dataStore w')
  /\ (forall key, NoDup (map a_ip (entriesOf (dataStore w') key)))
  /\ map nf_id (nfs (dataStore w')) = map nf_id (nfs (dataStore w))
  /\ connections (dataStore w') = connections (dataStore w)
  /\ busConnections (dataStore w') = busConnections (dataStore w)
  /\ buses (dataStore w') = buses (dataStore w).
Proof.
  intros Hwf Hc w'. subst w'.
  destruct (performAll_keeps cs w) as (H1 & H2 & H3 & H4 & H5).
  split; [apply (wellFormed_ids _ _ H1 Hwf)|]. split; [apply H5, Hc|].
  split; [|auto].
  intros key. unfold entriesOf, poolOf.
  destruct (getNFById (dataStore (performAll cs w)) key) as [nf|] eqn:Hnf; [|constructor].
  destruct (tun0Interface (config nf)) as [t|] eqn:Ht; [|constructor].
  apply (H5 Hc nf t (getNFById_elem _ _ _ Hnf) Ht).
Qed.

Lemma scenario_storeConsistent : storeConsistent Scenario.store.
Proof.
  intros nf t Hin Ht. cbn in Hin. rewrite !elem_of_cons, elem_of_nil in Hin.
  repeat destruct Hin as [Hin|Hin]; try contradiction; subst nf; cbn in Ht;
    try discriminate Ht.
  injection Ht as <-. exact pool0_consistent.
Qed.

Lemma performAll_keeps_invariants_witness :
  NoDup (map a_ip
           (entriesOf
              (dataStore
                 (performAll [Establish (Scenario.failingAt PDUSessionAccept) "ue-1";
                              Establish Scenario.calm "ue-1";
                              Release Scenario.calm "ue-1"] Scenario.world))
              "upf-1")).
Proof.
  pose proof (performAll_keeps_invariants
                [Establish (Scenario.failingAt PDUSessionAccept) "ue-1";
                 Establish Scenario.calm "ue-1";
                 Release Scenario.calm "ue-1"] Scenario.world
                scenario_wellFormed scenario_storeConsistent) as H.
  cbv zeta in H. destruct H as (_ & _ & H & _). apply H.
Defined.

(** ** Establishment on an exhausted pool *)

Lemma allocateUEIP_exhausted ds upf ue at_ tun0 :
  tun0Interface (config upf) = Some tun0 -> 14 < startIP tun0 ->
  allocateUEIP ds upf ue at_ = (ds, upf, "10.0.0.2").
Proof.
  intros Htun Hgt. unfold allocateUEIP. rewrite Htun.
  destruct (allocate_scan tun0 ue at_) as [(k & Hk & _)|[_ ->]]; [lia|reflexivity].
Qed.

(** X14.  Establishment does not fail on an exhausted pool.  When the
    pool's counter is past 14 and no message raises, the call answers true
    and the session is ACTIVE with the address 10.0.0.2, while no pool of
    the store changes: the address is given without an entry in the
    mapping, whoever holds 10.0.0.2 there. *)
Theorem establishPDUSession_pool_exhausted
        (env : Env) (w : World) (ueId : string) (found : NFs) (tun0 : Tun0Interface) :
  state (sessionOf w ueId) <> ACTIVE ->
  state (sessionOf w ueId) <> ESTABLISHING ->
  validatePrerequisites (dataStore w) ueId = Valid found ->
  raises env establishmentMessages = false ->
  tun0Interface (config (upf found)) = Some tun0 ->
  14 < startIP tun0 ->
  let w1 := fst (establishPDUSession env w ueId) in
  snd (establishPDUSession env w ueId) = true
  /\ state (sessionOf w1 ueId) = ACTIVE
  /\ assignedIP (sessionOf w1 ueId) = Some "10.0.0.2"
  /\ (forall key, poolOf (dataStore w1) key = poolOf (dataStore w) key)
  /\ (forall key, entriesOf (dataStore w1) key = entriesOf (dataStore w) key).
Proof.
  intros Hna Hne Hval Hcalm Htun Hgt w1.
  destruct (valid_nodes _ _ _ Hval) as (Hue & _).
  pose proof (getNFById_id _ _ _ Hue) as Hid.
  destruct (establishPDUSession_run env w ueId found Hna Hne Hval)
    as (Hr & Hst & _ & _ & Hok & _).
  rewrite Hcalm in Hr, Hst. destruct (Hok Hcalm) as [Hds Hs]. clear Hok.
  rewrite (allocateUEIP_exhausted _ _ _ _ _ Htun Hgt) in Hds, Hs. cbn [fst snd] in Hds, Hs.
  fold w1 in Hst, Hds, Hs.
  assert (Hpool : forall key, poolOf (dataStore w1) key = poolOf (dataStore w) key).
  { intros key. rewrite Hds. unfold poolOf.
    destruct (String.eqb_spec key ueId) as [->|Hk].
    - rewrite (getNFById_updateNF_same _ _ _ _ Hue) by exact Hid. rewrite Hue. reflexivity.
    - rewrite getNFById_updateNF_other; [reflexivity|exact Hid|exact Hk]. }
  split; [exact Hr|]. split; [exact Hst|]. split; [rewrite Hs; reflexivity|].
  split; [exact Hpool|].
  intros key. unfold entriesOf. rewrite Hpool. reflexivity.
Qed.

Lemma establishPDUSession_pool_exhausted_witness :
  let pool15 := fst (allocateMany Scenario.pool0 Scenario.requests14) in
  let upf15 := set_config Scenario.upf1 (set_tun0 (config Scenario.upf1) (Some pool15)) in
  let w := mkWorld (updateNF Scenario.store "upf-1" upf15) ∅ in
  assignedIP (sessionOf (fst (establishPDUSession Scenario.calm w "ue-1")) "ue-1")
  = Some "10.0.0.2"
  /\ isAssigned pool15 "10.0.0.2" = true.
Proof.
  intros pool15 upf15 w.
  pose proof (establishPDUSession_pool_exhausted
                Scenario.calm w "ue-1"
                (mkNFs Scenario.ue1 Scenario.amf1 Scenario.smf1 upf15) pool15
                ltac:(vm_compute; discriminate) ltac:(vm_compute; discriminate)
                ltac:(vm_compute; reflexivity) ltac:(vm_compute; reflexivity)
                ltac:(reflexivity) ltac:(vm_compute; reflexivity)) as H.
  cbv zeta in H. destruct H as (_ & _ & H & _).
  split; [exact H|]. vm_compute. reflexivity.
Defined.

(** ** The animator, continued *)

Import PacketAnimator.

Lemma findCommonBus_some ds ss ts bus :
  findCommonBus ds ss ts = Some bus ->
  exists sbc tbc, sbc ∈ ss /\ tbc ∈ ts /\ busId sbc = busId tbc
                  /\ getBusById ds (busId sbc) = Some bus.
Proof.
  induction ss as [|sbc ss IH]; [discriminate|]. cbn [findCommonBus].
  destruct (existsb (fun tbc => String.eqb (busId sbc) (busId tbc)) ts) eqn:E.
  - destruct (getBusById ds (busId sbc)) as [b|] eqn:Hb.
    + intros [= <-]. apply existsb_elem in E as (tbc & Ht & He).
      apply String.eqb_eq in He. exists sbc, tbc. split; [left|]. auto.
    + intros H. destruct (IH H) as (s & t & Hs & Ht & He & Hg).
      exists s, t. split; [right; exact Hs|]. auto.
  - intros H. destruct (IH H) as (s & t & Hs & Ht & He & Hg).
    exists s, t. split; [right; exact Hs|]. auto.
Qed.

Lemma findCommonBus_none ds ss ts :
  (forall sbc tbc, sbc ∈ ss -> tbc ∈ ts -> busId sbc = busId tbc ->
                   getBusById ds (busId sbc) = None) ->
  findCommonBus ds ss ts = None.
Proof.
  induction ss as [|sbc ss IH]; [reflexivity|]. intros H. cbn [findCommonBus].
  assert (IH' : findCommonBus ds ss ts = None).
  { apply IH. intros s t Hs. apply H. right. exact Hs. }
  destruct (existsb (fun tbc => String.eqb (busId sbc) (busId tbc)) ts) eqn:E; [|exact IH'].
  apply existsb_elem in E as (tbc & Ht & He). apply String.eqb_eq in He.
  rewrite (H sbc tbc); [exact IH'|left|exact Ht|exact He].
Qed.

(** X15.  The shape of a path.  [calculatePath] starts at the source's
    position and ends at the target's; in between there is nothing, or two
    or three waypoints, so a path has 2, 4 or 5 waypoints.  Waypoints in
    between appear only when source and target are attached to one bus the
    store knows: the first is the source's connection point on that bus,
    the last the target's, and all lie on the bus line.  When the two nodes
    share no bus the store knows the path is the straight segment. *)
Theorem calculatePath_shape (ds : DataStore) (source target : NF) :
  let start := mkPosition (px (position source)) (py (position source)) in
  let finish := mkPosition (px (position target)) (py (position target)) in
  (exists mid,
      calculatePath ds source target = start :: mid ++ [finish]
      /\ (length mid = 0 \/ length mid = 2 \/ length mid = 3)%nat
      /\ (mid <> [] ->
          exists bus sbc tbc,
            sbc ∈ getBusConnectionsForNF ds (nf_id source)
            /\ tbc ∈ getBusConnectionsForNF ds (nf_id target)
            /\ busId sbc = busId tbc
            /\ getBusById ds (busId sbc) = Some bus
            /\ head mid = Some (getNFBusConnectionPoint source bus)
            /\ last mid = Some (getNFBusConnectionPoint target bus)
            /\ Forall (fun q => if String.eqb (orientation bus) "horizontal"
                                then py q = py (bus_position bus)
                                else px q = px (bus_position bus)) mid))
  /\ ((forall sbc tbc,
          sbc ∈ getBusConnectionsForNF ds (nf_id source) ->
          tbc ∈ getBusConnectionsForNF ds (nf_id target) ->
          busId sbc = busId tbc -> getBusById ds (busId sbc) = None) ->
      calculatePath ds source target = [start; finish]).
Proof.
  intros start finish. split.
  - unfold calculatePath. fold start finish.
    destruct (findCommonBus ds (getBusConnectionsForNF ds (nf_id source))
                            (getBusConnectionsForNF ds (nf_id target))) as [bus|] eqn:E.
    2:{ exists []. split; [reflexivity|]. split; [left; reflexivity|].
        intros H. contradiction H. reflexivity. }
    destruct (findCommonBus_some _ _ _ _ E) as (sbc & tbc & Hs & Ht & He & Hg).
    unfold getNFBusConnectionPoint.
    destruct (String.eqb (orientation bus) "horizontal") eqn:Ho; cbn [px py].
    + destruct (10 <? abs (px (position source) - px (position target)))%float.
      * eexists [_; _; _]. split; [reflexivity|]. split; [auto|]. intros _.
        exists bus, sbc, tbc. unfold getNFBusConnectionPoint. rewrite Ho.
        repeat split; auto; repeat constructor.
      * eexists [_; _]. split; [reflexivity|]. split; [auto|]. intros _.
        exists bus, sbc, tbc. unfold getNFBusConnectionPoint. rewrite Ho.
        repeat split; auto; repeat constructor.
    + destruct (10 <? abs (py (position source) - py (position target)))%float.
      * eexists [_; _; _]. split; [reflexivity|]. split; [auto|]. intros _.
        exists bus, sbc, tbc. unfold getNFBusConnectionPoint. rewrite Ho.
        repeat split; auto; repeat constructor.
      * eexists [_; _]. split; [reflexivity|]. split; [auto|]. intros _.
        exists bus, sbc, tbc. unfold getNFBusConnectionPoint. rewrite Ho.
        repeat split; auto; repeat constructor.
  - intros H. unfold calculatePath. rewrite (findCommonBus_none _ _ _ H). reflexivity.
Qed.

Lemma carry_range fuel len : forall seg sp,
  let '(seg', sp') := carry fuel len seg sp in
  (seg <= seg')%nat /\ (seg' = seg \/ seg' < len)%nat.
Proof.
  induction fuel as [|fuel IH]; intros seg sp; cbn [carry]; [split; [lia|left; reflexivity]|].
  destruct ((1 <=? sp)%float && (seg + 1 <? len)%nat) eqn:E;
    [|split; [lia|left; reflexivity]].
  apply andb_true_iff in E as [_ E]. apply Nat.ltb_lt in E.
  specialize (IH (S seg) (sp - 1)%float).
  destruct (carry fuel len (S seg) (sp - 1)%float) as [seg' sp'].
  destruct IH as [H1 H2]. split; [lia|]. right. lia.
Qed.

(** What a pass makes of a packet it does not complete. *)
Lemma advance_live p :
  finishes p = false ->
  let p' := fst (advance p) in
  (1 <=? segmentProgress p')%float = false
  /\ pkt_id p' = pkt_id p /\ pkt_sourceId p' = pkt_sourceId p
  /\ pkt_targetId p' = pkt_targetId p /\ path p' = path p /\ speed p' = speed p
  /\ onComplete p' = onComplete p
  /\ (currentSegment p <= currentSegment p')%nat
  /\ (currentSegment p' = currentSegment p \/ currentSegment p' < length (path p))%nat.
Proof.
  unfold finishes, advance. intros Hf.
  pose proof (carry_stops (length (path p)) (length (path p)) (currentSegment p)
                (segmentProgress p + speed p)%float ltac:(lia)) as Hstop.
  pose proof (carry_range (length (path p)) (length (path p)) (currentSegment p)
                (segmentProgress p + speed p)%float) as Hrange.
  destruct (carry (length (path p)) (length (path p)) (currentSegment p)
                  (segmentProgress p + speed p)%float) as [seg sp].
  rewrite Hf. cbn [fst segmentProgress pkt_id pkt_sourceId pkt_targetId path speed onComplete
                       currentSegment].
  destruct Hrange as [H1 H2].
  split; [|auto 10].
  destruct (1 <=? sp)%float; [|reflexivity].
  cbn [andb] in Hstop. rewrite andb_true_r in Hf.
  apply Nat.ltb_ge in Hstop. apply Nat.leb_gt in Hf. lia.
Qed.

Lemma Forall2_map_self {A B : Type} (R : A -> B -> Prop) (f : A -> B) (l : list A) :
  (forall x, x ∈ l -> R x (f x)) -> Forall2 R l (map f l).
Proof.
  induction l as [|x l IH]; intros H; [constructor|].
  cbn. constructor; [apply H; left|]. apply IH. intros y Hy. apply H. right. exact Hy.
Qed.

Lemma updatePackets_packets a :
  packets (updatePackets a)
  = map (fun p => fst (advance p)) (List.filter (fun p => negb (finishes p)) (packets a)).
Proof.
  destruct (updatePackets_fields a) as (-> & _). apply pass_live.
Qed.

Lemma updatePackets_counter a : packetCounter (updatePackets a) = packetCounter a.
Proof.
  unfold updatePackets. cbv zeta.
  destruct (length _ =? 0)%nat; [|reflexivity].
  destruct (stopAnimation_fields
              (mkAnimator
                 (map fst (filter (fun r => snd r = false) (map advance (packets a))))
                 (packetCounter a) (isRunning a) (animationFrameId a) (pendingFrames a)
                 (nextFrame a)
                 (resolved a
                  ++ map onComplete
                       (map fst (filter (fun r => snd r = true) (map advance (packets a)))))
                 (ticks a ++ [length (packets a)]))) as (_ & _ & _ & _ & H).
  exact H.
Qed.

Lemma advance_within p :
  withinPath p -> finishes p = false -> withinPath (fst (advance p)).
Proof.
  intros Hw Hf. destruct (advance_live p Hf) as (_ & _ & _ & _ & Hpath & _ & _ & _ & H).
  unfold withinPath in *. rewrite Hpath. destruct H as [-> |H]; [exact Hw|exact H].
Qed.

Lemma updatePackets_within a :
  Forall withinPath (packets a) -> Forall withinPath (packets (updatePackets a)).
Proof.
  intros Hw. rewrite updatePackets_packets. apply Forall_forall. intros p' Hp'.
  apply list_elem_of_In, in_map_iff in Hp' as (p & <- & Hp).
  apply filter_In in Hp as [Hp Hf]. apply negb_true_iff in Hf.
  apply advance_within; [|exact Hf].
  rewrite Forall_forall in Hw. apply Hw, list_elem_of_In, Hp.
Qed.

(** X16.  A pass of [updatePackets] over packets whose segment index is an
    index of their path (as [sendPacket] makes them): the live packets
    afterwards are the packets the pass did not complete, in their order,
    each with its identifier, end points, path, speed and continuation
    unchanged; the progress of each on its segment is not 1.0 or more; its
    segment index has not gone back and is still an index of the path.  The
    packet counter is not touched. *)
Theorem updatePackets_live_packets (a : Animator) :
  Forall withinPath (packets a) ->
  let a' := updatePackets a in
  Forall (fun p' => (1 <=? segmentProgress p')%float = false) (packets a')
  /\ Forall withinPath (packets a')
  /\ Forall2 (fun p p' =>
                pkt_id p' = pkt_id p /\ pkt_sourceId p' = pkt_sourceId p
                /\ pkt_targetId p' = pkt_targetId p /\ path p' = path p
                /\ speed p' = speed p /\ onComplete p' = onComplete p
                /\ (currentSegment p <= currentSegment p')%nat
                /\ (currentSegment p' = currentSegment p
                    \/ currentSegment p' < length (path p))%nat)
             (List.filter (fun p => negb (finishes p)) (packets a)) (packets a')
  /\ packetCounter a' = packetCounter a.
Proof.
  intros Hw a'. subst a'.
  split; [|split; [apply updatePackets_within, Hw|]].
  all: rewrite updatePackets_packets.
  all: assert (Hlive : forall p, p ∈ List.filter (fun p => negb (finishes p)) (packets a) ->
                                 finishes p = false)
    by (intros p Hp; apply list_elem_of_In, filter_In in Hp as [_ Hp];
        apply negb_true_iff in Hp; exact Hp).
  - apply Forall_forall. intros p' Hp'. apply list_elem_of_In in Hp'.
    apply in_map_iff in Hp' as (p & <- & Hp).
    apply list_elem_of_In in Hp. apply (advance_live p (Hlive p Hp)).
  - split; [|apply updatePackets_counter].
    apply Forall2_map_self. intros p Hp.
    destruct (advance_live p (Hlive p Hp)) as (_ & H). exact H.
Qed.

Lemma updatePackets_live_packets_witness :
  Forall withinPath
         (packets (updatePackets (run Scenario.store [Send request 7] constructed))).
Proof.
  destruct (updatePackets_live_packets (run Scenario.store [Send request 7] constructed))
    as (_ & H & _).
  - vm_compute. repeat constructor.
  - exact H.
Defined.

Lemma advance_id p : pkt_id (fst (advance p)) = pkt_id p.
Proof.
  unfold advance.
  destruct (carry (length (path p)) (length (path p)) (currentSegment p)
                  (segmentProgress p + speed p)%float).
  reflexivity.
Qed.

Lemma map_Lfilter_NoDup {A B : Type} (f : A -> B) (P : A -> bool) (l : list A) :
  NoDup (map f l) -> NoDup (map f (List.filter P l)).
Proof.
  induction l as [|x l IH]; [intros _; constructor|].
  cbn [map List.filter]. rewrite NoDup_cons. intros [Hx Hl].
  destruct (P x); [|apply IH, Hl].
  cbn [map]. apply NoDup_cons. split; [|apply IH, Hl].
  intros Hin. apply Hx. apply list_elem_of_In, in_map_iff in Hin as (y & Hy & Hin).
  apply filter_In in Hin as [Hin _].
  apply list_elem_of_In, in_map_iff. exists y. auto.
Qed.

Lemma updatePackets_fresh a : packetIdsFresh a -> packetIdsFresh (updatePackets a).
Proof.
  intros (Hnd & Hids & Hc). unfold packetIdsFresh.
  rewrite updatePackets_packets, updatePackets_counter.
  split; [|split; [|exact Hc]].
  - rewrite map_map. rewrite (map_ext _ pkt_id) by apply advance_id.
    apply map_Lfilter_NoDup, Hnd.
  - intros p' Hp'. apply list_elem_of_In, in_map_iff in Hp' as (p & <- & Hp).
    apply filter_In in Hp as [Hp _]. rewrite advance_id.
    apply Hids. apply list_elem_of_In. exact Hp.
Qed.

Lemma animate_counter a : packetCounter (animate a) = packetCounter a.
Proof.
  unfold animate. destruct (negb (isRunning a)); [reflexivity|].
  cbn. apply updatePackets_counter.
Qed.

Lemma animate_fresh a : packetIdsFresh a -> packetIdsFresh (animate a).
Proof.
  intros H. unfold animate. destruct (negb (isRunning a)); [exact H|].
  exact (updatePackets_fresh a H).
Qed.

Lemma startAnimation_fresh a : packetIdsFresh a -> packetIdsFresh (startAnimation a).
Proof.
  intros H. unfold startAnimation. destruct (isRunning a); [exact H|].
  apply animate_fresh. exact H.
Qed.

Lemma startAnimation_counter a : packetCounter (startAnimation a) = packetCounter a.
Proof.
  unfold startAnimation. destruct (isRunning a); [reflexivity|].
  rewrite animate_counter. reflexivity.
Qed.

Lemma packet_id_inj a b :
  "pkt-" +:+ string_of_Z a = "pkt-" +:+ string_of_Z b -> a = b.
Proof. cbn. intros H. injection H as H. apply string_of_Z_inj. exact H. Qed.

Lemma handle_fresh ds e a : packetIdsFresh a -> packetIdsFresh (handle ds e a).
Proof.
  intros H. destruct e as [|o k|f]; cbn [handle].
  - apply startAnimation_fresh, H.
  - unfold sendPacket.
    destruct (getNFById ds (o_sourceId o)) as [source|];
      [destruct (getNFById ds (o_targetId o)) as [target|]|]; [|exact H|exact H].
    match goal with
    | |- context [if negb (isRunning ?b) then _ else _] => set (a' := b)
    end.
    assert (H' : packetIdsFresh a').
    { destruct H as (Hnd & Hids & Hc). subst a'. unfold packetIdsFresh.
      cbn [packets packetCounter]. split; [|split; [|lia]].
      - rewrite map_app. apply NoDup_app. split; [exact Hnd|].
        split; [|apply NoDup_singleton].
        intros x Hx Hx'. cbn in Hx'. apply list_elem_of_singleton in Hx'. subst x.
        apply list_elem_of_In, in_map_iff in Hx as (p & Hp & Hin).
        apply list_elem_of_In in Hin. destruct (Hids p Hin) as (j & Hj & He).
        rewrite He in Hp. apply packet_id_inj in Hp. lia.
      - intros p Hp. apply elem_of_app in Hp as [Hp|Hp].
        + destruct (Hids p Hp) as (j & Hj & He). exists j. split; [lia|exact He].
        + apply list_elem_of_singleton in Hp. subst p.
          exists (packetCounter a + 1). split; [lia|reflexivity]. }
    destruct (negb (isRunning a')); [apply startAnimation_fresh|]; exact H'.
  - destruct (bool_decide (f ∈ pendingFrames a)); [|exact H].
    apply animate_fresh. exact H.
Qed.

Lemma handle_counter ds e a :
  packetCounter (handle ds e a) = packetCounter a + (if creates ds e then 1 else 0).
Proof.
  destruct e as [|o k|f]; cbn [handle creates].
  - rewrite Z.add_0_r. apply startAnimation_counter.
  - unfold sendPacket.
    destruct (getNFById ds (o_sourceId o)) as [source|];
      [destruct (getNFById ds (o_targetId o)) as [target|]|];
      [|cbn; lia|cbn; lia].
    match goal with
    | |- context [if negb (isRunning ?b) then _ else _] => set (a' := b)
    end.
    destruct (negb (isRunning a')); [rewrite startAnimation_counter|]; reflexivity.
  - rewrite Z.add_0_r. destruct (bool_decide (f ∈ pendingFrames a)); [|reflexivity].
    rewrite animate_counter. reflexivity.
Qed.

(** X17.  Packet identifiers.  Whatever the application and the browser
    do (initialisation, submissions, frames, in any order), the live
    packets have pairwise different identifiers, each pkt-j with j from 1 to
    the packet counter; and the counter is the number of submissions made
    so far between two nodes the store knew, so a submission that names an
    unknown node uses up no identifier. *)
Theorem packet_ids_fresh (ds : DataStore) (es : list Event) :
  let a := run ds es constructed in
  NoDup (map pkt_id (packets a))
  /\ (forall p, p ∈ packets a ->
                exists j, 1 <= j <= packetCounter a /\ pkt_id p = "pkt-" +:+ string_of_Z j)
  /\ packetCounter a = Z.of_nat (length (List.filter (creates ds) es)).
Proof.
  intros a. subst a.
  assert (H : packetIdsFresh (run ds es constructed)
              /\ packetCounter (run ds es constructed)
                 = Z.of_nat (length (List.filter (creates ds) es))).
  { induction es as [|e es IH] using rev_ind.
    - split; [|reflexivity]. split; [constructor|]. split; [|reflexivity].
      intros p Hp. cbn in Hp. apply elem_of_nil in Hp. contradiction.
    - destruct IH as [IH1 IH2]. rewrite run_snoc. split; [apply handle_fresh, IH1|].
      rewrite handle_counter, IH2, List.filter_app, length_app. cbn [List.filter].
      destruct (creates ds e); cbn [length]; lia. }
  destruct H as [(H1 & H2 & _) H3]. auto.
Qed.

Lemma run_conserves_from ds es : forall a,
  resolved (run ds es a) ++ pending (run ds es a) ≡ₚ (resolved a ++ pending a) ++ submitted es.
Proof.
  induction es as [|e es IH] using rev_ind; intros a.
  - cbn. rewrite app_nil_r. reflexivity.
  - rewrite run_snoc, submitted_snoc, handle_conserves, IH, app_assoc. reflexivity.
Qed.

(** X18.  [clearPackets] drops the live packets without invoking their
    continuations, and nothing invokes them later: after it, whatever else
    happens, the continuations invoked or pending are those invoked before
    together with those submitted since, so the promise of a dropped packet
    is never resolved.  It does not stop the loop either: if the animator
    was running, the next frame makes a pass over the empty set and stops
    it. *)
Theorem clearPackets_strands (ds : DataStore) (a : Animator) (es : list Event) :
  let a0 := clearPackets a in
  let a' := run ds es a0 in
  getPackets a0 = []
  /\ isAnimating a0 = false
  /\ isRunning a0 = isRunning a
  /\ resolved a0 = resolved a
  /\ resolved a' ++ pending a' ≡ₚ resolved a ++ submitted es
  /\ (forall k, k ∈ pending a -> ~ k ∈ resolved a -> ~ k ∈ submitted es ->
                ~ k ∈ resolved a' /\ ~ k ∈ pending a')
  /\ (forall f, isRunning a = true -> f ∈ pendingFrames a ->
                let a1 := handle ds (Frame f) a0 in
                ticks a1 = ticks a ++ [0%nat]
                /\ isRunning a1 = false
                /\ resolved a1 = resolved a).
Proof.
  intros a0 a'.
  assert (Hcons : resolved a' ++ pending a' ≡ₚ resolved a ++ submitted es).
  { subst a' a0. rewrite run_conserves_from. unfold pending. cbn. rewrite app_nil_r.
    reflexivity. }
  split; [reflexivity|]. split; [reflexivity|]. split; [reflexivity|].
  split; [reflexivity|]. split; [exact Hcons|]. split.
  - intros k _ Hr Hs.
    assert (Hk : ~ k ∈ resolved a' ++ pending a').
    { rewrite Hcons, elem_of_app. tauto. }
    rewrite elem_of_app in Hk. tauto.
  - intros f Hrun Hf a1. subst a1 a0. cbn [handle clearPackets pendingFrames].
    rewrite bool_decide_eq_true_2 by exact Hf.
    match goal with |- context [animate ?b] => set (b0 := b) end.
    destruct (animate_fields b0) as [_ Hon].
    destruct (Hon Hrun) as (Hp & Hr & Ht & Hi).
    destruct (updatePackets_fields b0) as (Hp' & Hr' & _ & Hstop & _).
    rewrite Ht, Hi, Hr, Hr'. split; [reflexivity|]. split.
    + apply Hstop. rewrite Hp'. reflexivity.
    + cbn. apply app_nil_r.
Qed.

(** ** Completion and idling *)



















(** ** Message identifiers *)

Lemma string_of_uint_digits d : digits_only (NilEmpty.string_of_uint d) = true.
Proof. induction d; cbn; auto. Qed.

Lemma string_of_Z_digits z : 0 <= z -> digits_only (string_of_Z z) = true.
Proof.
  intros Hz. unfold string_of_Z. destruct z as [|p|p]; [reflexivity| |lia].
  cbn [Z.to_int NilZero.string_of_int]. unfold NilZero.string_of_uint.
  destruct (Pos.to_uint p) eqn:E; try (rewrite <- E; apply string_of_uint_digits).
  reflexivity.
Qed.

Lemma dash_split a : forall a' r r',
  digits_only a = true -> digits_only a' = true ->
  a +:+ String "-" r = a' +:+ String "-" r' -> a = a' /\ r = r'.
Proof.
  induction a as [|c a IH]; intros [|c' a'] r r' Ha Ha' H; cbn in H.
  - injection H as H. auto.
  - injection H as Hc _. subst c'. cbn in Ha'. discriminate.
  - injection H as Hc _. subst c. cbn in Ha. discriminate.
  - injection H as Hc H. subst c'. cbn in Ha, Ha'.
    apply andb_true_iff in Ha as [_ Ha]. apply andb_true_iff in Ha' as [_ Ha'].
    destruct (IH a' r r' Ha Ha' H) as [-> ->]. auto.
Qed.

Lemma generateMessageId_counter c at_ :
  c < 9007199254740992 -> snd (generateMessageId c at_) = c + 1.
Proof.
  intros Hc. unfold generateMessageId. cbn [snd].
  destruct (Z.ltb_spec c 9007199254740992); [reflexivity|lia].
Qed.

Lemma generateMessageId_inj c at_ c' at_' :
  c < 9007199254740992 -> c' < 9007199254740992 ->
  0 <= at_ -> 0 <= at_' ->
  fst (generateMessageId c at_) = fst (generateMessageId c' at_') ->
  at_ = at_' /\ c = c'.
Proof.
  intros Hc Hc' Ha Ha' H. unfold generateMessageId in H. cbn [fst] in H.
  destruct (Z.ltb_spec c 9007199254740992) as [_|Hge]; [|lia].
  destruct (Z.ltb_spec c' 9007199254740992) as [_|Hge]; [|lia].
  change ("msg-" +:+ string_of_Z at_ +:+ "-" +:+ string_of_Z (c + 1))
    with (String "m" (String "s" (String "g" (String "-"
            (string_of_Z at_ +:+ String "-" (string_of_Z (c + 1))))))) in H.
  change ("msg-" +:+ string_of_Z at_' +:+ "-" +:+ string_of_Z (c' + 1))
    with (String "m" (String "s" (String "g" (String "-"
            (string_of_Z at_' +:+ String "-" (string_of_Z (c' + 1))))))) in H.
  injection H as H.
  apply dash_split in H as [H1 H2]; try (apply string_of_Z_digits; assumption).
  apply string_of_Z_inj in H1, H2. split; lia.
Qed.

Lemma generateMessageIds_elem clock : forall c x,
  c + Z.of_nat (length clock) <= 9007199254740992 ->
  x ∈ generateMessageIds c clock ->
  exists at_ j, at_ ∈ clock /\ c <= j < 9007199254740992
                /\ x = fst (generateMessageId j at_).
Proof.
  induction clock as [|t clock IH]; intros c x Hb Hx; cbn [generateMessageIds] in Hx.
  - apply elem_of_nil in Hx. contradiction.
  - cbn [length] in Hb.
    pose proof (generateMessageId_counter c t ltac:(lia)) as Hc.
    destruct (generateMessageId c t) as [id c1] eqn:E. cbn [snd] in Hc. subst c1.
    apply elem_of_cons in Hx as [->|Hx].
    + exists t, c. split; [left|]. split; [lia|]. rewrite E. reflexivity.
    + destruct (IH (c + 1) x ltac:(lia) Hx) as (at_ & j & Hin & Hj & ->).
      exists at_, j. split; [right; exact Hin|]. split; [lia|reflexivity].
Qed.

(** X19.  [generateMessageId] gives identifiers that are unique for the
    manager as long as its counter has not reached 2^53: the identifiers of
    successive calls are pairwise different, also when the clock does not
    advance between them, and an identifier determines both the clock
    reading and the counter it was made from.  At 2^53 the counter stays
    where it is, and two calls at the same clock reading give the same
    identifier. *)
Theorem generateMessageId_unique (messageCounter : Z) (clock : list Z) :
  0 <= messageCounter ->
  messageCounter + Z.of_nat (length clock) <= 9007199254740992 ->
  Forall (fun at_ => 0 <= at_ <= 8640000000000000) clock ->
  NoDup (generateMessageIds messageCounter clock)
  /\ length (generateMessageIds messageCounter clock) = length clock
  /\ (forall c at_ c' at_',
         0 <= c < 9007199254740992 -> 0 <= c' < 9007199254740992 ->
         0 <= at_ <= 8640000000000000 -> 0 <= at_' <= 8640000000000000 ->
         fst (generateMessageId c at_) = fst (generateMessageId c' at_') ->
         at_ = at_' /\ c = c')
  /\ (forall c at_, 0 <= c < 9007199254740992 -> snd (generateMessageId c at_) = c + 1)
  /\ (forall at_,
         snd (generateMessageId 9007199254740992 at_) = 9007199254740992
         /\ ~ NoDup (generateMessageIds 9007199254740992 [at_; at_])).
Proof.
  intros Hc0 Hb Hclock. split; [|split; [|split; [|split]]].
  - clear Hc0. revert messageCounter Hb.
    induction clock as [|t clock IH]; intros c Hb; [constructor|].
    apply Forall_cons in Hclock as [Ht Hclock]. cbn [length] in Hb.
    cbn [generateMessageIds].
    pose proof (generateMessageId_counter c t ltac:(lia)) as Hc.
    destruct (generateMessageId c t) as [id c1] eqn:E. cbn [snd] in Hc. subst c1.
    apply NoDup_cons. split; [|apply IH; [exact Hclock|lia]].
    intros Hin. apply generateMessageIds_elem in Hin as (at_ & j & Hat & Hj & He); [|lia].
    replace id with (fst (generateMessageId c t)) in He by (rewrite E; reflexivity).
    apply generateMessageId_inj in He as [_ He]; [lia|lia|lia|lia|].
    rewrite Forall_forall in Hclock. apply Hclock, Hat.
  - clear. revert messageCounter.
    induction clock as [|t clock IH]; intros c; [reflexivity|].
    cbn [generateMessageIds]. destruct (generateMessageId c t) as [id c1].
    cbn [length]. rewrite IH. reflexivity.
  - intros c at_ c' at_' Hc Hc' Ha Ha'. apply generateMessageId_inj; lia.
  - intros c at_ Hc. apply generateMessageId_counter. lia.
  - intros at_. split; [reflexivity|].
    cbn. intros Hnd. apply NoDup_cons in Hnd as [Hnd _]. apply Hnd. left.
Qed.

Lemma generateMessageId_unique_witness :
  NoDup (generateMessageIds 0 [1700000000000; 1700000000000; 1700000000000]).
Proof.
  destruct (generateMessageId_unique 0 [1700000000000; 1700000000000; 1700000000000])
    as [H _].
  - lia.
  - cbn. lia.
  - repeat constructor; lia.
  - exact H.
Defined.
